(** * Token codec, deletion tracker and catalog sync of the Sheets add-on

    A shallow embedding of [src/Code.js].  The file holds three successive
    versions of the add-on; the one embedded here is the authenticated,
    deletion-aware version (lines 442-1109), the only one that contains
    [getDeletedProductIds] and the four-field push result.

    JavaScript strings are sequences of 16-bit code units, numbers that the
    code computes with are integers, and everything the code reads from or
    writes to the spreadsheet platform is threaded through an explicit
    [World]. *)

From Stdlib Require Import NArith ZArith List Lia Bool String Ascii.
Import ListNotations.

Local Open Scope N_scope.

Ltac Zify.zify_post_hook ::= Z.to_euclidean_division_equations.

(** ** JavaScript strings *)

(** A string is the list of its UTF-16 code units. *)
Definition jsstring := list N.

(** Every code unit fits in 16 bits. *)
Definition is_jsstring (s : jsstring) : Prop := Forall (fun c => c < 65536) s.

(** A string of characters below 128. *)
Definition is_ascii (s : jsstring) : Prop := Forall (fun c => c < 128) s.

(** Bytes are numbers below 256. *)
Definition is_bytes (bs : list N) : Prop := Forall (fun b => b < 256) bs.

(** A string literal of the source, as code units. *)
Definition js (s : string) : jsstring := map N_of_ascii (list_ascii_of_string s).

Definition jsstring_eqb (a b : jsstring) : bool :=
  if list_eq_dec N.eq_dec a b then true else false.

(** [s.charCodeAt(pos)]: [None] stands for NaN.  A NaN position is converted
    to position 0, and a position outside the string yields NaN. *)
Definition charCodeAt (s : jsstring) (pos : option nat) : option N :=
  nth_error s (match pos with Some p => p | None => 0%nat end).

(** [i % k] on non-negative integers: NaN when [k] is zero. *)
Definition js_rem (i k : nat) : option nat :=
  match k with
  | O => None
  | _ => Some (Nat.modulo i k)
  end.

(** [a ^ b] on char codes: NaN is converted to 0 by ToInt32. *)
Definition js_bitxor (a b : option N) : N :=
  N.lxor (match a with Some x => x | None => 0 end)
         (match b with Some x => x | None => 0 end).

(** [String.fromCharCode(n)] keeps the low 16 bits. *)
Definition fromCharCode (n : N) : N := n mod 65536.

(** ** Errors and completions *)

(** A thrown value: an error object with its [name] and [message]. *)
Record JsError := mkJsError { err_name : jsstring; err_message : jsstring }.

(** [new Error(msg)] *)
Definition Error (msg : string) : JsError := mkJsError (js "Error") (js msg).

Definition TypeError (msg : string) : JsError := mkJsError (js "TypeError") (js msg).

(** [error.toString()] *)
Definition error_toString (e : JsError) : jsstring :=
  match err_name e, err_message e with
  | [], m => m
  | n, [] => n
  | n, m => n ++ js ": " ++ m
  end.

(** The outcome of evaluating a piece of code: a value or a thrown error. *)
Inductive Completion (A : Type) : Type :=
| Return (a : A)
| Throw (e : JsError).
Arguments Return {A} a.
Arguments Throw {A} e.

(** ** The platform's text and Base64 services

    [Utilities.base64Encode(string)] encodes the UTF-8 bytes of the string,
    [Utilities.base64Decode] yields bytes and
    [Utilities.newBlob(bytes).getDataAsString()] reads bytes as UTF-8.  These
    belong to the Apps Script platform; they are modelled here after their
    documentation. *)

Definition is_high_surrogate (c : N) : bool := (0xD800 <=? c) && (c <? 0xDC00).
Definition is_low_surrogate (c : N) : bool := (0xDC00 <=? c) && (c <? 0xE000).

Definition is_surrogate (c : N) : bool :=
  is_high_surrogate c || is_low_surrogate c.

(** The code point of a surrogate pair. *)
Definition pair_code_point (hi lo : N) : N :=
  0x10000 + (hi - 0xD800) * 0x400 + (lo - 0xDC00).

(** The UTF-8 bytes of one code point. *)
Definition utf8_of_code_point (cp : N) : list N :=
  if cp <? 0x80 then [cp]
  else if cp <? 0x800 then [0xC0 + cp / 64; 0x80 + cp mod 64]
  else if cp <? 0x10000 then
    [0xE0 + cp / 4096; 0x80 + (cp / 64) mod 64; 0x80 + cp mod 64]
  else
    [0xF0 + cp / 262144; 0x80 + (cp / 4096) mod 64;
     0x80 + (cp / 64) mod 64; 0x80 + cp mod 64].

(** The byte an encoder puts in place of a surrogate that has no partner. *)
Definition utf8_replacement_byte : N := 63.

(** String to UTF-8 bytes.  A surrogate pair is one code point; a surrogate
    without its partner is not encodable and is replaced (whatever is put in
    its place, no decoder gives a lone surrogate back). *)
Fixpoint utf8_encode (s : jsstring) : list N :=
  match s with
  | [] => []
  | c :: t =>
    if is_high_surrogate c then
      match t with
      | d :: t' =>
        if is_low_surrogate d
        then utf8_of_code_point (pair_code_point c d) ++ utf8_encode t'
        else utf8_replacement_byte :: utf8_encode t
      | [] => [utf8_replacement_byte]
      end
    else if is_low_surrogate c then utf8_replacement_byte :: utf8_encode t
    else utf8_of_code_point c ++ utf8_encode t
  end.

(** A string in which every surrogate has its partner. *)
Fixpoint well_formed (s : jsstring) : bool :=
  match s with
  | [] => true
  | c :: t =>
    if is_high_surrogate c then
      match t with
      | d :: t' => is_low_surrogate d && well_formed t'
      | [] => false
      end
    else negb (is_low_surrogate c) && well_formed t
  end.

Definition is_continuation (b : N) : bool := (0x80 <=? b) && (b <? 0xC0).

(** The code units of a decoded code point. *)
Definition utf16_of_code_point (cp : N) : jsstring :=
  if cp <? 0x10000 then [cp]
  else [0xD800 + (cp - 0x10000) / 0x400; 0xDC00 + (cp - 0x10000) mod 0x400].

(** The character a decoder puts in place of a malformed byte. *)
Definition replacement_character : N := 0xFFFD.

(** A well-formed two-byte sequence and its code point. *)
Definition decode2 (b0 b1 : N) : option N :=
  if (0xC2 <=? b0) && (b0 <? 0xE0) && is_continuation b1
  then Some ((b0 - 0xC0) * 64 + (b1 - 0x80))
  else None.

(** A well-formed three-byte sequence: no overlong form, no surrogate. *)
Definition decode3 (b0 b1 b2 : N) : option N :=
  if (0xE0 <=? b0) && (b0 <? 0xF0) && is_continuation b1 && is_continuation b2
  then
    let cp := (b0 - 0xE0) * 4096 + (b1 - 0x80) * 64 + (b2 - 0x80) in
    if (0x800 <=? cp) && negb ((0xD800 <=? cp) && (cp <? 0xE000))
    then Some cp else None
  else None.

(** A well-formed four-byte sequence: U+10000 to U+10FFFF. *)
Definition decode4 (b0 b1 b2 b3 : N) : option N :=
  if (0xF0 <=? b0) && (b0 <? 0xF5) && is_continuation b1
     && is_continuation b2 && is_continuation b3
  then
    let cp := (b0 - 0xF0) * 262144 + (b1 - 0x80) * 4096
              + (b2 - 0x80) * 64 + (b3 - 0x80) in
    if (0x10000 <=? cp) && (cp <? 0x110000) then Some cp else None
  else None.

(** UTF-8 bytes to string.  A byte that starts no well-formed sequence is
    replaced by U+FFFD and decoding resumes at the next byte. *)
Fixpoint utf8_decode (bs : list N) : jsstring :=
  match bs with
  | [] => []
  | b0 :: t0 =>
    if b0 <? 0x80 then b0 :: utf8_decode t0
    else
      match t0 with
      | [] => [replacement_character]
      | b1 :: t1 =>
        match decode2 b0 b1 with
        | Some cp => utf16_of_code_point cp ++ utf8_decode t1
        | None =>
          match t1 with
          | [] => replacement_character :: utf8_decode t0
          | b2 :: t2 =>
            match decode3 b0 b1 b2 with
            | Some cp => utf16_of_code_point cp ++ utf8_decode t2
            | None =>
              match t2 with
              | [] => replacement_character :: utf8_decode t0
              | b3 :: t3 =>
                match decode4 b0 b1 b2 b3 with
                | Some cp => utf16_of_code_point cp ++ utf8_decode t3
                | None => replacement_character :: utf8_decode t0
                end
              end
            end
          end
        end
      end
  end.

(** The Base64 alphabet: the character of a 6-bit value. *)
Definition base64_char (v : N) : N :=
  if v <? 26 then 65 + v
  else if v <? 52 then 71 + v
  else if v <? 62 then v - 4
  else if v =? 62 then 43
  else 47.

(** The 6-bit value of a character of the alphabet. *)
Definition base64_value (c : N) : option N :=
  if (65 <=? c) && (c <=? 90) then Some (c - 65)
  else if (97 <=? c) && (c <=? 122) then Some (c - 71)
  else if (48 <=? c) && (c <=? 57) then Some (c + 4)
  else if c =? 43 then Some 62
  else if c =? 47 then Some 63
  else None.

Definition base64_pad : N := 61.

(** Base64 of a byte sequence, padded with [=]. *)
Fixpoint base64_of_bytes (bs : list N) : jsstring :=
  match bs with
  | [] => []
  | [b0] =>
    [base64_char (b0 / 4); base64_char ((b0 mod 4) * 16); base64_pad; base64_pad]
  | [b0; b1] =>
    [base64_char (b0 / 4); base64_char ((b0 mod 4) * 16 + b1 / 16);
     base64_char ((b1 mod 16) * 4); base64_pad]
  | b0 :: b1 :: b2 :: rest =>
    base64_char (b0 / 4) :: base64_char ((b0 mod 4) * 16 + b1 / 16)
    :: base64_char ((b1 mod 16) * 4 + b2 / 64) :: base64_char (b2 mod 64)
    :: base64_of_bytes rest
  end.

(** The bytes of a Base64 text; [None] when the text is not validly encoded
    (length not a multiple of four, a character outside the alphabet, or
    padding anywhere but at the end). *)
Fixpoint bytes_of_base64 (cs : jsstring) : option (list N) :=
  match cs with
  | [] => Some []
  | c0 :: c1 :: c2 :: c3 :: rest =>
    match base64_value c0, base64_value c1 with
    | Some v0, Some v1 =>
      let b0 := v0 * 4 + v1 / 16 in
      match base64_value c2, base64_value c3 with
      | Some v2, Some v3 =>
        match bytes_of_base64 rest with
        | Some bs =>
          Some (b0 :: (v1 mod 16) * 16 + v2 / 4 :: (v2 mod 4) * 64 + v3 :: bs)
        | None => None
        end
      | Some v2, None =>
        if (c3 =? base64_pad) && (match rest with [] => true | _ => false end)
        then Some [b0; (v1 mod 16) * 16 + v2 / 4]
        else None
      | None, _ =>
        if (c2 =? base64_pad) && (c3 =? base64_pad)
           && (match rest with [] => true | _ => false end)
        then Some [b0]
        else None
      end
    | _, _ => None
    end
  | _ => None
  end.

(** [Utilities.base64Encode(text)] *)
Definition Utilities_base64Encode (text : jsstring) : jsstring :=
  base64_of_bytes (utf8_encode text).

(** [Utilities.base64Decode(encoded)]: raises on text that is not Base64. *)
Definition Utilities_base64Decode (encoded : jsstring) : Completion (list N) :=
  match bytes_of_base64 encoded with
  | Some bs => Return bs
  | None => Throw (mkJsError (js "Exception") (js "Could not decode string."))
  end.

(** [Utilities.newBlob(bytes).getDataAsString()] *)
Definition Blob_getDataAsString (bytes : list N) : jsstring := utf8_decode bytes.

(** ** Token codec *)

(** The loop shared by [xorEncrypt] and [xorDecrypt]: character [i] of the
    text is combined with character [i % keyLength] of the key. *)
Definition xor_loop (data secretKey : jsstring) : jsstring :=
  let keyLength := List.length secretKey in
  map (fun i =>
         let keyChar := charCodeAt secretKey (js_rem i keyLength) in
         let dataChar := charCodeAt data (Some i) in
         fromCharCode (js_bitxor dataChar keyChar))
      (seq 0 (List.length data)).

(** [xorEncrypt(data, secretKey)].  A secret that is [undefined] or [null] is
    [None]. *)
Definition xorEncrypt (data : jsstring) (secretKey : option jsstring)
  : Completion jsstring :=
  match secretKey with
  | None => Throw (Error "Secret key is required for encryption")
  | Some key =>
    if Nat.eqb (List.length key) 0
    then Throw (Error "Secret key is required for encryption")
    else Return (Utilities_base64Encode (xor_loop data key))
  end.

(** The body of the [try] block of [xorDecrypt]. *)
Definition xorDecrypt_try (encryptedData : jsstring) (secretKey : option jsstring)
  : Completion jsstring :=
  match Utilities_base64Decode encryptedData with
  | Throw e => Throw e
  | Return decoded =>
    let decodedString := Blob_getDataAsString decoded in
    match secretKey with
    | None => Throw (TypeError "Cannot read properties of undefined (reading 'length')")
    | Some key => Return (xor_loop decodedString key)
    end
  end.

(** [xorDecrypt(encryptedData, secretKey)]: whatever the [try] block throws
    is replaced by one error. *)
Definition xorDecrypt (encryptedData : jsstring) (secretKey : option jsstring)
  : Completion jsstring :=
  match xorDecrypt_try encryptedData secretKey with
  | Return plain => Return plain
  | Throw _ => Throw (Error "Decryption failed: Invalid token")
  end.

(** ** Numbers and text *)

(** The decimal digits of a natural number, most significant first. *)
Fixpoint digits_of (fuel : nat) (n : N) (acc : jsstring) : jsstring :=
  match fuel with
  | O => acc
  | S fuel' =>
    let acc' := (48 + n mod 10) :: acc in
    if n / 10 =? 0 then acc' else digits_of fuel' (n / 10) acc'
  end.

(** The decimal text of a natural number. *)
Definition N_toString (n : N) : jsstring :=
  digits_of (S (N.to_nat (N.log2 n))) n [].

(** [String(z)] for an integer [z] (exact for every time value a [Date] can
    hold and for every count). *)
Definition Number_toString (z : Z) : jsstring :=
  match z with
  | Zneg p => 45 :: N_toString (Npos p)
  | _ => N_toString (Z.to_N z)
  end.

(** A decimal digit. *)
Definition is_digit (c : N) : Prop := 48 <= c <= 57.

(** White space and line terminators skipped by [parseInt]. *)
Definition is_whitespace (c : N) : bool :=
  ((9 <=? c) && (c <=? 13)) || (c =? 32) || (c =? 160) || (c =? 0x1680)
  || ((0x2000 <=? c) && (c <=? 0x200A)) || (c =? 0x2028) || (c =? 0x2029)
  || (c =? 0x202F) || (c =? 0x205F) || (c =? 0x3000) || (c =? 0xFEFF).

Fixpoint skip_whitespace (s : jsstring) : jsstring :=
  match s with
  | c :: t => if is_whitespace c then skip_whitespace t else s
  | [] => []
  end.

(** The value of a digit in the given radix. *)
Definition digit_value (radix c : N) : option N :=
  let v := if (48 <=? c) && (c <=? 57) then Some (c - 48)
           else if (97 <=? c) && (c <=? 122) then Some (c - 87)
           else if (65 <=? c) && (c <=? 90) then Some (c - 55)
           else None in
  match v with
  | Some d => if d <? radix then Some d else None
  | None => None
  end.

(** The value of the longest prefix of digits. *)
Fixpoint parse_digits (radix : N) (s : jsstring) (acc : N) : N :=
  match s with
  | c :: t =>
    match digit_value radix c with
    | Some d => parse_digits radix t (acc * radix + d)
    | None => acc
    end
  | [] => acc
  end.

Definition starts_with_digit (radix : N) (s : jsstring) : bool :=
  match s with
  | c :: _ => match digit_value radix c with Some _ => true | None => false end
  | [] => false
  end.

(** The radix a text is read in, and the text after its radix prefix: 16
    after [0x] or [0X], 10 otherwise. *)
Definition strip_radix_prefix (s : jsstring) : N * jsstring :=
  match s with
  | c0 :: c1 :: t =>
    if (c0 =? 48) && ((c1 =? 120) || (c1 =? 88)) then (16, t) else (10, s)
  | _ => (10, s)
  end.

(** The number at the head of a text without sign; [None] when there is no
    digit. *)
Definition parse_magnitude (s : jsstring) : option N :=
  let '(radix, s) := strip_radix_prefix s in
  if starts_with_digit radix s then Some (parse_digits radix s 0) else None.

(** [parseInt(text)] with no radix argument; [None] is NaN.  The result is
    exact where JavaScript's is, that is up to 2^53 in magnitude. *)
Definition parseInt (text : jsstring) : option Z :=
  let s := skip_whitespace text in
  let '(negative, s) :=
    match s with
    | c :: t =>
      if c =? 45 then (true, t) else if c =? 43 then (false, t) else (false, s)
    | [] => (false, s)
    end in
  match parse_magnitude s with
  | Some m => Some (if negative then Z.opp (Z.of_N m) else Z.of_N m)
  | None => None
  end.

(** [text.split(sep)] for a separator of one character. *)
Fixpoint split (sep : N) (text : jsstring) : list jsstring :=
  match text with
  | [] => [[]]
  | c :: t =>
    if c =? sep then [] :: split sep t
    else
      match split sep t with
      | part :: parts => (c :: part) :: parts
      | [] => [[c]]
      end
  end.

(** The separator of a token's two parts, [|]. *)
Definition bar : N := 124.

(** Truthiness of a string. *)
Definition nonempty (s : jsstring) : bool :=
  match s with [] => false | _ :: _ => true end.

(** The object returned by [validateSheetToken]: [{isValid: true, sheetId,
    timestamp}] or [{isValid: false, error}].  A NaN timestamp is [None]. *)
Inductive TokenValidation :=
| TokenValid (sheetId : jsstring) (timestamp : option Z)
| TokenInvalid (error : jsstring).

Definition isValid (r : TokenValidation) : bool :=
  match r with TokenValid _ _ => true | TokenInvalid _ => false end.

(** [currentTime - timestamp > 86400000]; a comparison with NaN is false. *)
Definition token_expired (currentTime : Z) (timestamp : option Z) : bool :=
  match timestamp with
  | Some t => (currentTime - t >? 86400000)%Z
  | None => false
  end.

(** The body of the [try] block of [validateSheetToken].  The global
    [ENCRYPTION_CONFIG.secretKey] and the reading of the clock are
    parameters. *)
Definition validateSheetToken_try (secretKey : jsstring) (currentTime : Z)
           (encryptedToken : jsstring) : Completion TokenValidation :=
  if negb (nonempty secretKey)
  then Throw (Error "Secret key is not configured. Cannot validate token.")
  else
    match xorDecrypt encryptedToken (Some secretKey) with
    | Throw e => Throw e
    | Return decryptedData =>
      let parts := split bar decryptedData in
      if negb (Nat.eqb (List.length parts) 2)
      then Throw (Error "Invalid token format")
      else
        let sheetId := nth 0 parts [] in
        let timestamp := parseInt (nth 1 parts []) in
        if token_expired currentTime timestamp
        then Throw (Error "Token expired")
        else Return (TokenValid sheetId timestamp)
    end.

(** [validateSheetToken(encryptedToken)] *)
Definition validateSheetToken (secretKey : jsstring) (currentTime : Z)
           (encryptedToken : jsstring) : Completion TokenValidation :=
  match validateSheetToken_try secretKey currentTime encryptedToken with
  | Return r => Return r
  | Throw error => Return (TokenInvalid (err_message error))
  end.

(** The time values a [Date] can hold, in milliseconds. *)
Definition is_time_value (t : Z) : Prop :=
  (-8640000000000000 <= t <= 8640000000000000)%Z.

(** The text a token carries: [sheetId + '|' + timestamp]. *)
Definition tokenData (sheetId : jsstring) (timestamp : Z) : jsstring :=
  sheetId ++ js "|" ++ Number_toString timestamp.

(** ** Values *)

(** The values that come out of [JSON.parse] and that grid cells hold.  A
    number that is not an integer is kept by its decimal text; the code never
    computes with such a number.  An object lists each of its fields once. *)
#[warnings="-register-all"]
Inductive JValue :=
| JUndefined
| JNull
| JBool (b : bool)
| JNum (z : Z)
| JReal (text : jsstring)
| JStr (s : jsstring)
| JArr (items : list JValue)
| JObj (fields : list (jsstring * JValue)).

(** Truthiness. *)
Definition toBoolean (v : JValue) : bool :=
  match v with
  | JUndefined | JNull => false
  | JBool b => b
  | JNum z => negb (Z.eqb z 0)
  | JReal _ => true
  | JStr s => nonempty s
  | JArr _ | JObj _ => true
  end.

(** [a || b] *)
Definition js_or (a b : JValue) : JValue := if toBoolean a then a else b.

(** Conversion to a string, as done by [toString()] and by [+] with a
    string. *)
Fixpoint ToString (v : JValue) : jsstring :=
  match v with
  | JUndefined => js "undefined"
  | JNull => js "null"
  | JBool true => js "true"
  | JBool false => js "false"
  | JNum z => Number_toString z
  | JReal text => text
  | JStr s => s
  | JArr items =>
    (fix join (l : list JValue) : jsstring :=
       match l with
       | [] => []
       | x :: r =>
         let item := match x with
                     | JUndefined | JNull => []
                     | _ => ToString x
                     end in
         match r with
         | [] => item
         | _ :: _ => item ++ js "," ++ join r
         end
       end) items
  | JObj _ => js "[object Object]"
  end.

Fixpoint lookup_field (key : jsstring) (fields : list (jsstring * JValue))
  : JValue :=
  match fields with
  | [] => JUndefined
  | (k, v) :: rest => if jsstring_eqb k key then v else lookup_field key rest
  end.

(** Reading the property [key] of a value.  Reading from [undefined] or
    [null] raises a TypeError (with the text the V8 engine gives it); apart
    from [length], the names the code reads exist only on objects. *)
Definition getProp (v : JValue) (key : string) : Completion JValue :=
  match v with
  | JUndefined =>
    Throw (mkJsError (js "TypeError")
             (js "Cannot read properties of undefined (reading '" ++ js key ++ js "')"))
  | JNull =>
    Throw (mkJsError (js "TypeError")
             (js "Cannot read properties of null (reading '" ++ js key ++ js "')"))
  | JObj fields => Return (lookup_field (js key) fields)
  | JArr items =>
    Return (if String.eqb key "length"
            then JNum (Z.of_nat (List.length items)) else JUndefined)
  | JStr s =>
    Return (if String.eqb key "length"
            then JNum (Z.of_nat (List.length s)) else JUndefined)
  | _ => Return JUndefined
  end.

Definition isArray (v : JValue) : bool :=
  match v with JArr _ => true | _ => false end.

(** ** The grid *)

Definition Row := list JValue.
Definition Grid := list Row.

(** An empty cell reads as the empty string. *)
Definition blank : JValue := JStr [].

Definition is_blank (v : JValue) : bool :=
  match v with
  | JStr [] | JUndefined | JNull => true
  | _ => false
  end.

(** What a written value leaves in a cell: nothing, for [undefined] and
    [null]. *)
Definition cell_of (v : JValue) : JValue := if is_blank v then blank else v.

(** What is read from the cell at row [r] and column [c], both counted from
    0. *)
Definition cell (g : Grid) (r c : nat) : JValue :=
  cell_of (nth c (nth r g []) blank).

(** The number of the last cell of a row that has content, 0 if none. *)
Fixpoint row_extent (row : Row) : nat :=
  match row with
  | [] => 0
  | v :: rest =>
    match row_extent rest with
    | O => if is_blank v then 0 else 1
    | S n => S (S n)
    end
  end.

(** [sheet.getLastRow()] *)
Fixpoint getLastRow (g : Grid) : nat :=
  match g with
  | [] => 0
  | row :: rest =>
    match getLastRow rest with
    | O => match row_extent row with O => 0 | S _ => 1 end
    | S n => S (S n)
    end
  end.

(** [sheet.getLastColumn()] *)
Definition getLastColumn (g : Grid) : nat :=
  fold_right (fun row m => Nat.max (row_extent row) m) 0%nat g.

(** [sheet.getRange(row, 1, numRows, numColumns).getValues()], rows counted
    from 1 as in the source. *)
Definition getRange_getValues (g : Grid) (row numRows numColumns : nat)
  : list Row :=
  map (fun r => map (fun c => cell g r c) (seq 0 numColumns))
      (seq (row - 1) numRows).

(** [sheet.getDataRange().getValues()]: the rectangle that holds the data,
    one cell at least. *)
Definition getDataRange_getValues (g : Grid) : list Row :=
  getRange_getValues g 1 (Nat.max 1 (getLastRow g)) (Nat.max 1 (getLastColumn g)).

(** Writing [new] over the first cells of [old]. *)
Definition overwrite (new old : Row) : Row :=
  map cell_of new ++ skipn (List.length new) old.

Fixpoint overwrite_rows (rows : list Row) (g : Grid) : Grid :=
  match rows with
  | [] => g
  | new :: rows' =>
    match g with
    | [] => overwrite new [] :: overwrite_rows rows' []
    | old :: g' => overwrite new old :: overwrite_rows rows' g'
    end
  end.

(** The grid with [rows] written from row [r] (counted from 0), first column
    on. *)
Fixpoint write_rows (r : nat) (rows : list Row) (g : Grid) : Grid :=
  match r with
  | O => overwrite_rows rows g
  | S r' =>
    match g with
    | [] => [] :: write_rows r' rows []
    | old :: g' => old :: write_rows r' rows g'
    end
  end.

(** The row with its first [numColumns] cells emptied. *)
Definition clear_row (numColumns : nat) (row : Row) : Row :=
  repeat blank (Nat.min numColumns (List.length row)) ++ skipn numColumns row.

(** The grid with the first [numColumns] cells emptied in [numRows] rows,
    after [skip] rows left as they are. *)
Fixpoint clear_rows (skip numRows numColumns : nat) (g : Grid) : Grid :=
  match g with
  | [] => []
  | row :: g' =>
    match skip with
    | S skip' => row :: clear_rows skip' numRows numColumns g'
    | O =>
      match numRows with
      | O => g
      | S numRows' =>
        clear_row numColumns row :: clear_rows 0 numRows' numColumns g'
      end
    end
  end.

(** [sheet.getRange(row, 1, numRows, numColumns).clearContent()] *)
Definition clearContent (g : Grid) (row numRows numColumns : nat) : Grid :=
  clear_rows (row - 1) numRows numColumns g.

(** Formatting requests made to the sheet, in order. *)
Inductive FormatOp :=
| SetFontWeightBold (row numColumns : nat)
| SetFrozenRows (n : nat)
| AutoResizeColumn (column : nat)
| SetColumnWidth (column width : nat).

Record Sheet := mkSheet { cells : Grid; formatting : list FormatOp }.

(** ** The world of an invocation *)

Inductive HttpMethod := GET | POST.

(** A request handed to [UrlFetchApp.fetch].  The payload is the value given
    to [JSON.stringify]. *)
Record Request := mkRequest {
  req_url : jsstring;
  req_method : HttpMethod;
  req_headers : list (jsstring * jsstring);
  req_payload : option JValue
}.

(** A response: its status code, its text, and what [JSON.parse] makes of
    the text ([None] when the text is not JSON and parsing raises). *)
Record Response := mkResponse {
  getResponseCode : Z;
  getContentText : jsstring;
  parsedContent : option JValue
}.

(** Everything outside the script that an invocation reads or writes: the
    user properties, the document property, the global
    [ENCRYPTION_CONFIG.secretKey], the active sheet and selection, the
    spreadsheet's id, the clock, the remote end and the log.  The document
    property [STORED_PRODUCT_IDS] holds the JSON text of an array of strings;
    the array itself is kept. *)
Record World := mkWorld {
  WP_BASE_URL : option jsstring;
  WP_SECRET_KEY : option jsstring;
  STORED_PRODUCT_IDS : option (list jsstring);
  ENCRYPTION_CONFIG_secretKey : jsstring;
  activeSheet : Sheet;
  activeRange : nat * nat;
  spreadsheetId : jsstring;
  clock : nat -> Z;
  clockReads : nat;
  remote : list Request -> Request -> Completion Response;
  sentRequests : list Request;
  logger : list jsstring
}.

Definition set_ENCRYPTION_CONFIG_secretKey (k : jsstring) (w : World) : World :=
  mkWorld (WP_BASE_URL w) (WP_SECRET_KEY w) (STORED_PRODUCT_IDS w) k
          (activeSheet w) (activeRange w) (spreadsheetId w) (clock w)
          (clockReads w) (remote w) (sentRequests w) (logger w).

Definition set_STORED_PRODUCT_IDS (ids : option (list jsstring)) (w : World)
  : World :=
  mkWorld (WP_BASE_URL w) (WP_SECRET_KEY w) ids (ENCRYPTION_CONFIG_secretKey w)
          (activeSheet w) (activeRange w) (spreadsheetId w) (clock w)
          (clockReads w) (remote w) (sentRequests w) (logger w).

Definition set_activeSheet (sh : Sheet) (w : World) : World :=
  mkWorld (WP_BASE_URL w) (WP_SECRET_KEY w) (STORED_PRODUCT_IDS w)
          (ENCRYPTION_CONFIG_secretKey w) sh (activeRange w) (spreadsheetId w)
          (clock w) (clockReads w) (remote w) (sentRequests w) (logger w).

Definition set_clockReads (n : nat) (w : World) : World :=
  mkWorld (WP_BASE_URL w) (WP_SECRET_KEY w) (STORED_PRODUCT_IDS w)
          (ENCRYPTION_CONFIG_secretKey w) (activeSheet w) (activeRange w)
          (spreadsheetId w) (clock w) n (remote w) (sentRequests w) (logger w).

Definition set_sentRequests (l : list Request) (w : World) : World :=
  mkWorld (WP_BASE_URL w) (WP_SECRET_KEY w) (STORED_PRODUCT_IDS w)
          (ENCRYPTION_CONFIG_secretKey w) (activeSheet w) (activeRange w)
          (spreadsheetId w) (clock w) (clockReads w) (remote w) l (logger w).

Definition set_logger (l : list jsstring) (w : World) : World :=
  mkWorld (WP_BASE_URL w) (WP_SECRET_KEY w) (STORED_PRODUCT_IDS w)
          (ENCRYPTION_CONFIG_secretKey w) (activeSheet w) (activeRange w)
          (spreadsheetId w) (clock w) (clockReads w) (remote w)
          (sentRequests w) l.

(** ** Computations *)

(** A computation runs in a world, ends by returning or throwing, and leaves
    a world behind: what was written before a throw stays written. *)
Definition M (A : Type) : Type := World -> Completion A * World.

Definition ret {A} (a : A) : M A := fun w => (Return a, w).

Definition throw {A} (e : JsError) : M A := fun w => (Throw e, w).

Definition bind {A B} (m : M A) (k : A -> M B) : M B :=
  fun w =>
    match m w with
    | (Return a, w') => k a w'
    | (Throw e, w') => (Throw e, w')
    end.

(** [try { body } catch (error) { handler }] *)
Definition try_catch {A} (body : M A) (handler : JsError -> M A) : M A :=
  fun w =>
    match body w with
    | (Return a, w') => (Return a, w')
    | (Throw e, w') => handler e w'
    end.

(** A completion computed without touching the world. *)
Definition lift {A} (c : Completion A) : M A := fun w => (c, w).

Definition gets {A} (f : World -> A) : M A := fun w => (Return (f w), w).

Definition modify (f : World -> World) : M unit := fun w => (Return tt, f w).

Declare Scope js_scope.
Delimit Scope js_scope with js_.
Notation "x <- m ;; k" := (bind m (fun x => k))
  (at level 61, m at next level, right associativity) : js_scope.
Notation "m ;;; k" := (bind m (fun _ => k))
  (at level 61, right associativity) : js_scope.
Local Open Scope js_scope.

(** [Logger.log(text)] *)
Definition Logger_log (text : jsstring) : M unit :=
  modify (fun w => set_logger (logger w ++ [text]) w).

(** [new Date().getTime()] *)
Definition Date_getTime : M Z :=
  fun w => (Return (clock w (clockReads w)), set_clockReads (S (clockReads w)) w).

(** [UrlFetchApp.fetch(url, params)] with [muteHttpExceptions]: any status
    code is a response; only a failure to reach the remote end raises. *)
Definition UrlFetchApp_fetch (req : Request) : M Response :=
  fun w =>
    (remote w (sentRequests w) req, set_sentRequests (sentRequests w ++ [req]) w).

(** [JSON.parse(response.getContentText())].  The text of the error stands
    for the one the engine gives. *)
Definition JSON_parse_content (response : Response) : Completion JValue :=
  match parsedContent response with
  | Some v => Return v
  | None =>
    Throw (mkJsError (js "SyntaxError") (js "Unexpected token in JSON"))
  end.

(** Changing the cells of the active sheet. *)
Definition modify_cells (f : Grid -> Grid) : M unit :=
  modify (fun w =>
    set_activeSheet (mkSheet (f (cells (activeSheet w)))
                             (formatting (activeSheet w))) w).

(** Adding formatting requests to the active sheet. *)
Definition format (ops : list FormatOp) : M unit :=
  modify (fun w =>
    set_activeSheet (mkSheet (cells (activeSheet w))
                             (formatting (activeSheet w) ++ ops)) w).

(** [range.setValues(values)] on [numRows] rows and [numColumns] columns from
    row [row], column 1: the values must fill the range exactly. *)
Definition setValues (row numRows numColumns : nat) (values : list Row)
  : M unit :=
  if Nat.eqb (List.length values) numRows
     && forallb (fun r => Nat.eqb (List.length r) numColumns) values
  then modify_cells (write_rows (row - 1) values)
  else
    throw (mkJsError (js "Exception")
             (js "The number of rows or columns in the data does not match the range.")).

(** ** Configuration *)

Definition WP_API_CONFIG_namespace : jsstring := js "sheets-api/v1".
Definition WP_API_CONFIG_getProducts : jsstring := js "/get_products".
Definition WP_API_CONFIG_updateProducts : jsstring := js "/update_products".

Definition SHEET_CONFIG_headers : list jsstring :=
  [js "Product ID"; js "Type"; js "Parent ID"; js "Name"; js "SKU";
   js "Attributes"; js "Regular Price"; js "Sale Price"; js "Stock";
   js "Status"].

Definition SHEET_CONFIG_keyColumn : nat := 0.

(** The object returned by [getConfig]. *)
Record Config := mkConfig {
  baseUrl : jsstring;
  secretKey : jsstring;
  isConfigured : bool
}.

(** Truthiness of a property that may be absent. *)
Definition is_set (p : option jsstring) : bool :=
  match p with Some s => nonempty s | None => false end.

Definition or_empty (p : option jsstring) : jsstring :=
  match p with Some (c :: s) => c :: s | _ => [] end.

(** [getConfig()] *)
Definition getConfig : M Config :=
  baseUrl <- gets WP_BASE_URL ;;
  secretKey <- gets WP_SECRET_KEY ;;
  (if is_set secretKey
   then modify (set_ENCRYPTION_CONFIG_secretKey (or_empty secretKey))
   else ret tt) ;;;
  ret (mkConfig (or_empty baseUrl) (or_empty secretKey)
                (is_set baseUrl && is_set secretKey)).

(** The world [getConfig] leaves: the saved secret, if any, is copied to the
    global configuration. *)
Definition after_getConfig (w : World) : World :=
  if is_set (WP_SECRET_KEY w)
  then set_ENCRYPTION_CONFIG_secretKey (or_empty (WP_SECRET_KEY w)) w
  else w.

(** The object [getConfig] returns. *)
Definition config_of (w : World) : Config :=
  mkConfig (or_empty (WP_BASE_URL w)) (or_empty (WP_SECRET_KEY w))
           (is_set (WP_BASE_URL w) && is_set (WP_SECRET_KEY w)).

(** [validateSecretKey()] *)
Definition validateSecretKey : M bool :=
  config <- getConfig ;;
  if negb (nonempty (secretKey config))
  then throw (Error "Secret key is not configured. Please set up your secret key in Settings before using this feature.")
  else ret true.

(** [generateSheetToken()] *)
Definition generateSheetToken : M jsstring :=
  key <- gets ENCRYPTION_CONFIG_secretKey ;;
  if negb (nonempty key)
  then throw (Error "Secret key is not configured. Cannot generate authentication token.")
  else
    sheetId <- gets spreadsheetId ;;
    timestamp <- Date_getTime ;;
    lift (xorEncrypt (tokenData sheetId timestamp) (Some key)).

(** The headers sent with every request. *)
Definition request_headers (sheetToken : jsstring) : list (jsstring * jsstring) :=
  [(js "Content-Type", js "application/json");
   (js "ngrok-skip-browser-warning", js "true");
   (js "User-Agent", js "GoogleAppsScript");
   (js "X-Sheet-Token", sheetToken);
   (js "Authorization", js "Bearer " ++ sheetToken)].

(** ** Deletion tracker *)

(** [list.indexOf(x)]: the first position of [x], or -1. *)
Fixpoint indexOf_from (l : list jsstring) (x : jsstring) (i : Z) : Z :=
  match l with
  | [] => (-1)%Z
  | y :: rest => if jsstring_eqb y x then i else indexOf_from rest x (i + 1)%Z
  end.

Definition indexOf (l : list jsstring) (x : jsstring) : Z := indexOf_from l x 0%Z.

(** The loop of [storeCurrentProductIds] and [getDeletedProductIds]: the ids
    in the key column of the rows under the header, as strings. *)
Definition current_product_ids (g : Grid) : list jsstring :=
  flat_map (fun row =>
              let productId := nth SHEET_CONFIG_keyColumn row JUndefined in
              if toBoolean productId then [ToString productId] else [])
           (skipn 1 (getDataRange_getValues g)).

(** [storeCurrentProductIds()] *)
Definition storeCurrentProductIds : M (list jsstring) :=
  currentIds <- gets (fun w => current_product_ids (cells (activeSheet w))) ;;
  modify (set_STORED_PRODUCT_IDS (Some currentIds)) ;;;
  ret currentIds.

(** The filter of [getDeletedProductIds]: the stored ids that are no longer
    among the current ones. *)
Definition deleted_ids (storedIds currentIds : list jsstring) : list jsstring :=
  filter (fun id => Z.eqb (indexOf currentIds id) (-1)) storedIds.

(** [getDeletedProductIds()] *)
Definition getDeletedProductIds : M (list jsstring) :=
  currentIds <- gets (fun w => current_product_ids (cells (activeSheet w))) ;;
  storedIdsJson <- gets STORED_PRODUCT_IDS ;;
  match storedIdsJson with
  | None => ret []
  | Some storedIds => ret (deleted_ids storedIds currentIds)
  end.

(** ** Catalog sync engine *)

(** [value === text] for a cell value and a string. *)
Definition is_string (v : JValue) (text : jsstring) : bool :=
  match v with JStr s => jsstring_eqb s text | _ => false end.

Fixpoint headers_match (firstRow : Row) (headers : list jsstring) : bool :=
  match headers with
  | [] => true
  | h :: headers' =>
    match firstRow with
    | v :: firstRow' => is_string v h && headers_match firstRow' headers'
    | [] => false
    end
  end.

Definition numHeaders : nat := List.length SHEET_CONFIG_headers.

(** [setupSheetHeaders(sheet)] *)
Definition setupSheetHeaders : M unit :=
  g <- gets (fun w => cells (activeSheet w)) ;;
  let firstRow := nth 0 (getRange_getValues g 1 1 numHeaders) [] in
  let hasCorrectHeaders := headers_match firstRow SHEET_CONFIG_headers in
  if negb hasCorrectHeaders
  then
    setValues 1 1 numHeaders [map JStr SHEET_CONFIG_headers] ;;;
    format [SetFontWeightBold 1 numHeaders; SetFrozenRows 1]
  else ret tt.

(** Reading a property of a value already known not to be [undefined] or
    [null]. *)
Definition prop (v : JValue) (key : string) : JValue :=
  match getProp v key with
  | Return x => x
  | Throw _ => JUndefined
  end.

(** The row built for one product in [updateSheetWithProducts]. *)
Definition rowData (product : JValue) : Completion Row :=
  match getProp product "id" with
  | Throw e => Throw e
  | Return id =>
    Return
      [id;
       js_or (js_or (prop product "type") (prop product "product_type"))
             (JStr (js "simple"));
       js_or (prop product "parent_id") (JStr []);
       prop product "name";
       prop product "sku";
       prop product "attributes";
       prop product "regular_price";
       prop product "sale_price";
       js_or (prop product "stock_quantity") (prop product "stock");
       js_or (js_or (prop product "status") (prop product "stock_status"))
             (JStr (js "instock"))]
  end.

(** The rows of all products, in order; the first product that cannot be
    read ends the loop. *)
Fixpoint rows_of_products (products : list JValue) : Completion (list Row) :=
  match products with
  | [] => Return []
  | product :: rest =>
    match rowData product with
    | Throw e => Throw e
    | Return row =>
      match rows_of_products rest with
      | Throw e => Throw e
      | Return rows => Return (row :: rows)
      end
    end
  end.

(** [updateSheetWithProducts(sheet, products, existingData)].  The counts it
    returns from [existingData] are dropped by its caller and are left out,
    and with them [getExistingProductData], which only reads the sheet. *)
Definition updateSheetWithProducts (products : list JValue) : M unit :=
  lastRow <- gets (fun w => getLastRow (cells (activeSheet w))) ;;
  (if Nat.ltb 1 lastRow
   then modify_cells (fun g => clearContent g 2 (lastRow - 1) numHeaders)
   else ret tt) ;;;
  newData <- lift (rows_of_products products) ;;
  if Nat.ltb 0 (List.length newData)
  then
    setValues 2 (List.length newData) numHeaders newData ;;;
    format (map AutoResizeColumn (seq 1 numHeaders)
            ++ [SetColumnWidth 4 200; SetColumnWidth 6 200])
  else ret tt.

(** The object returned by [fetchProducts]: [{success: true, message, count,
    url}] or [{success: false, message}]. *)
Inductive FetchResult :=
| FetchSuccess (message : jsstring) (count : nat) (url : jsstring)
| FetchFailure (message : jsstring).

Definition fetch_success (r : FetchResult) : bool :=
  match r with FetchSuccess _ _ _ => true | FetchFailure _ => false end.

Definition array_items (v : JValue) : list JValue :=
  match v with JArr items => items | _ => [] end.

Definition not_configured : JsError :=
  Error "Please configure the WordPress API URL and secret key first in Settings.".

Definition fetchUrl_of (config : Config) : jsstring :=
  baseUrl config ++ js "/wp-json/" ++ WP_API_CONFIG_namespace
  ++ WP_API_CONFIG_getProducts.

(** The body of the [try] block of [fetchProducts].  The call of
    [getExistingProductData], whose result reaches nothing but the counts of
    [updateSheetWithProducts], is left out. *)
Definition fetchProducts_try : M FetchResult :=
  config <- getConfig ;;
  if negb (isConfigured config) then throw not_configured
  else
    validateSecretKey ;;;
    validateSecretKey ;;;
    setupSheetHeaders ;;;
    sheetToken <- generateSheetToken ;;
    let fetchUrl := fetchUrl_of config in
    response <- UrlFetchApp_fetch
                  (mkRequest fetchUrl GET (request_headers sheetToken) None) ;;
    if negb (Z.eqb (getResponseCode response) 200)
    then throw (mkJsError (js "Error")
                  (js "API Error: " ++ getContentText response
                   ++ js " (URL: " ++ fetchUrl ++ js ")"))
    else
      result <- lift (JSON_parse_content response) ;;
      products <- lift (getProp result "data") ;;
      if negb (toBoolean products) || negb (isArray products)
      then throw (Error "Invalid response format from API")
      else
        let products := rev (array_items products) in
        updateSheetWithProducts products ;;;
        storeCurrentProductIds ;;;
        ret (FetchSuccess
               (js "Successfully fetched "
                ++ Number_toString (Z.of_nat (List.length products))
                ++ js " products")
               (List.length products) fetchUrl).

(** [fetchProducts()] *)
Definition fetchProducts : M FetchResult :=
  try_catch fetchProducts_try
    (fun error =>
       Logger_log (js "Error fetching products: " ++ error_toString error) ;;;
       ret (FetchFailure (error_toString error))).

(** A row picked for a push: [{rowIndex, data}]. *)
Record ProductRow := mkProductRow { rowIndex : nat; data : Row }.

(** [getSelectedProductRows(range, sheet)] *)
Definition getSelectedProductRows (range : nat * nat) (g : Grid)
  : list ProductRow :=
  let data := getDataRange_getValues g in
  flat_map (fun i =>
              if Nat.ltb 1 i && Nat.leb i (List.length data)
              then [mkProductRow i (nth (i - 1) data [])]
              else [])
           (seq (fst range) (S (snd range) - fst range)).

(** [getAllProductRows(sheet)] *)
Definition getAllProductRows (g : Grid) : list ProductRow :=
  let data := getDataRange_getValues g in
  map (fun i => mkProductRow (i + 1) (nth i data []))
      (seq 1 (List.length data - 1)).

(** The product object built from a row in [updateProductsToWordPress]. *)
Definition product_of_row (row : ProductRow) : JValue :=
  let at_ i := nth i (data row) JUndefined in
  JObj [(js "id", at_ 0%nat); (js "type", at_ 1%nat);
        (js "parent_id", at_ 2%nat); (js "name", at_ 3%nat);
        (js "sku", at_ 4%nat); (js "attributes", at_ 5%nat);
        (js "regular_price", at_ 6%nat); (js "sale_price", at_ 7%nat);
        (js "stock_quantity", at_ 8%nat); (js "status", at_ 9%nat)].

(** The object returned by a push: [{success: true, message, updatedCount,
    deletedCount}] or [{success: false, message}]. *)
Inductive PushResult :=
| PushSuccess (message updatedCount deletedCount : JValue)
| PushFailure (message : jsstring).

Definition push_success (r : PushResult) : bool :=
  match r with PushSuccess _ _ _ => true | PushFailure _ => false end.

(** [list ? list.length : 0] *)
Definition count_of (list : JValue) : Completion JValue :=
  if toBoolean list then getProp list "length" else Return (JNum 0).

(** The body of the [try] block of [updateProductsToWordPress]. *)
Definition updateProductsToWordPress_try
           (productRows : list ProductRow) (deletedIds : list jsstring)
  : M PushResult :=
  config <- getConfig ;;
  if negb (isConfigured config) then throw not_configured
  else
    validateSecretKey ;;;
    let productsData := map product_of_row productRows in
    sheetToken <- generateSheetToken ;;
    let payload := JObj [(js "products", JArr productsData);
                         (js "deleted_ids", JArr (map JStr deletedIds))] in
    response <- UrlFetchApp_fetch
                  (mkRequest (baseUrl config ++ js "/wp-json/"
                              ++ WP_API_CONFIG_namespace
                              ++ WP_API_CONFIG_updateProducts)
                             POST (request_headers sheetToken) (Some payload)) ;;
    (if negb (Z.eqb (getResponseCode response) 200)
     then
       errorResponse <- lift (JSON_parse_content response) ;;
       message <- lift (getProp errorResponse "message") ;;
       throw (mkJsError (js "Error")
                (js "API Error: "
                 ++ ToString (js_or message (JStr (getContentText response)))))
     else
       modify (set_STORED_PRODUCT_IDS None) ;;;
       fetchProducts ;;;
       ret tt) ;;;
    result <- lift (JSON_parse_content response) ;;
    message <- lift (getProp result "message") ;;
    data <- lift (getProp result "data") ;;
    updated <- lift (getProp data "updated") ;;
    updatedCount <- lift (count_of updated) ;;
    deleted <- lift (getProp data "deleted") ;;
    deletedCount <- lift (count_of deleted) ;;
    ret (PushSuccess (js_or message (JStr (js "Products updated successfully")))
                     updatedCount deletedCount).

(** [updateProductsToWordPress(productRows, deletedIds)] *)
Definition updateProductsToWordPress
           (productRows : list ProductRow) (deletedIds : list jsstring)
  : M PushResult :=
  try_catch (updateProductsToWordPress_try productRows deletedIds)
    (fun error =>
       Logger_log (js "Error updating products: " ++ error_toString error) ;;;
       ret (PushFailure (error_toString error))).

(** [updateSelectedProducts()] *)
Definition updateSelectedProducts : M PushResult :=
  selectedRows <- gets (fun w => getSelectedProductRows (activeRange w)
                                   (cells (activeSheet w))) ;;
  if Nat.eqb (List.length selectedRows) 0
  then throw (Error "Please select at least one product row to update.")
  else
    deletedIds <- getDeletedProductIds ;;
    updateProductsToWordPress selectedRows deletedIds.

(** [updateAllProducts()] *)
Definition updateAllProducts : M PushResult :=
  allRows <- gets (fun w => getAllProductRows (cells (activeSheet w))) ;;
  if Nat.eqb (List.length allRows) 0
  then throw (Error "No products found in the sheet. Please fetch products first.")
  else
    deletedIds <- getDeletedProductIds ;;
    updateProductsToWordPress allRows deletedIds.

(** The cells after the clearing step of [updateSheetWithProducts]. *)
Definition cleared_cells (g : Grid) : Grid :=
  if Nat.ltb 1 (getLastRow g)
  then clearContent g 2 (getLastRow g - 1) numHeaders else g.

(** Two worlds with the same remote end and the same requests sent. *)
Definition frame (w w' : World) : Prop :=
  remote w' = remote w /\ sentRequests w' = sentRequests w.

(** ** Worlds of the examples *)

(** A JSON string literal: the text between double quotes. *)
Definition quoted (s : string) : jsstring := 34 :: js s ++ [34].

Definition header_row : Row := map JStr SHEET_CONFIG_headers.

(** The grid row of a simple product in stock. *)
Definition product_row (id : Z) (name : string) : Row :=
  [JNum id; JStr (js "simple"); blank; JStr (js name); blank; blank; blank;
   blank; blank; JStr (js "instock")].

(** A product of the remote catalog. *)
Definition product (id : Z) (name : string) : JValue :=
  JObj [(js "id", JNum id); (js "name", JStr (js name))].

(** A remote end that cannot be reached. *)
Definition unreachable : list Request -> Request -> Completion Response :=
  fun _ _ => Throw (mkJsError (js "Exception") (js "Address unavailable")).

(** A remote end with a catalog of three products, which answers a push
    with a message and no [data] field. *)
Definition catalog : list JValue := [product 1 "Mug"; product 2 "Cup"; product 3 "Pot"].

Definition catalog_response : Response :=
  mkResponse 200
    (js "{" ++ quoted "data" ++ js ":[{" ++ quoted "id" ++ js ":1,"
     ++ quoted "name" ++ js ":" ++ quoted "Mug" ++ js "},{" ++ quoted "id"
     ++ js ":2," ++ quoted "name" ++ js ":" ++ quoted "Cup" ++ js "},{"
     ++ quoted "id" ++ js ":3," ++ quoted "name" ++ js ":" ++ quoted "Pot"
     ++ js "}]}")
    (Some (JObj [(js "data", JArr catalog)])).

Definition push_response_without_data : Response :=
  mkResponse 200
    (js "{" ++ quoted "message" ++ js ":" ++ quoted "Products updated" ++ js "}")
    (Some (JObj [(js "message", JStr (js "Products updated"))])).

Definition shop : list Request -> Request -> Completion Response :=
  fun _ request =>
    match req_method request with
    | GET => Return catalog_response
    | POST => Return push_response_without_data
    end.

(** A world at time 1700000000000 with the given settings, snapshot, cells,
    selection and remote end. *)
Definition world_with (url key : option jsstring)
           (snapshot : option (list jsstring)) (g : Grid) (range : nat * nat)
           (remote : list Request -> Request -> Completion Response) : World :=
  mkWorld url key snapshot [] (mkSheet g []) range (js "doc")
          (fun _ => 1700000000000%Z) 0 remote [] [].

(** No settings saved, an empty sheet. *)
Definition unconfigured_world : World :=
  world_with None None None [] (1%nat, 1%nat) unreachable.

(** Settings saved, an empty sheet, the catalog at the remote end. *)
Definition fresh_world : World :=
  world_with (Some (js "https://shop.test")) (Some (js "k3y")) None []
             (1%nat, 1%nat) shop.

(** Settings saved, products 1 and 3 in the grid, products 1, 2 and 3 in the
    snapshot, rows 2 and 3 selected. *)
Definition edited_world : World :=
  world_with (Some (js "https://shop.test")) (Some (js "k3y"))
             (Some [js "1"; js "2"; js "3"])
             [header_row; product_row 1 "Mug"; product_row 3 "Pot"]
             (2%nat, 3%nat) shop.

(** ** Settings, connection test and the requests of an invocation *)

Definition set_WP_BASE_URL (v : option jsstring) (w : World) : World :=
  mkWorld v (WP_SECRET_KEY w) (STORED_PRODUCT_IDS w)
          (ENCRYPTION_CONFIG_secretKey w) (activeSheet w) (activeRange w)
          (spreadsheetId w) (clock w) (clockReads w) (remote w)
          (sentRequests w) (logger w).

Definition set_WP_SECRET_KEY (v : option jsstring) (w : World) : World :=
  mkWorld (WP_BASE_URL w) v (STORED_PRODUCT_IDS w)
          (ENCRYPTION_CONFIG_secretKey w) (activeSheet w) (activeRange w)
          (spreadsheetId w) (clock w) (clockReads w) (remote w)
          (sentRequests w) (logger w).

(** [saveConfig(baseUrl, secretKey)]; a secret that is not passed is [None].
    The assignment to the global [WP_API_CONFIG.baseUrl], which no function
    of this version reads, is left out. *)
Definition saveConfig (baseUrl : jsstring) (secretKey : option jsstring)
  : M bool :=
  modify (set_WP_BASE_URL (Some baseUrl)) ;;;
  (if is_set secretKey
   then
     modify (set_WP_SECRET_KEY (Some (or_empty secretKey))) ;;;
     modify (set_ENCRYPTION_CONFIG_secretKey (or_empty secretKey))
   else ret tt) ;;;
  ret true.

Definition WP_API_CONFIG_testConnection : jsstring := js "/test_connection".

(** The object returned by [testConnection]: [{success: true, message}]. *)
Inductive ConnectionResult :=
| ConnectionSuccess (message : jsstring).

Definition testUrl_of (config : Config) : jsstring :=
  baseUrl config ++ js "/wp-json/" ++ WP_API_CONFIG_namespace
  ++ WP_API_CONFIG_testConnection.

(** [testConnection()]: nothing is caught. *)
Definition testConnection : M ConnectionResult :=
  config <- getConfig ;;
  if negb (isConfigured config) then throw not_configured
  else
    validateSecretKey ;;;
    sheetToken <- generateSheetToken ;;
    response <- UrlFetchApp_fetch
                  (mkRequest (testUrl_of config) GET
                             (request_headers sheetToken) None) ;;
    if negb (Z.eqb (getResponseCode response) 200)
    then
      errorResponse <- lift (JSON_parse_content response) ;;
      message <- lift (getProp errorResponse "message") ;;
      throw (mkJsError (js "Error")
               (js "API Error: "
                ++ ToString (js_or message (JStr (getContentText response)))))
    else ret (ConnectionSuccess (js "Connection successful")).

(** Both settings are saved. *)
Definition configured (w : World) : bool :=
  is_set (WP_BASE_URL w) && is_set (WP_SECRET_KEY w).

(** The world after [getConfig] when a secret is saved. *)
Definition mirrored (w : World) : World :=
  set_ENCRYPTION_CONFIG_secretKey (or_empty (WP_SECRET_KEY w)) w.

(** The first row of the sheet holds the headers. *)
Definition headers_in_place (g : Grid) : bool :=
  headers_match (nth 0 (getRange_getValues g 1 1 numHeaders) [])
                SHEET_CONFIG_headers.

(** The world after [setupSheetHeaders]. *)
Definition after_setupSheetHeaders (w : World) : World :=
  if headers_in_place (cells (activeSheet w)) then w
  else
    set_activeSheet
      (mkSheet (write_rows 0 [header_row] (cells (activeSheet w)))
               (formatting (activeSheet w)
                ++ [SetFontWeightBold 1 numHeaders; SetFrozenRows 1]))
      w.

(** The token issued in a world whose saved secret has been copied to the
    global configuration. *)
Definition issued_token (w : World) : jsstring :=
  Utilities_base64Encode
    (xor_loop (tokenData (spreadsheetId w) (clock w (clockReads w)))
              (or_empty (WP_SECRET_KEY w))).

(** The request [fetchProducts] sends. *)
Definition fetch_request (w : World) : Request :=
  mkRequest (fetchUrl_of (config_of w)) GET
            (request_headers (issued_token w)) None.

(** The request [updateProductsToWordPress] sends. *)
Definition push_request (productRows : list ProductRow)
           (deletedIds : list jsstring) (w : World) : Request :=
  mkRequest (baseUrl (config_of w) ++ js "/wp-json/" ++ WP_API_CONFIG_namespace
             ++ WP_API_CONFIG_updateProducts)
            POST (request_headers (issued_token w))
            (Some (JObj [(js "products", JArr (map product_of_row productRows));
                         (js "deleted_ids", JArr (map JStr deletedIds))])).

(** The request [testConnection] sends. *)
Definition test_request (w : World) : Request :=
  mkRequest (testUrl_of (config_of w)) GET
            (request_headers (issued_token w)) None.



(** The world in which [fetchProducts] sends its request: the secret
    copied, the headers in place, the clock read once. *)
Definition before_fetch (w : World) : World :=
  set_clockReads (S (clockReads w)) (after_setupSheetHeaders (mirrored w)).

(** The world in which a push or a connection test sends its request. *)
Definition before_push (w : World) : World :=
  set_clockReads (S (clockReads w)) (mirrored w).

(** The ids [getDeletedProductIds] returns in a world. *)
Definition deletions (w : World) : list jsstring :=
  match STORED_PRODUCT_IDS w with
  | None => []
  | Some storedIds =>
    deleted_ids storedIds (current_product_ids (cells (activeSheet w)))
  end.

Definition set_remote (r : list Request -> Request -> Completion Response)
           (w : World) : World :=
  mkWorld (WP_BASE_URL w) (WP_SECRET_KEY w) (STORED_PRODUCT_IDS w)
          (ENCRYPTION_CONFIG_secretKey w) (activeSheet w) (activeRange w)
          (spreadsheetId w) (clock w) (clockReads w) r (sentRequests w)
          (logger w).

(** A remote end that turns every request down, with a text that is not
    JSON. *)
Definition forbidden_response : Response :=
  mkResponse 403 (js "Forbidden") None.

Definition closed_shop : list Request -> Request -> Completion Response :=
  fun _ _ => Return forbidden_response.



(** A remote end that answers a push with the lists of what it updated and
    deleted. *)
Definition push_response_with_data : Response :=
  mkResponse 200
    (js "{" ++ quoted "message" ++ js ":" ++ quoted "Products updated" ++ js ","
     ++ quoted "data" ++ js ":{" ++ quoted "updated" ++ js ":[1,3],"
     ++ quoted "deleted" ++ js ":[2]}}")
    (Some (JObj [(js "message", JStr (js "Products updated"));
                 (js "data",
                  JObj [(js "updated", JArr [JNum 1; JNum 3]);
                        (js "deleted", JArr [JNum 2])])])).

Definition obliging_shop : list Request -> Request -> Completion Response :=
  fun _ request =>
    match req_method request with
    | GET => Return catalog_response
    | POST => Return push_response_with_data
    end.

(** ** Proof tactics *)

(** Deciding a comparison that occurs in the goal. *)
Ltac case_cmp :=
  match goal with
  | |- context [N.ltb ?a ?b] => destruct (N.ltb_spec a b); try lia
  | |- context [N.leb ?a ?b] => destruct (N.leb_spec a b); try lia
  | |- context [N.eqb ?a ?b] => destruct (N.eqb_spec a b); try lia
  end.

Ltac cases_cmp := repeat (case_cmp; cbn [andb orb negb]).

(** Stepping through a computation that is known to have returned. *)
Tactic Notation "inv_bind" hyp(H) "as" ident(a) ident(w) ident(E) :=
  lazymatch type of H with
  | bind ?m ?k ?w0 = _ =>
    unfold bind in H at 1;
    destruct (m w0) as [[a|?] w] eqn:E; [|discriminate H]
  end.

Ltac inv_if H :=
  lazymatch type of H with
  | (if ?b then _ else _) _ = _ =>
    let E := fresh "E" in destruct b eqn:E
  end.

(** Running a computation through all its branches. *)
Ltac run_all :=
  unfold bind, gets, setValues, format, modify_cells, modify, ret, throw, lift,
    Date_getTime, UrlFetchApp_fetch;
  repeat match goal with
         | |- context [if ?b then _ else _] => destruct b
         | |- context [match ?x with Return _ => _ | Throw _ => _ end] =>
           destruct x
         end.

(** * Properties *)

(** ** Arithmetic of the two encodings *)

Lemma base64_value_char (v : N) : v < 64 -> base64_value (base64_char v) = Some v.
Proof.
  intros Hv. unfold base64_char.
  destruct (N.ltb_spec v 26); [|destruct (N.ltb_spec v 52);
    [|destruct (N.ltb_spec v 62); [|destruct (N.eqb_spec v 62)]]];
  unfold base64_value; cases_cmp; f_equal; lia.
Qed.

Lemma base64_quantum (b0 b1 b2 : N) (rest : list N) :
  b0 < 256 -> b1 < 256 -> b2 < 256 ->
  bytes_of_base64 (base64_of_bytes (b0 :: b1 :: b2 :: rest))
  = match bytes_of_base64 (base64_of_bytes rest) with
    | Some bs => Some (b0 :: b1 :: b2 :: bs)
    | None => None
    end.
Proof.
  intros H0 H1 H2.
  change (base64_of_bytes (b0 :: b1 :: b2 :: rest))
    with (base64_char (b0 / 4) :: base64_char ((b0 mod 4) * 16 + b1 / 16)
          :: base64_char ((b1 mod 16) * 4 + b2 / 64) :: base64_char (b2 mod 64)
          :: base64_of_bytes rest).
  cbn [bytes_of_base64].
  rewrite !base64_value_char by lia.
  destruct (bytes_of_base64 (base64_of_bytes rest)); [|reflexivity].
  do 2 f_equal; [lia|]. f_equal; [lia|]. f_equal. lia.
Qed.

(** Decoding Base64 undoes encoding, on every byte sequence. *)
Lemma bytes_of_base64_of_bytes (bs : list N) :
  is_bytes bs -> bytes_of_base64 (base64_of_bytes bs) = Some bs.
Proof.
  remember (List.length bs) as n eqn:Hn.
  revert bs Hn. induction n as [n IH] using lt_wf_ind. intros bs Hn Hbs.
  destruct bs as [|b0 [|b1 [|b2 rest]]].
  - reflexivity.
  - inversion Hbs as [|? ? H0 _]; subst.
    cbn [base64_of_bytes bytes_of_base64].
    rewrite !base64_value_char by lia. cbn.
    do 2 f_equal. lia.
  - inversion Hbs as [|? ? H0 Hbs']; subst.
    inversion Hbs' as [|? ? H1 _]; subst.
    cbn [base64_of_bytes bytes_of_base64].
    rewrite !base64_value_char by lia. cbn.
    do 2 f_equal; [lia|]. f_equal. lia.
  - inversion Hbs as [|? ? H0 Hbs']; subst.
    inversion Hbs' as [|? ? H1 Hbs'']; subst.
    inversion Hbs'' as [|? ? H2 Hrest]; subst.
    rewrite base64_quantum by assumption.
    rewrite (IH (List.length rest)); [reflexivity| |reflexivity|assumption].
    cbn [List.length]. lia.
Qed.

(** *** UTF-8 *)

Lemma utf8_decode_1 (b0 : N) (t : list N) :
  b0 < 0x80 -> utf8_decode (b0 :: t) = b0 :: utf8_decode t.
Proof.
  intros H. cbn [utf8_decode].
  destruct (N.ltb_spec b0 0x80); [reflexivity|lia].
Qed.

Lemma utf8_decode_2 (b0 b1 cp : N) (t : list N) :
  0x80 <= b0 -> decode2 b0 b1 = Some cp ->
  utf8_decode (b0 :: b1 :: t) = utf16_of_code_point cp ++ utf8_decode t.
Proof.
  intros H H2. cbn [utf8_decode].
  destruct (N.ltb_spec b0 0x80); [lia|]. rewrite H2. reflexivity.
Qed.

Lemma utf8_decode_3 (b0 b1 b2 cp : N) (t : list N) :
  0x80 <= b0 -> decode2 b0 b1 = None -> decode3 b0 b1 b2 = Some cp ->
  utf8_decode (b0 :: b1 :: b2 :: t) = utf16_of_code_point cp ++ utf8_decode t.
Proof.
  intros H H2 H3. cbn [utf8_decode].
  destruct (N.ltb_spec b0 0x80); [lia|]. rewrite H2, H3. reflexivity.
Qed.

Lemma utf8_decode_4 (b0 b1 b2 b3 cp : N) (t : list N) :
  0x80 <= b0 -> decode2 b0 b1 = None -> decode3 b0 b1 b2 = None ->
  decode4 b0 b1 b2 b3 = Some cp ->
  utf8_decode (b0 :: b1 :: b2 :: b3 :: t)
  = utf16_of_code_point cp ++ utf8_decode t.
Proof.
  intros H H2 H3 H4. cbn [utf8_decode].
  destruct (N.ltb_spec b0 0x80); [lia|]. rewrite H2, H3, H4. reflexivity.
Qed.

Lemma decode2_encoded (cp : N) :
  0x80 <= cp < 0x800 -> decode2 (0xC0 + cp / 64) (0x80 + cp mod 64) = Some cp.
Proof.
  intros H. unfold decode2, is_continuation. cases_cmp. f_equal. lia.
Qed.

Lemma decode2_high_lead (b0 b1 : N) : 0xE0 <= b0 -> decode2 b0 b1 = None.
Proof. intros H. unfold decode2. cases_cmp. reflexivity. Qed.

Lemma decode3_encoded (cp : N) :
  0x800 <= cp < 0x10000 -> ~ (0xD800 <= cp < 0xE000) ->
  decode3 (0xE0 + cp / 4096) (0x80 + (cp / 64) mod 64) (0x80 + cp mod 64)
  = Some cp.
Proof.
  intros H Hs. unfold decode3, is_continuation.
  replace ((0xE0 + cp / 4096 - 0xE0) * 4096 + (0x80 + (cp / 64) mod 64 - 0x80) * 64
           + (0x80 + cp mod 64 - 0x80)) with cp by lia.
  cases_cmp; reflexivity.
Qed.

Lemma decode3_high_lead (b0 b1 b2 : N) : 0xF0 <= b0 -> decode3 b0 b1 b2 = None.
Proof. intros H. unfold decode3. cases_cmp. reflexivity. Qed.

Lemma decode4_encoded (cp : N) :
  0x10000 <= cp < 0x110000 ->
  decode4 (0xF0 + cp / 262144) (0x80 + (cp / 4096) mod 64)
          (0x80 + (cp / 64) mod 64) (0x80 + cp mod 64)
  = Some cp.
Proof.
  intros H. unfold decode4, is_continuation.
  replace ((0xF0 + cp / 262144 - 0xF0) * 262144
           + (0x80 + (cp / 4096) mod 64 - 0x80) * 4096
           + (0x80 + (cp / 64) mod 64 - 0x80) * 64
           + (0x80 + cp mod 64 - 0x80)) with cp by lia.
  cases_cmp; reflexivity.
Qed.

(** Decoding the bytes of a code point gives its code units back. *)
Lemma utf8_decode_code_point (cp : N) (rest : list N) :
  cp < 0x110000 -> ~ (0xD800 <= cp < 0xE000) ->
  utf8_decode (utf8_of_code_point cp ++ rest)
  = utf16_of_code_point cp ++ utf8_decode rest.
Proof.
  intros H Hs. unfold utf8_of_code_point.
  destruct (N.ltb_spec cp 0x80) as [H1|H1];
    [|destruct (N.ltb_spec cp 0x800) as [H2|H2];
      [|destruct (N.ltb_spec cp 0x10000) as [H3|H3]]];
    cbn [app].
  - rewrite utf8_decode_1 by assumption.
    unfold utf16_of_code_point. case_cmp. reflexivity.
  - apply utf8_decode_2; [lia|]. apply decode2_encoded. lia.
  - apply utf8_decode_3; [lia| |].
    + apply decode2_high_lead. lia.
    + apply decode3_encoded; [lia|assumption].
  - apply utf8_decode_4; [lia| | |].
    + apply decode2_high_lead. lia.
    + apply decode3_high_lead. lia.
    + apply decode4_encoded. lia.
Qed.

Lemma utf16_of_pair (hi lo : N) :
  is_high_surrogate hi = true -> is_low_surrogate lo = true ->
  utf16_of_code_point (pair_code_point hi lo) = [hi; lo].
Proof.
  unfold is_high_surrogate, is_low_surrogate, utf16_of_code_point, pair_code_point.
  rewrite !andb_true_iff, !N.leb_le, !N.ltb_lt. intros [? ?] [? ?].
  case_cmp. f_equal; [lia|]. f_equal. lia.
Qed.

Lemma pair_code_point_range (hi lo : N) :
  is_high_surrogate hi = true -> is_low_surrogate lo = true ->
  0x10000 <= pair_code_point hi lo < 0x110000.
Proof.
  unfold is_high_surrogate, is_low_surrogate, pair_code_point.
  rewrite !andb_true_iff, !N.leb_le, !N.ltb_lt. lia.
Qed.

(** Reading as UTF-8 the UTF-8 bytes of a string gives the string back,
    provided every surrogate in it has its partner. *)
Lemma utf8_decode_encode (s : jsstring) :
  is_jsstring s -> well_formed s = true -> utf8_decode (utf8_encode s) = s.
Proof.
  remember (List.length s) as n eqn:Hn.
  revert s Hn. induction n as [n IH] using lt_wf_ind. intros s Hn Hs Hwf.
  destruct s as [|c t]; [reflexivity|].
  inversion Hs as [|? ? Hc Ht]; subst.
  cbn [utf8_encode well_formed] in *.
  destruct (is_high_surrogate c) eqn:Hhi.
  - destruct t as [|d t']; [discriminate|].
    apply andb_true_iff in Hwf. destruct Hwf as [Hlo Hwf]. rewrite Hlo.
    inversion Ht as [|? ? Hd Ht']; subst.
    pose proof (pair_code_point_range c d Hhi Hlo) as Hr.
    rewrite utf8_decode_code_point by lia.
    rewrite utf16_of_pair by assumption.
    rewrite (IH (List.length t')); [reflexivity| |reflexivity|assumption|assumption].
    cbn [List.length]. lia.
  - apply andb_true_iff in Hwf. destruct Hwf as [Hlo Hwf].
    apply negb_true_iff in Hlo. rewrite Hlo.
    rewrite utf8_decode_code_point.
    + unfold utf16_of_code_point. case_cmp. cbn [app].
      rewrite (IH (List.length t)); [reflexivity| |reflexivity|assumption|assumption].
      cbn [List.length]. lia.
    + lia.
    + unfold is_high_surrogate, is_low_surrogate in Hhi, Hlo.
      rewrite andb_false_iff, N.leb_gt, N.ltb_ge in Hhi, Hlo. lia.
Qed.

Lemma utf8_of_code_point_bytes (cp : N) :
  cp < 0x110000 -> is_bytes (utf8_of_code_point cp).
Proof.
  intros H. unfold utf8_of_code_point, is_bytes.
  cases_cmp; repeat constructor; lia.
Qed.

(** The UTF-8 encoding of a string is a sequence of bytes. *)
Lemma utf8_encode_bytes (s : jsstring) : is_jsstring s -> is_bytes (utf8_encode s).
Proof.
  remember (List.length s) as n eqn:Hn.
  revert s Hn. induction n as [n IH] using lt_wf_ind. intros s Hn Hs.
  destruct s as [|c t]; [constructor|].
  inversion Hs as [|? ? Hc Ht]; subst.
  assert (IHt : is_bytes (utf8_encode t)).
  { apply (IH (List.length t)); [cbn [List.length]; lia|reflexivity|assumption]. }
  cbn [utf8_encode].
  destruct (is_high_surrogate c) eqn:Hhi.
  - destruct t as [|d t']; [repeat constructor|].
    destruct (is_low_surrogate d) eqn:Hlo.
    + inversion Ht as [|? ? Hd Ht']; subst.
      apply Forall_app. split.
      * apply utf8_of_code_point_bytes.
        pose proof (pair_code_point_range c d Hhi Hlo). lia.
      * apply (IH (List.length t')); [cbn [List.length]; lia|reflexivity|assumption].
    + constructor; [reflexivity|assumption].
  - destruct (is_low_surrogate c).
    + constructor; [reflexivity|assumption].
    + apply Forall_app. split; [|assumption].
      apply utf8_of_code_point_bytes. lia.
Qed.

(** *** What a decoder can produce *)

Lemma well_formed_cons_scalar (c : N) (s : jsstring) :
  is_surrogate c = false -> well_formed (c :: s) = well_formed s.
Proof.
  unfold is_surrogate. intros H. apply orb_false_iff in H. destruct H as [Hh Hl].
  cbn [well_formed]. rewrite Hh, Hl. reflexivity.
Qed.

Lemma utf16_of_code_point_well_formed (cp : N) (s : jsstring) :
  cp < 0x110000 -> is_surrogate cp = false ->
  well_formed (utf16_of_code_point cp ++ s) = well_formed s
  /\ is_jsstring (utf16_of_code_point cp).
Proof.
  intros Hcp Hs. unfold utf16_of_code_point.
  destruct (N.ltb_spec cp 0x10000) as [H|H].
  - split; [apply well_formed_cons_scalar; exact Hs|].
    constructor; [exact H|constructor].
  - split.
    + cbn [app well_formed]. unfold is_high_surrogate, is_low_surrogate.
      cases_cmp; reflexivity.
    + constructor; [lia|]. constructor; [lia|constructor].
Qed.

Lemma decode2_range (b0 b1 cp : N) :
  decode2 b0 b1 = Some cp -> cp < 0x110000 /\ is_surrogate cp = false.
Proof.
  unfold decode2, is_continuation, is_surrogate, is_high_surrogate, is_low_surrogate.
  destruct (N.leb_spec 0xC2 b0); cbn [andb]; [|discriminate].
  destruct (N.ltb_spec b0 0xE0); cbn [andb]; [|discriminate].
  destruct (N.leb_spec 0x80 b1); cbn [andb]; [|discriminate].
  destruct (N.ltb_spec b1 0xC0); cbn [andb]; [|discriminate].
  intros E. injection E as <-. split; [lia|]. cases_cmp; reflexivity.
Qed.

Lemma decode3_range (b0 b1 b2 cp : N) :
  decode3 b0 b1 b2 = Some cp -> cp < 0x110000 /\ is_surrogate cp = false.
Proof.
  unfold decode3, is_continuation, is_surrogate, is_high_surrogate, is_low_surrogate.
  destruct (N.leb_spec 0xE0 b0); cbn [andb]; [|discriminate].
  destruct (N.ltb_spec b0 0xF0); cbn [andb]; [|discriminate].
  destruct (N.leb_spec 0x80 b1); cbn [andb]; [|discriminate].
  destruct (N.ltb_spec b1 0xC0); cbn [andb]; [|discriminate].
  destruct (N.leb_spec 0x80 b2); cbn [andb]; [|discriminate].
  destruct (N.ltb_spec b2 0xC0); cbn [andb]; [|discriminate].
  cbv zeta.
  set (cp' := (b0 - 0xE0) * 4096 + (b1 - 0x80) * 64 + (b2 - 0x80)).
  assert (Hc : cp' < 0x10000) by (unfold cp'; lia).
  destruct (N.leb_spec 0x800 cp'); cbn [andb]; [|discriminate].
  destruct (N.leb_spec 0xD800 cp'); cbn [andb negb].
  - destruct (N.ltb_spec cp' 0xE000); cbn [negb]; [discriminate|].
    intros E. injection E as <-. split; [lia|]. cases_cmp; reflexivity.
  - intros E. injection E as <-. split; [lia|]. cases_cmp; reflexivity.
Qed.

Lemma decode4_range (b0 b1 b2 b3 cp : N) :
  decode4 b0 b1 b2 b3 = Some cp -> cp < 0x110000 /\ is_surrogate cp = false.
Proof.
  unfold decode4. destruct (_ && _ && _ && _ && _); [|discriminate].
  cbv zeta.
  set (cp' := (b0 - 0xF0) * 262144 + (b1 - 0x80) * 4096 + (b2 - 0x80) * 64
              + (b3 - 0x80)).
  destruct (N.leb_spec 0x10000 cp'); cbn [andb]; [|discriminate].
  destruct (N.ltb_spec cp' 0x110000); [|discriminate].
  intros E. injection E as <-. split; [assumption|].
  unfold is_surrogate, is_high_surrogate, is_low_surrogate. cases_cmp; reflexivity.
Qed.

(** Whatever the bytes, what is read from them as UTF-8 is a well-formed
    string. *)
Lemma utf8_decode_well_formed (bs : list N) :
  well_formed (utf8_decode bs) = true /\ is_jsstring (utf8_decode bs).
Proof.
  remember (List.length bs) as n eqn:Hn.
  revert bs Hn. induction n as [n IH] using lt_wf_ind. intros bs Hn.
  assert (IH' : forall t, (List.length t < n)%nat ->
                 well_formed (utf8_decode t) = true /\ is_jsstring (utf8_decode t)).
  { intros t Ht. exact (IH (List.length t) Ht t eq_refl). }
  clear IH.
  assert (Hcp : forall cp t, cp < 0x110000 -> is_surrogate cp = false ->
                  (List.length t < n)%nat ->
                  well_formed (utf16_of_code_point cp ++ utf8_decode t) = true
                  /\ is_jsstring (utf16_of_code_point cp ++ utf8_decode t)).
  { intros cp t H1 H2 Ht. destruct (IH' t Ht) as [Hw Hj].
    destruct (utf16_of_code_point_well_formed cp (utf8_decode t) H1 H2) as [E Hu].
    split; [rewrite E; exact Hw|]. apply Forall_app. split; assumption. }
  assert (Hrep : forall t, (List.length t < n)%nat ->
                  well_formed (replacement_character :: utf8_decode t) = true
                  /\ is_jsstring (replacement_character :: utf8_decode t)).
  { intros t Ht. destruct (IH' t Ht) as [Hw Hj]. split.
    - rewrite well_formed_cons_scalar by reflexivity. exact Hw.
    - constructor; [reflexivity|exact Hj]. }
  destruct bs as [|b0 t0]; [split; [reflexivity|constructor]|].
  cbn [List.length] in Hn. cbn [utf8_decode].
  destruct (N.ltb_spec b0 0x80) as [H0|H0].
  { destruct (IH' t0) as [Hw Hj]; [lia|]. split.
    - rewrite well_formed_cons_scalar; [exact Hw|].
      unfold is_surrogate, is_high_surrogate, is_low_surrogate. cases_cmp; reflexivity.
    - constructor; [lia|exact Hj]. }
  destruct t0 as [|b1 t1]; [split; [reflexivity|repeat constructor]|].
  cbn [List.length] in Hn.
  destruct (decode2 b0 b1) as [cp|] eqn:E2.
  { destruct (decode2_range _ _ _ E2). apply Hcp; [assumption|assumption|lia]. }
  destruct t1 as [|b2 t2]; [apply Hrep; cbn [List.length]; lia|].
  cbn [List.length] in Hn.
  destruct (decode3 b0 b1 b2) as [cp|] eqn:E3.
  { destruct (decode3_range _ _ _ _ E3). apply Hcp; [assumption|assumption|lia]. }
  destruct t2 as [|b3 t3]; [apply Hrep; cbn [List.length]; lia|].
  cbn [List.length] in Hn.
  destruct (decode4 b0 b1 b2 b3) as [cp|] eqn:E4.
  { destruct (decode4_range _ _ _ _ _ E4). apply Hcp; [assumption|assumption|lia]. }
  apply Hrep. cbn [List.length]. lia.
Qed.

(** ** The exclusive-or loop *)

Lemma lxor_code_unit (a b : N) : a < 65536 -> b < 65536 -> N.lxor a b < 65536.
Proof.
  intros Ha Hb.
  destruct (N.eq_dec (N.lxor a b) 0) as [E|E]; [rewrite E; reflexivity|].
  change 65536 with (2 ^ 16). apply N.log2_lt_pow2; [lia|].
  pose proof (N.log2_lxor a b) as Hl.
  assert (La : N.log2 a < 16).
  { destruct (N.eq_dec a 0) as [->|]; [reflexivity|].
    apply N.log2_lt_pow2; [lia|exact Ha]. }
  assert (Lb : N.log2 b < 16).
  { destruct (N.eq_dec b 0) as [->|]; [reflexivity|].
    apply N.log2_lt_pow2; [lia|exact Hb]. }
  lia.
Qed.

Lemma is_jsstring_nth (s : jsstring) (i : nat) : is_jsstring s -> nth i s 0 < 65536.
Proof.
  intros Hs. destruct (Nat.lt_ge_cases i (List.length s)) as [Hi|Hi].
  - unfold is_jsstring in Hs. rewrite Forall_forall in Hs.
    apply Hs. apply nth_In. exact Hi.
  - rewrite nth_overflow by exact Hi. reflexivity.
Qed.

Lemma nth_map_seq {A : Type} (f : nat -> A) (n i : nat) (d : A) :
  (i < n)%nat -> nth i (map f (seq 0 n)) d = f i.
Proof.
  intros Hi.
  rewrite (nth_indep _ d (f 0%nat)) by (rewrite length_map, length_seq; exact Hi).
  rewrite (map_nth f (seq 0 n) 0%nat i). rewrite seq_nth by exact Hi. reflexivity.
Qed.

Lemma xor_loop_length (data key : jsstring) :
  List.length (xor_loop data key) = List.length data.
Proof. unfold xor_loop. rewrite length_map, length_seq. reflexivity. Qed.

Lemma xor_loop_is_jsstring (data key : jsstring) : is_jsstring (xor_loop data key).
Proof.
  unfold xor_loop, is_jsstring. apply Forall_forall. intros c Hc.
  apply in_map_iff in Hc. destruct Hc as [i [<- _]].
  unfold fromCharCode. apply N.mod_lt. discriminate.
Qed.

(** With an empty key the loop changes nothing: [i % 0] is NaN, the key has
    no character there, and [c ^ NaN] is [c]. *)
Lemma xor_loop_empty_key (data : jsstring) :
  is_jsstring data -> xor_loop data [] = data.
Proof.
  intros Hd. apply (nth_ext _ _ 0 0).
  - apply xor_loop_length.
  - intros i Hi. rewrite xor_loop_length in Hi. unfold xor_loop.
    rewrite nth_map_seq by exact Hi.
    cbn [List.length js_rem charCodeAt nth_error].
    unfold charCodeAt. rewrite (nth_error_nth' data 0 Hi).
    unfold js_bitxor, fromCharCode. rewrite N.lxor_0_r.
    apply N.mod_small. apply is_jsstring_nth. exact Hd.
Qed.

(** Combining with a character below 128 keeps a character in its block of
    128, hence out of the surrogates if it was. *)
Lemma lxor_ascii_block (p k : N) : p < 128 -> N.lxor p k / 128 = k / 128.
Proof.
  intros Hp. change 128 with (2 ^ 7). rewrite <- !N.shiftr_div_pow2.
  rewrite N.shiftr_lxor.
  assert (Hz : N.shiftr p 7 = 0).
  { rewrite N.shiftr_div_pow2. apply N.div_small. exact Hp. }
  rewrite Hz. apply N.lxor_0_l.
Qed.

Lemma lxor_ascii_not_surrogate (p k : N) :
  p < 128 -> is_surrogate k = false -> is_surrogate (N.lxor p k) = false.
Proof.
  intros Hp Hk. pose proof (lxor_ascii_block p k Hp) as Hb.
  unfold is_surrogate, is_high_surrogate, is_low_surrogate in *.
  rewrite !orb_false_iff, !andb_false_iff, !N.leb_gt, !N.ltb_ge in *.
  lia.
Qed.

Lemma well_formed_without_surrogates (s : jsstring) :
  Forall (fun c => is_surrogate c = false) s -> well_formed s = true.
Proof.
  induction 1 as [|c t Hc _ IH]; [reflexivity|].
  unfold is_surrogate in Hc. apply orb_false_iff in Hc. destruct Hc as [Hh Hl].
  cbn [well_formed]. rewrite Hh, Hl, IH. reflexivity.
Qed.

Lemma is_ascii_is_jsstring (s : jsstring) : is_ascii s -> is_jsstring s.
Proof.
  unfold is_jsstring, is_ascii. rewrite !Forall_forall.
  intros H c Hc. specialize (H c Hc). cbn beta in H. lia.
Qed.

Create HintDb jsstring.
#[local] Hint Resolve xor_loop_is_jsstring is_ascii_is_jsstring
  utf8_encode_bytes : jsstring.

(** The loop under a key that is a non-empty string. *)
Section XorLoop.

Variable key : jsstring.
Hypothesis key_nonempty : key <> [].
Hypothesis key_is_jsstring : is_jsstring key.

Lemma key_index (i : nat) : (i mod List.length key < List.length key)%nat.
Proof.
  apply Nat.mod_upper_bound. destruct key; [contradiction|discriminate].
Qed.

(** Character [i] of the loop's result. *)
Lemma xor_loop_nth (data : jsstring) (i : nat) :
  is_jsstring data -> (i < List.length data)%nat ->
  nth i (xor_loop data key) 0
  = N.lxor (nth i data 0) (nth (i mod List.length key) key 0).
Proof.
  intros Hd Hi. unfold xor_loop.
  rewrite nth_map_seq by exact Hi.
  unfold charCodeAt, js_rem.
  pose proof (key_index i) as Hm.
  destruct (List.length key) as [|m] eqn:El; [lia|]. rewrite <- El in *.
  rewrite (nth_error_nth' data 0 Hi), (nth_error_nth' key 0 Hm).
  unfold js_bitxor, fromCharCode.
  apply N.mod_small. apply lxor_code_unit; apply is_jsstring_nth; assumption.
Qed.

(** Running the loop twice gives the text back. *)
Lemma xor_loop_involutive (data : jsstring) :
  is_jsstring data -> xor_loop (xor_loop data key) key = data.
Proof.
  intros Hd. apply (nth_ext _ _ 0 0).
  - rewrite !xor_loop_length. reflexivity.
  - intros i Hi. rewrite !xor_loop_length in Hi.
    rewrite xor_loop_nth by (rewrite ?xor_loop_length; auto with jsstring).
    rewrite xor_loop_nth by assumption.
    rewrite N.lxor_assoc, N.lxor_nilpotent, N.lxor_0_r. reflexivity.
Qed.

(** An ASCII text combined with a key that has no surrogate is well
    formed. *)
Lemma xor_loop_ascii_well_formed (data : jsstring) :
  is_ascii data ->
  Forall (fun c => is_surrogate c = false) key ->
  well_formed (xor_loop data key) = true.
Proof.
  intros Hd Hkey. apply well_formed_without_surrogates.
  apply Forall_forall. intros c Hc.
  destruct (In_nth _ _ 0 Hc) as [i [Hi <-]].
  rewrite xor_loop_length in Hi.
  rewrite xor_loop_nth by auto with jsstring.
  apply lxor_ascii_not_surrogate.
  - unfold is_ascii in Hd. rewrite Forall_forall in Hd.
    apply (Hd (nth i data 0)). apply nth_In. exact Hi.
  - rewrite Forall_forall in Hkey. apply Hkey. apply nth_In. apply key_index.
Qed.

End XorLoop.

(** ** Token codec: encoding and decoding *)

(** What [xorDecrypt] returns on the encoding of [text] under [K]. *)
Lemma xorDecrypt_base64Encode (text K : jsstring) :
  is_jsstring text ->
  xorDecrypt (Utilities_base64Encode text) (Some K)
  = Return (xor_loop (utf8_decode (utf8_encode text)) K).
Proof.
  intros Ht. unfold xorDecrypt, xorDecrypt_try, Utilities_base64Decode,
    Utilities_base64Encode, Blob_getDataAsString.
  rewrite bytes_of_base64_of_bytes by auto with jsstring.
  reflexivity.
Qed.

(** The round trip succeeds exactly when the text produced by the loop is
    well formed. *)
Lemma round_trip_iff_well_formed (P K : jsstring) :
  K <> [] -> is_jsstring P -> is_jsstring K ->
  xorDecrypt (Utilities_base64Encode (xor_loop P K)) (Some K) = Return P
  <-> well_formed (xor_loop P K) = true.
Proof.
  intros HK HP HKs.
  rewrite xorDecrypt_base64Encode by auto with jsstring.
  split.
  - intros H. injection H as H.
    destruct (utf8_decode_well_formed (utf8_encode (xor_loop P K))) as [Hw Hj].
    assert (E : utf8_decode (utf8_encode (xor_loop P K)) = xor_loop P K).
    { rewrite <- (xor_loop_involutive K HK HKs _ Hj). rewrite H. reflexivity. }
    rewrite <- E. exact Hw.
  - intros Hwf.
    rewrite utf8_decode_encode by auto with jsstring.
    rewrite xor_loop_involutive by assumption. reflexivity.
Qed.

(** C1, as amended.  For a non-empty plaintext [P] and a non-empty secret
    [K], decoding the encoding of [P] under [K] returns [P] when the text
    produced by the exclusive-or loop has no surrogate without its partner,
    and only then. *)
Theorem xorDecrypt_xorEncrypt (P K : jsstring) :
  P <> [] -> K <> [] -> is_jsstring P -> is_jsstring K ->
  (exists token,
     xorEncrypt P (Some K) = Return token
     /\ xorDecrypt token (Some K) = Return P)
  <-> well_formed (xor_loop P K) = true.
Proof.
  intros _ HK HP HKs.
  rewrite <- (round_trip_iff_well_formed P K HK HP HKs).
  assert (He : xorEncrypt P (Some K)
               = Return (Utilities_base64Encode (xor_loop P K))).
  { unfold xorEncrypt. destruct K; [contradiction|reflexivity]. }
  split.
  - intros [token [H1 H2]]. rewrite He in H1. injection H1 as <-. exact H2.
  - intros H. eexists. split; [exact He|exact H].
Qed.

Lemma xorDecrypt_xorEncrypt_witness :
  js "doc|17" <> [] /\ js "k3y" <> [] /\
  is_jsstring (js "doc|17") /\ is_jsstring (js "k3y") /\
  ((exists token,
      xorEncrypt (js "doc|17") (Some (js "k3y")) = Return token
      /\ xorDecrypt token (Some (js "k3y")) = Return (js "doc|17"))
   <-> well_formed (xor_loop (js "doc|17") (js "k3y")) = true).
Proof.
  assert (H1 : js "doc|17" <> []) by discriminate.
  assert (H2 : js "k3y" <> []) by discriminate.
  assert (H3 : is_jsstring (js "doc|17")) by (repeat constructor).
  assert (H4 : is_jsstring (js "k3y")) by (repeat constructor).
  repeat (split; [assumption|]).
  exact (xorDecrypt_xorEncrypt (js "doc|17") (js "k3y") H1 H2 H3 H4).
Defined.

(** C1, as stated, fails: under a secret that is one character outside the
    basic plane, the plaintext "A" is encoded to "Pw==", which decodes to
    another text. *)
Lemma round_trip_fails_on_unpaired_surrogate :
  js "A" <> [] /\ [0xD83D; 0xDE00] <> [] /\
  is_jsstring (js "A") /\ is_jsstring [0xD83D; 0xDE00] /\
  xorEncrypt (js "A") (Some [0xD83D; 0xDE00]) = Return (js "Pw==") /\
  xorDecrypt (js "Pw==") (Some [0xD83D; 0xDE00]) = Return [0xD802] /\
  [0xD802] <> js "A".
Proof.
  split; [discriminate|]. split; [discriminate|].
  split; [repeat constructor|]. split; [repeat constructor|].
  split; [reflexivity|]. split; [reflexivity|]. discriminate.
Qed.

(** In particular an ASCII plaintext survives the round trip under every
    non-empty secret that has no surrogate. *)
Lemma round_trip_ascii (P K : jsstring) :
  K <> [] -> is_ascii P -> is_jsstring K ->
  Forall (fun c => is_surrogate c = false) K ->
  xorDecrypt (Utilities_base64Encode (xor_loop P K)) (Some K) = Return P.
Proof.
  intros HK HP HKs HKn.
  apply round_trip_iff_well_formed; auto with jsstring.
  apply xor_loop_ascii_well_formed; assumption.
Qed.

(** The bytes that are Base64-encoded are the characters themselves when
    these are below 128. *)
Lemma utf8_encode_ascii (s : jsstring) : is_ascii s -> utf8_encode s = s.
Proof.
  induction 1 as [|c t Hc _ IH]; [reflexivity|].
  cbn [utf8_encode]. unfold is_high_surrogate, is_low_surrogate.
  cases_cmp. unfold utf8_of_code_point. case_cmp. cbn [app]. rewrite IH.
  reflexivity.
Qed.

(** *** The bytes that are encoded *)

Lemma utf8_of_code_point_length (cp : N) :
  List.length (utf8_of_code_point cp)
  = if cp <? 0x80 then 1%nat
    else if cp <? 0x800 then 2%nat
    else if cp <? 0x10000 then 3%nat else 4%nat.
Proof. unfold utf8_of_code_point. cases_cmp; reflexivity. Qed.

(** The encoding has one byte at least for each character. *)
Lemma utf8_encode_length (s : jsstring) :
  (List.length s <= List.length (utf8_encode s))%nat.
Proof.
  remember (List.length s) as n eqn:Hn.
  revert s Hn. induction n as [n IH] using lt_wf_ind. intros s Hn.
  destruct s as [|c t]; [subst; cbn; lia|].
  assert (IHt : (List.length t <= List.length (utf8_encode t))%nat).
  { apply (IH (List.length t)); [subst; cbn [List.length]; lia|reflexivity]. }
  subst n. cbn [utf8_encode].
  destruct (is_high_surrogate c) eqn:Hhi.
  - destruct t as [|d t']; [cbn; lia|].
    destruct (is_low_surrogate d) eqn:Hlo.
    + rewrite length_app, utf8_of_code_point_length.
      pose proof (pair_code_point_range c d Hhi Hlo) as Hr.
      assert (IHt' : (List.length t' <= List.length (utf8_encode t'))%nat).
      { apply (IH (List.length t')); [cbn [List.length]; lia|reflexivity]. }
      cases_cmp. cbn [List.length]. lia.
    + cbn [List.length] in *. lia.
  - destruct (is_low_surrogate c).
    + cbn [List.length] in *. lia.
    + rewrite length_app, utf8_of_code_point_length.
      cbn [List.length]. cases_cmp; lia.
Qed.

(** The bytes are the characters themselves only when these are below
    128. *)
Lemma utf8_encode_fixed (s : jsstring) : utf8_encode s = s -> is_ascii s.
Proof.
  induction s as [|c t IH]; intros H; [constructor|].
  assert (Hsur : is_surrogate c = true -> utf8_replacement_byte <> c).
  { unfold is_surrogate, is_high_surrogate, is_low_surrogate,
      utf8_replacement_byte.
    rewrite orb_true_iff, !andb_true_iff, !N.leb_le, !N.ltb_lt. lia. }
  unfold is_surrogate in Hsur.
  cbn [utf8_encode] in H.
  destruct (is_high_surrogate c) eqn:Hhi.
  - exfalso. destruct t as [|d t'].
    + injection H as H. exact (Hsur eq_refl H).
    + destruct (is_low_surrogate d) eqn:Hlo.
      * apply (f_equal (@List.length N)) in H.
        rewrite length_app, utf8_of_code_point_length in H.
        pose proof (pair_code_point_range c d Hhi Hlo) as Hr.
        pose proof (utf8_encode_length t') as Hl.
        revert H. cases_cmp. cbn [List.length]. lia.
      * injection H as H _. exact (Hsur eq_refl H).
  - destruct (is_low_surrogate c) eqn:Hlo.
    + exfalso. injection H as H _. apply Hsur; [|exact H].
      apply orb_true_r.
    + unfold utf8_of_code_point in H.
      destruct (N.ltb_spec c 0x80) as [Hc|Hc].
      * cbn [app] in H. injection H as H.
        constructor; [exact Hc|]. apply IH. exact H.
      * exfalso. apply (f_equal (@List.length N)) in H.
        pose proof (utf8_encode_length t) as Hl.
        revert H. cases_cmp; rewrite length_app; cbn [List.length]; lia.
Qed.

Lemma lxor_ascii (a b : N) : a < 128 -> b < 128 -> N.lxor a b < 128.
Proof.
  intros Ha Hb. pose proof (lxor_ascii_block a b Ha) as H.
  rewrite (N.div_small b 128 Hb) in H.
  apply N.div_small_iff in H; [exact H|discriminate].
Qed.

(** An ASCII text combined with an ASCII key is an ASCII text. *)
Lemma xor_loop_ascii (P K : jsstring) :
  K <> [] -> is_ascii P -> is_ascii K -> is_ascii (xor_loop P K).
Proof.
  intros HK HP HKa.
  assert (HPs : is_jsstring P) by auto with jsstring.
  assert (HKs : is_jsstring K) by auto with jsstring.
  unfold is_ascii. apply Forall_forall. intros c Hc.
  destruct (In_nth _ _ 0 Hc) as [i [Hi <-]].
  rewrite xor_loop_length in Hi.
  rewrite (xor_loop_nth K HK HKs P i HPs Hi).
  unfold is_ascii in HP, HKa. rewrite Forall_forall in HP, HKa.
  apply lxor_ascii.
  - apply HP. apply nth_In. exact Hi.
  - apply HKa. apply nth_In. apply key_index; assumption.
Qed.

(** C6, as amended.  Encoding with an unset or empty secret fails with the
    error "Secret key is required for encryption".  With any other secret
    the loop produces a sequence of 16-bit char codes as long as the
    plaintext, element [i] being element [i] of the plaintext combined by
    exclusive-or with element [i mod len(secret)] of the secret; what is
    Base64-encoded is the UTF-8 encoding of that sequence.  The encoded
    bytes are never fewer than the characters of the plaintext, and they
    are the sequence itself, one byte per character and each byte the
    exclusive-or, exactly when every element of the sequence is below 128,
    as it is for an ASCII plaintext under an ASCII secret. *)
Theorem xorEncrypt_spec (P : jsstring) (secret : option jsstring) :
  is_jsstring P ->
  (forall K, secret = Some K -> is_jsstring K) ->
  match secret with
  | None | Some [] =>
    xorEncrypt P secret = Throw (Error "Secret key is required for encryption")
  | Some K =>
    xorEncrypt P secret
    = Return (base64_of_bytes (utf8_encode (xor_loop P K)))
    /\ List.length (xor_loop P K) = List.length P
    /\ (forall i, (i < List.length P)%nat ->
          nth i (xor_loop P K) 0
          = N.lxor (nth i P 0) (nth (i mod List.length K) K 0))
    /\ (List.length P <= List.length (utf8_encode (xor_loop P K)))%nat
    /\ (utf8_encode (xor_loop P K) = xor_loop P K <-> is_ascii (xor_loop P K))
    /\ (is_ascii P -> is_ascii K -> is_ascii (xor_loop P K))
  end.
Proof.
  intros HP HK. destruct secret as [[|k K']|]; [reflexivity| |reflexivity].
  split; [reflexivity|]. split; [apply xor_loop_length|].
  split.
  { intros i Hi. apply xor_loop_nth; [discriminate| |assumption|assumption].
    apply HK. reflexivity. }
  split.
  { rewrite <- (xor_loop_length P (k :: K')) at 1. apply utf8_encode_length. }
  split.
  { split; [apply utf8_encode_fixed|apply utf8_encode_ascii]. }
  intros HPa HKa. apply xor_loop_ascii; [discriminate|assumption|assumption].
Qed.

Lemma xorEncrypt_spec_witness :
  is_jsstring (js "ab|1") /\
  (forall K, Some (js "k3") = Some K -> is_jsstring K) /\
  xorEncrypt (js "ab|1") (Some (js "k3"))
  = Return (base64_of_bytes (utf8_encode (xor_loop (js "ab|1") (js "k3"))))
  /\ List.length (xor_loop (js "ab|1") (js "k3")) = List.length (js "ab|1")
  /\ (forall i, (i < List.length (js "ab|1"))%nat ->
        nth i (xor_loop (js "ab|1") (js "k3")) 0
        = N.lxor (nth i (js "ab|1") 0)
                 (nth (i mod List.length (js "k3")) (js "k3") 0))
  /\ (List.length (js "ab|1")
      <= List.length (utf8_encode (xor_loop (js "ab|1") (js "k3"))))%nat
  /\ (utf8_encode (xor_loop (js "ab|1") (js "k3"))
      = xor_loop (js "ab|1") (js "k3")
      <-> is_ascii (xor_loop (js "ab|1") (js "k3")))
  /\ (is_ascii (js "ab|1") -> is_ascii (js "k3") ->
      is_ascii (xor_loop (js "ab|1") (js "k3"))).
Proof.
  assert (H1 : is_jsstring (js "ab|1")) by (repeat constructor).
  assert (H2 : forall K, Some (js "k3") = Some K -> is_jsstring K).
  { intros K E. injection E as <-. repeat constructor. }
  split; [exact H1|]. split; [exact H2|].
  exact (xorEncrypt_spec (js "ab|1") (Some (js "k3")) H1 H2).
Defined.

(** C6, as stated, fails: the plaintext "A" under the one-character secret
    U+00E9 gives the single char code 168, whose UTF-8 encoding has the two
    bytes 194 and 168; the token is "wqg=", the Base64 text of these two
    bytes, not "qA==", the Base64 text of the one byte 168. *)
Lemma encoded_bytes_outnumber_plaintext :
  is_jsstring (js "A") /\ is_jsstring [233] /\
  xor_loop (js "A") [233] = [N.lxor 65 233] /\
  N.lxor 65 233 = 168 /\
  utf8_encode (xor_loop (js "A") [233]) = [194; 168] /\
  List.length (utf8_encode (xor_loop (js "A") [233])) <> List.length (js "A") /\
  xorEncrypt (js "A") (Some [233]) = Return (js "wqg=") /\
  base64_of_bytes [194; 168] = js "wqg=" /\
  base64_of_bytes [168] = js "qA==" /\
  js "wqg=" <> js "qA==".
Proof.
  split; [repeat constructor|]. split; [repeat constructor|].
  split; [reflexivity|]. split; [reflexivity|]. split; [reflexivity|].
  split; [discriminate|]. split; [reflexivity|]. split; [reflexivity|].
  split; [reflexivity|]. discriminate.
Qed.

(** Text that is not Base64 is refused, whatever the secret. *)
Lemma xorDecrypt_not_base64 (encryptedData : jsstring) (secret : option jsstring) :
  bytes_of_base64 encryptedData = None ->
  xorDecrypt encryptedData secret = Throw (Error "Decryption failed: Invalid token").
Proof.
  intros H. unfold xorDecrypt, xorDecrypt_try, Utilities_base64Decode.
  rewrite H. reflexivity.
Qed.

(** An unset secret is refused. *)
Lemma xorDecrypt_unset_secret (encryptedData : jsstring) :
  xorDecrypt encryptedData None = Throw (Error "Decryption failed: Invalid token").
Proof.
  unfold xorDecrypt, xorDecrypt_try.
  destruct (Utilities_base64Decode encryptedData); reflexivity.
Qed.

(** With the empty string as secret, [xorDecrypt] does not fail on valid
    Base64: it returns the decoded text. *)
Lemma empty_secret_decodes (encryptedData : jsstring) (bs : list N) :
  bytes_of_base64 encryptedData = Some bs ->
  xorDecrypt encryptedData (Some []) = Return (xor_loop (utf8_decode bs) []).
Proof.
  intros H. unfold xorDecrypt, xorDecrypt_try, Utilities_base64Decode.
  rewrite H. reflexivity.
Qed.

(** C7 at the failing input: decoding "QQ==" with the empty secret returns
    the plaintext "A" instead of failing. *)
Theorem xorDecrypt_empty_secret :
  xorDecrypt (js "QQ==") (Some []) = Return (js "A")
  /\ xorEncrypt (js "A") (Some [])
     = Throw (Error "Secret key is required for encryption").
Proof. split; vm_compute; reflexivity. Qed.

(** ** Printing and reading a timestamp *)

Lemma digit_value_digit (c : N) :
  is_digit c -> digit_value 10 c = Some (c - 48).
Proof.
  unfold is_digit, digit_value. intros H. cases_cmp. reflexivity.
Qed.

Lemma parse_digits_app_digit (ds rest : jsstring) (d a : N) :
  is_digit d ->
  parse_digits 10 (ds ++ d :: rest) a
  = match ds with
    | [] => parse_digits 10 rest (a * 10 + (d - 48))
    | _ => parse_digits 10 (ds ++ d :: rest) a
    end.
Proof.
  intros Hd. destruct ds; [|reflexivity].
  cbn [app parse_digits]. rewrite digit_value_digit by assumption. reflexivity.
Qed.

(** The digits produced for [n]: each one a digit, at least one, and read
    back they give [n]. *)
Lemma digits_of_spec (fuel : nat) :
  forall (n : N) (acc : jsstring),
    n < 2 ^ N.of_nat (S fuel) ->
    exists ds k,
      digits_of (S fuel) n acc = ds ++ acc
      /\ ds <> [] /\ Forall is_digit ds
      /\ forall a rest,
           parse_digits 10 (ds ++ rest) a = parse_digits 10 rest (a * k + n).
Proof.
  induction fuel as [|fuel IH]; intros n acc Hn.
  - change (2 ^ N.of_nat 1) with 2 in Hn.
    exists [48 + n mod 10], 10.
    cbn [digits_of]. destruct (N.eqb_spec (n / 10) 0) as [E|E]; [|lia].
    assert (Hd : is_digit (48 + n mod 10)) by (unfold is_digit; lia).
    split; [reflexivity|]. split; [discriminate|].
    split; [constructor; [assumption|constructor]|].
    intros a rest. cbn [app parse_digits].
    rewrite digit_value_digit by assumption. f_equal. lia.
  - rewrite Nat2N.inj_succ, N.pow_succ_r' in Hn.
    remember (S fuel) as f eqn:Ef.
    cbn [digits_of].
    assert (Hd : is_digit (48 + n mod 10)) by (unfold is_digit; lia).
    destruct (N.eqb_spec (n / 10) 0) as [E|E].
    + exists [48 + n mod 10], 10.
      split; [reflexivity|]. split; [discriminate|].
      split; [constructor; [assumption|constructor]|].
      intros a rest. cbn [app parse_digits].
      rewrite digit_value_digit by assumption. f_equal. lia.
    + subst f.
      destruct (IH (n / 10) ((48 + n mod 10) :: acc)) as [ds [k [H1 [H2 [H3 H4]]]]];
        [lia|].
      exists (ds ++ [48 + n mod 10]), (k * 10).
      split; [rewrite H1, <- app_assoc; reflexivity|].
      split; [destruct ds; discriminate|].
      split; [apply Forall_app; split;
                [assumption|constructor; [assumption|constructor]]|].
      intros a rest. rewrite <- app_assoc. cbn [app].
      rewrite H4. cbn [parse_digits].
      rewrite digit_value_digit by assumption. f_equal. lia.
Qed.

Lemma N_toString_spec (n : N) :
  N_toString n <> [] /\ Forall is_digit (N_toString n)
  /\ parse_digits 10 (N_toString n) 0 = n.
Proof.
  unfold N_toString.
  destruct (digits_of_spec (N.to_nat (N.log2 n)) n []) as [ds [k [H1 [H2 [H3 H4]]]]].
  - rewrite Nat2N.inj_succ, N2Nat.id.
    destruct (N.eq_dec n 0) as [->|Hn]; [reflexivity|].
    apply N.log2_spec. lia.
  - rewrite H1, app_nil_r. split; [assumption|]. split; [assumption|].
    specialize (H4 0 []). rewrite app_nil_r in H4. rewrite H4. reflexivity.
Qed.

Lemma parse_magnitude_digits (ds : jsstring) :
  ds <> [] -> Forall is_digit ds ->
  parse_magnitude ds = Some (parse_digits 10 ds 0).
Proof.
  intros Hne Hds. destruct ds as [|c0 t]; [contradiction|].
  inversion Hds as [|? ? H0 Ht]; subst. unfold is_digit in H0.
  unfold parse_magnitude.
  assert (Hr : strip_radix_prefix (c0 :: t) = (10, c0 :: t)).
  { unfold strip_radix_prefix. destruct t as [|c1 t']; [reflexivity|].
    inversion Ht as [|? ? H1 _]; subst. unfold is_digit in H1.
    destruct (N.eqb_spec c1 120); [lia|]. destruct (N.eqb_spec c1 88); [lia|].
    rewrite andb_false_r. reflexivity. }
  rewrite Hr. cbn [starts_with_digit].
  rewrite digit_value_digit by exact H0. reflexivity.
Qed.

Lemma digit_not_whitespace (c : N) : is_digit c -> is_whitespace c = false.
Proof. unfold is_digit, is_whitespace. intros H. cases_cmp; reflexivity. Qed.

(** Reading back a printed integer. *)
Lemma parseInt_Number_toString (z : Z) : parseInt (Number_toString z) = Some z.
Proof.
  destruct z as [|p|p].
  - reflexivity.
  - cbn [Number_toString].
    destruct (N_toString_spec (Z.to_N (Z.pos p))) as [H1 [H2 H3]].
    destruct (N_toString (Z.to_N (Z.pos p))) as [|c0 t] eqn:E; [contradiction|].
    unfold parseInt. cbn [skip_whitespace].
    inversion H2 as [|? ? H0 Ht]; subst.
    rewrite digit_not_whitespace by exact H0. unfold is_digit in H0.
    destruct (N.eqb_spec c0 45); [lia|]. destruct (N.eqb_spec c0 43); [lia|].
    rewrite parse_magnitude_digits by assumption. rewrite H3. f_equal.
  - cbn [Number_toString].
    destruct (N_toString_spec (N.pos p)) as [H1 [H2 H3]].
    unfold parseInt. cbn [skip_whitespace].
    change (is_whitespace 45) with false. cbv iota.
    change (45 =? 45) with true. cbv iota.
    rewrite parse_magnitude_digits by assumption. rewrite H3. reflexivity.
Qed.

Lemma digit_not_bar (c : N) : is_digit c -> c <> bar.
Proof. unfold is_digit, bar. lia. Qed.

Lemma Number_toString_no_bar (z : Z) : ~ In bar (Number_toString z).
Proof.
  assert (Hn : forall n, ~ In bar (N_toString n)).
  { intros n Hin. destruct (N_toString_spec n) as [_ [H2 _]].
    rewrite Forall_forall in H2. apply (digit_not_bar bar); [|reflexivity].
    apply H2. exact Hin. }
  destruct z as [|p|p]; cbn [Number_toString]; try apply Hn.
  intros [H|H]; [discriminate H|]. exact (Hn _ H).
Qed.

(** ** Splitting a token's text *)

Lemma split_no_separator (sep : N) (text : jsstring) :
  ~ In sep text -> split sep text = [text].
Proof.
  induction text as [|c t IH]; intros Hn; [reflexivity|].
  cbn [split]. destruct (N.eqb_spec c sep) as [E|E].
  - exfalso. apply Hn. left. exact E.
  - rewrite IH; [reflexivity|]. intros Hin. apply Hn. right. exact Hin.
Qed.

Lemma split_one_separator (sep : N) (left right : jsstring) :
  ~ In sep left -> ~ In sep right ->
  split sep (left ++ sep :: right) = [left; right].
Proof.
  intros Hl Hr. induction left as [|c t IH].
  - cbn [app split]. rewrite N.eqb_refl. rewrite split_no_separator by assumption.
    reflexivity.
  - cbn [app split]. destruct (N.eqb_spec c sep) as [E|E].
    + exfalso. apply Hl. left. exact E.
    + rewrite IH; [reflexivity|]. intros Hin. apply Hl. right. exact Hin.
Qed.

Lemma split_tokenData (sheetId : jsstring) (T : Z) :
  ~ In bar sheetId ->
  split bar (tokenData sheetId T) = [sheetId; Number_toString T].
Proof.
  intros H. unfold tokenData. change (js "|") with [bar]. cbn [app].
  apply split_one_separator; [assumption|apply Number_toString_no_bar].
Qed.

Lemma N_toString_ascii (n : N) : is_ascii (N_toString n).
Proof.
  destruct (N_toString_spec n) as [_ [H _]].
  unfold is_ascii. rewrite Forall_forall in *. intros c Hc.
  specialize (H c Hc). unfold is_digit in H. lia.
Qed.

Lemma tokenData_ascii (sheetId : jsstring) (T : Z) :
  is_ascii sheetId -> is_ascii (tokenData sheetId T).
Proof.
  intros H. unfold tokenData, is_ascii. apply Forall_app. split; [exact H|].
  apply Forall_app. split; [repeat constructor|].
  destruct T as [|p|p]; cbn [Number_toString]; try apply N_toString_ascii.
  constructor; [reflexivity|apply N_toString_ascii].
Qed.

(** The token issued by [generateSheetToken] carries the id of the
    spreadsheet and the time of issue. *)
Lemma generateSheetToken_carries (w : World) :
  ENCRYPTION_CONFIG_secretKey w <> [] ->
  is_jsstring (ENCRYPTION_CONFIG_secretKey w) ->
  Forall (fun c => is_surrogate c = false) (ENCRYPTION_CONFIG_secretKey w) ->
  is_ascii (spreadsheetId w) ->
  exists token,
    fst (generateSheetToken w) = Return token
    /\ xorDecrypt token (Some (ENCRYPTION_CONFIG_secretKey w))
       = Return (tokenData (spreadsheetId w) (clock w (clockReads w))).
Proof.
  intros Hk Hks Hkn Hid.
  exists (Utilities_base64Encode
            (xor_loop (tokenData (spreadsheetId w) (clock w (clockReads w)))
                      (ENCRYPTION_CONFIG_secretKey w))).
  split.
  - unfold generateSheetToken, bind, gets, Date_getTime, lift, xorEncrypt.
    destruct (ENCRYPTION_CONFIG_secretKey w); [contradiction|reflexivity].
  - apply round_trip_ascii; try assumption.
    apply tokenData_ascii. exact Hid.
Qed.

(** ** Token validation *)

Lemma xorDecrypt_throws (token : jsstring) (secret : option jsstring) (e : JsError) :
  xorDecrypt token secret = Throw e -> e = Error "Decryption failed: Invalid token".
Proof.
  unfold xorDecrypt. destruct (xorDecrypt_try token secret); intros H.
  - discriminate H.
  - injection H as <-. reflexivity.
Qed.

(** C2.  A token that carries the issuance time [T] (its text under the
    configured secret is [sheetId|T]) is rejected as expired at every time
    from [T + 86400001] on, and accepted, yielding [sheetId] and [T], at
    every time up to [T + 86400000]. *)
Theorem validateSheetToken_expiry (key token sheetId : jsstring) (T now : Z) :
  key <> [] ->
  ~ In bar sheetId ->
  is_time_value T -> is_time_value now ->
  xorDecrypt token (Some key) = Return (tokenData sheetId T) ->
  ((T + 86400001 <= now)%Z ->
   validateSheetToken key now token = Return (TokenInvalid (js "Token expired")))
  /\ ((now <= T + 86400000)%Z ->
      validateSheetToken key now token = Return (TokenValid sheetId (Some T))).
Proof.
  intros Hk Hbar _ _ Hd.
  assert (Hv : validateSheetToken_try key now token
               = if token_expired now (Some T)
                 then Throw (Error "Token expired")
                 else Return (TokenValid sheetId (Some T))).
  { unfold validateSheetToken_try.
    destruct key as [|k key']; [contradiction|]. cbn [nonempty negb].
    rewrite Hd. rewrite split_tokenData by assumption.
    cbn [List.length Nat.eqb negb nth].
    rewrite parseInt_Number_toString. reflexivity. }
  unfold validateSheetToken. rewrite Hv. unfold token_expired.
  split; intros Hn.
  - destruct (Z.gtb_spec (now - T) 86400000); [reflexivity|lia].
  - destruct (Z.gtb_spec (now - T) 86400000); [lia|reflexivity].
Qed.

Lemma validateSheetToken_expiry_witness :
  js "k3y" <> [] /\ ~ In bar (js "doc") /\
  is_time_value 1700000000000 /\ is_time_value 1700086400000 /\
  xorDecrypt (js "D1waFwJOWwNJWwNJWwNJWwM=") (Some (js "k3y"))
  = Return (tokenData (js "doc") 1700000000000) /\
  (((1700000000000 + 86400001 <= 1700086400000)%Z ->
    validateSheetToken (js "k3y") 1700086400000 (js "D1waFwJOWwNJWwNJWwNJWwM=")
    = Return (TokenInvalid (js "Token expired")))
   /\ ((1700086400000 <= 1700000000000 + 86400000)%Z ->
       validateSheetToken (js "k3y") 1700086400000 (js "D1waFwJOWwNJWwNJWwNJWwM=")
       = Return (TokenValid (js "doc") (Some 1700000000000%Z)))).
Proof.
  assert (H1 : js "k3y" <> []) by discriminate.
  assert (H2 : ~ In bar (js "doc")).
  { cbn. unfold bar. intros [H|[H|[H|[]]]]; discriminate H. }
  assert (H3 : is_time_value 1700000000000) by (unfold is_time_value; lia).
  assert (H4 : is_time_value 1700086400000) by (unfold is_time_value; lia).
  assert (H5 : xorDecrypt (js "D1waFwJOWwNJWwNJWwNJWwM=") (Some (js "k3y"))
               = Return (tokenData (js "doc") 1700000000000)) by reflexivity.
  repeat (split; [assumption|]).
  exact (validateSheetToken_expiry (js "k3y") (js "D1waFwJOWwNJWwNJWwNJWwM=") (js "doc")
           1700000000000 1700086400000 H1 H2 H3 H4 H5).
Defined.

(** The two sides of the boundary, on a token issued at 1700000000000. *)
Example validateSheetToken_at_boundary :
  validateSheetToken (js "k3y") (1700000000000 + 86400000)
                     (js "D1waFwJOWwNJWwNJWwNJWwM=")
  = Return (TokenValid (js "doc") (Some 1700000000000%Z))
  /\ validateSheetToken (js "k3y") (1700000000000 + 86400001)
                        (js "D1waFwJOWwNJWwNJWwNJWwM=")
     = Return (TokenInvalid (js "Token expired")).
Proof. split; vm_compute; reflexivity. Qed.

(** A token issued for the spreadsheet "doc" under a secret of one character
    outside the basic plane loses its last digit on the way back and is
    rejected as expired one millisecond after it was issued. *)
Example issued_token_lost_under_astral_secret :
  xorEncrypt (tokenData (js "doc") 1700000000000) (Some [0xD83D; 0xDE00])
  = Return (js "8KaZr/Cnqbzwk4i38JOYsPCTmLDwk5iw8JOYsPCTmLA/")
  /\ validateSheetToken [0xD83D; 0xDE00] 1700000000001
                        (js "8KaZr/Cnqbzwk4i38JOYsPCTmLDwk5iw8JOYsPCTmLA/")
     = Return (TokenInvalid (js "Token expired")).
Proof. split; vm_compute; reflexivity. Qed.

(** C10.  [validateSheetToken] returns for every token, secret and time, and
    never throws: [{isValid: false, error}] with the error of the step that
    failed (secret not set, text that cannot be decoded, a number of parts
    other than two, a token older than the window), and [{isValid: true,
    sheetId, timestamp}] otherwise. *)
Theorem validateSheetToken_total (key : jsstring) (now : Z) (token : jsstring) :
  validateSheetToken key now token
  = Return
      (if negb (nonempty key)
       then TokenInvalid (js "Secret key is not configured. Cannot validate token.")
       else
         match xorDecrypt token (Some key) with
         | Throw _ => TokenInvalid (js "Decryption failed: Invalid token")
         | Return decryptedData =>
           match split bar decryptedData with
           | [sheetId; timestamp] =>
             if token_expired now (parseInt timestamp)
             then TokenInvalid (js "Token expired")
             else TokenValid sheetId (parseInt timestamp)
           | _ => TokenInvalid (js "Invalid token format")
           end
         end).
Proof.
  unfold validateSheetToken, validateSheetToken_try.
  destruct (nonempty key); cbn [negb]; [|reflexivity].
  destruct (xorDecrypt token (Some key)) as [d|e] eqn:E.
  - destruct (split bar d) as [|a [|b [|c l]]]; cbn [List.length Nat.eqb negb nth];
      try reflexivity.
    destruct (token_expired now (parseInt b)); reflexivity.
  - apply xorDecrypt_throws in E. subst e. reflexivity.
Qed.

(** The failures named by C10, each on an input. *)
Example validateSheetToken_failures :
  validateSheetToken [] 0 (js "D1waFwJOWwNJWwNJWwNJWwM=")
  = Return (TokenInvalid (js "Secret key is not configured. Cannot validate token."))
  /\ validateSheetToken (js "k3y") 0 (js "not base64!")
     = Return (TokenInvalid (js "Decryption failed: Invalid token"))
  /\ validateSheetToken (js "k3y") 0 (js "AAAA")
     = Return (TokenInvalid (js "Invalid token format"))
  /\ validateSheetToken (js "k3y") 1800000000000 (js "D1waFwJOWwNJWwNJWwNJWwM=")
     = Return (TokenInvalid (js "Token expired")).
Proof. repeat split; reflexivity. Qed.

(** A token whose second part is not a number is accepted with a NaN
    timestamp: a comparison with NaN is false. *)
Example validateSheetToken_NaN_timestamp :
  xorDecrypt (js "Ck8B") (Some (js "k3y")) = Return (js "a|x")
  /\ validateSheetToken (js "k3y") 1800000000000 (js "Ck8B")
     = Return (TokenValid (js "a") None).
Proof. split; vm_compute; reflexivity. Qed.

(** ** Deletion tracker *)

Lemma jsstring_eqb_eq (a b : jsstring) : jsstring_eqb a b = true <-> a = b.
Proof.
  unfold jsstring_eqb. destruct (list_eq_dec N.eq_dec a b); split; intros H;
    congruence.
Qed.

Lemma indexOf_from_absent (l : list jsstring) (x : jsstring) (i : Z) :
  (0 <= i)%Z -> indexOf_from l x i = (-1)%Z <-> ~ In x l.
Proof.
  revert i. induction l as [|y rest IH]; intros i Hi; cbn [indexOf_from In].
  - split; [intros _ []|reflexivity].
  - destruct (jsstring_eqb y x) eqn:E.
    + apply jsstring_eqb_eq in E. split; [lia|]. intros H. exfalso. apply H.
      left. exact E.
    + assert (Hne : y <> x).
      { intros Heq. apply jsstring_eqb_eq in Heq. congruence. }
      rewrite (IH (i + 1)%Z) by lia. tauto.
Qed.

(** [indexOf] answers -1 exactly for the strings that are not in the list. *)
Lemma indexOf_absent (l : list jsstring) (x : jsstring) :
  indexOf l x = (-1)%Z <-> ~ In x l.
Proof. apply indexOf_from_absent. lia. Qed.

(** C3.  With a stored snapshot, [getDeletedProductIds] returns the stored
    ids that are not among the current ids of the grid, each as often and in
    the order in which the snapshot has them; with no snapshot it returns the
    empty list.  It leaves the world as it is. *)
Theorem getDeletedProductIds_spec (w : World) :
  let currentIds := current_product_ids (cells (activeSheet w)) in
  match STORED_PRODUCT_IDS w with
  | None => getDeletedProductIds w = (Return [], w)
  | Some storedIds =>
    exists deletedIds,
      getDeletedProductIds w = (Return deletedIds, w)
      /\ deletedIds
         = filter (fun id =>
                     if in_dec (list_eq_dec N.eq_dec) id currentIds
                     then false else true) storedIds
      /\ forall id, In id deletedIds <-> In id storedIds /\ ~ In id currentIds
  end.
Proof.
  intros currentIds. unfold getDeletedProductIds, bind, gets, ret.
  destruct (STORED_PRODUCT_IDS w) as [storedIds|]; [|reflexivity].
  exists (deleted_ids storedIds currentIds).
  split; [reflexivity|].
  assert (Hf : forall id,
             Z.eqb (indexOf currentIds id) (-1)
             = if in_dec (list_eq_dec N.eq_dec) id currentIds then false else true).
  { intros id. destruct (in_dec (list_eq_dec N.eq_dec) id currentIds) as [Hin|Hin].
    - apply Z.eqb_neq. intros H. apply indexOf_absent in H. contradiction.
    - apply Z.eqb_eq. apply indexOf_absent. exact Hin. }
  split.
  - unfold deleted_ids. apply filter_ext. exact Hf.
  - intros id. unfold deleted_ids. rewrite filter_In, Z.eqb_eq, indexOf_absent.
    reflexivity.
Qed.

(** ** Running computations *)

Lemma bind_run {A B} (m : M A) (k : A -> M B) (w : World) :
  bind m k w
  = match m w with
    | (Return a, w') => k a w'
    | (Throw e, w') => (Throw e, w')
    end.
Proof. reflexivity. Qed.

Lemma getConfig_run (w : World) :
  getConfig w = (Return (config_of w), after_getConfig w).
Proof.
  unfold getConfig, after_getConfig, config_of, bind, gets, modify, ret.
  destruct (is_set (WP_SECRET_KEY w)); reflexivity.
Qed.

Lemma after_getConfig_sheet (w : World) :
  activeSheet (after_getConfig w) = activeSheet w
  /\ sentRequests (after_getConfig w) = sentRequests w
  /\ STORED_PRODUCT_IDS (after_getConfig w) = STORED_PRODUCT_IDS w
  /\ logger (after_getConfig w) = logger w.
Proof.
  unfold after_getConfig. destruct (is_set (WP_SECRET_KEY w)); repeat split.
Qed.

(** C9.  When the base URL or the secret is missing, [fetchProducts] returns
    [{success: false, message}] with the configuration message, and the sheet
    (cells and formatting) is what it was; no request is sent and the stored
    snapshot is not touched. *)
Theorem fetchProducts_unconfigured (w : World) :
  is_set (WP_BASE_URL w) && is_set (WP_SECRET_KEY w) = false ->
  exists w',
    fetchProducts w
    = (Return (FetchFailure
         (js "Error: Please configure the WordPress API URL and secret key first in Settings.")),
       w')
    /\ activeSheet w' = activeSheet w
    /\ sentRequests w' = sentRequests w
    /\ STORED_PRODUCT_IDS w' = STORED_PRODUCT_IDS w.
Proof.
  intros H.
  assert (Ht : fetchProducts_try w = (Throw not_configured, after_getConfig w)).
  { unfold fetchProducts_try. rewrite bind_run, getConfig_run.
    unfold config_of. cbn [isConfigured]. rewrite H. reflexivity. }
  unfold fetchProducts, try_catch. rewrite Ht.
  eexists. split; [reflexivity|].
  destruct (after_getConfig_sheet w) as [H1 [H2 [H3 _]]].
  cbn. repeat split; assumption.
Qed.

(** ** Writing rows *)

Lemma overwrite_firstn (new old : Row) :
  firstn (List.length new) (overwrite new old) = map cell_of new.
Proof.
  unfold overwrite.
  rewrite <- (length_map cell_of new) at 1.
  rewrite firstn_app, firstn_all, Nat.sub_diag.
  cbn [firstn]. apply app_nil_r.
Qed.

Lemma overwrite_rows_nth (rows : list Row) :
  forall (g : Grid) (k : nat),
    (k < List.length rows)%nat ->
    nth k (overwrite_rows rows g) [] = overwrite (nth k rows []) (nth k g []).
Proof.
  induction rows as [|new rows' IH]; intros g k Hk; [cbn in Hk; lia|].
  destruct g as [|old g']; destruct k as [|k']; cbn [overwrite_rows nth];
    try reflexivity.
  - rewrite IH by (cbn in Hk; lia). destruct k'; reflexivity.
  - apply IH. cbn in Hk. lia.
Qed.

(** After [rows] are written from row [r] on, row [r + k] starts with the
    values of [rows[k]]. *)
Lemma write_rows_nth (r : nat) :
  forall (rows : list Row) (g : Grid) (k : nat),
    (k < List.length rows)%nat ->
    nth (r + k) (write_rows r rows g) []
    = overwrite (nth k rows []) (nth (r + k) g []).
Proof.
  induction r as [|r' IH]; intros rows g k Hk.
  - cbn [write_rows Nat.add]. apply overwrite_rows_nth. exact Hk.
  - destruct g as [|old g']; cbn [write_rows Nat.add nth].
    + rewrite IH by exact Hk. destruct (r' + k)%nat; reflexivity.
    + apply IH. exact Hk.
Qed.

Lemma rowData_length (product : JValue) (row : Row) :
  rowData product = Return row -> List.length row = numHeaders.
Proof.
  unfold rowData. destruct (getProp product "id"); intros H; [|discriminate H].
  injection H as <-. reflexivity.
Qed.

(** The rows built from a list of products: one per product, in order, each
    as wide as the header. *)
Lemma rows_of_products_spec (products : list JValue) :
  forall rows,
    rows_of_products products = Return rows ->
    List.length rows = List.length products
    /\ Forall (fun row => List.length row = numHeaders) rows
    /\ forall k, (k < List.length products)%nat ->
         rowData (nth k products JUndefined) = Return (nth k rows []).
Proof.
  induction products as [|p ps IH]; intros rows H; cbn [rows_of_products] in H.
  - injection H as <-. split; [reflexivity|]. split; [constructor|].
    intros k Hk. cbn in Hk. lia.
  - destruct (rowData p) as [row|e] eqn:Er; [|discriminate H].
    destruct (rows_of_products ps) as [rows'|e]; [|discriminate H].
    injection H as <-.
    destruct (IH rows' eq_refl) as [H1 [H2 H3]].
    split; [cbn [List.length]; rewrite H1; reflexivity|].
    split; [constructor; [exact (rowData_length p row Er)|assumption]|].
    intros [|k] Hk; cbn [nth]; [exact Er|].
    apply H3. cbn in Hk. lia.
Qed.

(** ** Rows left empty *)

Lemma row_extent_blank (row : Row) :
  forall c, (row_extent row <= c)%nat -> is_blank (nth c row blank) = true.
Proof.
  induction row as [|v rest IH]; intros c Hc.
  - destruct c; reflexivity.
  - cbn [row_extent] in Hc. destruct c as [|c']; cbn [nth].
    + destruct (row_extent rest); [|lia].
      destruct (is_blank v); [reflexivity|lia].
    + apply IH. destruct (row_extent rest); lia.
Qed.

Lemma is_blank_cell_of (v : JValue) : is_blank (cell_of v) = is_blank v.
Proof. unfold cell_of. destruct (is_blank v) eqn:E; [reflexivity|exact E]. Qed.

(** Under the last row with content every cell is empty. *)
Lemma getLastRow_blank (g : Grid) :
  forall r c, (getLastRow g <= r)%nat -> is_blank (cell g r c) = true.
Proof.
  unfold cell. intros r c. rewrite is_blank_cell_of. revert r c.
  induction g as [|row rest IH]; intros r c Hr.
  - destruct r; destruct c; reflexivity.
  - cbn [getLastRow] in Hr. destruct r as [|r']; cbn [nth].
    + apply row_extent_blank.
      destruct (getLastRow rest); [|lia]. destruct (row_extent row); lia.
    + apply IH. destruct (getLastRow rest); lia.
Qed.

Lemma clear_row_blank (numColumns : nat) (row : Row) (c : nat) :
  (c < numColumns)%nat -> is_blank (nth c (clear_row numColumns row) blank) = true.
Proof.
  intros Hc. unfold clear_row.
  destruct (Nat.lt_ge_cases c (Nat.min numColumns (List.length row))) as [H|H].
  - rewrite app_nth1 by (rewrite repeat_length; exact H).
    rewrite nth_repeat_lt by exact H. reflexivity.
  - rewrite app_nth2 by (rewrite repeat_length; exact H).
    rewrite nth_overflow; [reflexivity|].
    rewrite length_skipn. lia.
Qed.

Lemma clear_rows_nth (numColumns : nat) (g : Grid) :
  forall skip numRows r,
    nth r (clear_rows skip numRows numColumns g) []
    = if Nat.leb skip r && Nat.ltb r (skip + numRows) && Nat.ltb r (List.length g)
      then clear_row numColumns (nth r g [])
      else nth r g [].
Proof.
  induction g as [|row g' IH]; intros skip numRows r.
  - cbn [clear_rows List.length]. rewrite andb_false_r. reflexivity.
  - cbn [clear_rows List.length]. destruct skip as [|skip'].
    + destruct numRows as [|numRows'].
      * rewrite Nat.add_0_r. 
        destruct (Nat.ltb_spec r 0); [lia|]. rewrite andb_false_r. reflexivity.
      * destruct r as [|r']; cbn [nth]; [reflexivity|].
        rewrite IH. cbn [Nat.leb Nat.add andb].
        change (S r' <? S numRows')%nat with (r' <? numRows')%nat.
        change (S r' <? S (List.length g'))%nat with (r' <? List.length g')%nat.
        reflexivity.
    + destruct r as [|r']; cbn [nth]; [reflexivity|].
      rewrite IH. cbn [Nat.leb Nat.add].
      change (S r' <? S (skip' + numRows))%nat with (r' <? skip' + numRows)%nat.
      change (S r' <? S (List.length g'))%nat with (r' <? List.length g')%nat.
      reflexivity.
Qed.

(** After the clearing step, the first columns of every row under the
    header are empty. *)
Lemma cleared_cells_blank (g : Grid) (r c : nat) :
  (1 <= r)%nat -> (c < numHeaders)%nat -> is_blank (cell (cleared_cells g) r c) = true.
Proof.
  intros Hr Hc. unfold cleared_cells.
  destruct (Nat.ltb_spec 1 (getLastRow g)) as [Hl|Hl].
  - unfold clearContent, cell. rewrite is_blank_cell_of, clear_rows_nth.
    destruct (_ && _ && _) eqn:E.
    + apply clear_row_blank. exact Hc.
    + rewrite <- is_blank_cell_of. change (is_blank (cell g r c) = true).
      destruct (Nat.lt_ge_cases r (getLastRow g)) as [H|H].
      * destruct (Nat.lt_ge_cases r (List.length g)) as [H'|H'].
        -- exfalso. rewrite !andb_false_iff in E.
           rewrite Nat.leb_gt, !Nat.ltb_ge in E. cbn in E. lia.
        -- unfold cell. rewrite (nth_overflow g) by exact H'.
           destruct c; reflexivity.
      * apply getLastRow_blank. exact H.
  - apply getLastRow_blank. lia.
Qed.

Lemma overwrite_rows_beyond (rows : list Row) :
  forall (g : Grid) (r : nat),
    (List.length rows <= r)%nat -> nth r (overwrite_rows rows g) [] = nth r g [].
Proof.
  induction rows as [|new rows' IH]; intros g r Hr; [reflexivity|].
  cbn [List.length] in Hr. destruct r as [|r']; [lia|].
  destruct g as [|old g']; cbn [overwrite_rows nth].
  - rewrite IH by lia. destruct r'; reflexivity.
  - apply IH. lia.
Qed.

Lemma write_rows_beyond (r0 : nat) :
  forall (rows : list Row) (g : Grid) (r : nat),
    (r0 + List.length rows <= r)%nat ->
    nth r (write_rows r0 rows g) [] = nth r g [].
Proof.
  induction r0 as [|r0' IH]; intros rows g r Hr.
  - cbn [write_rows]. apply overwrite_rows_beyond. exact Hr.
  - destruct r as [|r']; [lia|].
    destruct g as [|old g']; cbn [write_rows nth].
    + rewrite IH by lia. destruct r'; reflexivity.
    + apply IH. lia.
Qed.

(** ** Fetching *)

Lemma frame_refl w : frame w w. Proof. split; vm_compute; reflexivity. Qed.
Lemma frame_trans w1 w2 w3 : frame w1 w2 -> frame w2 w3 -> frame w1 w3.
Proof. unfold frame. intros [-> ->] [-> ->]. split; reflexivity. Qed.

Lemma after_getConfig_frame w : frame w (after_getConfig w).
Proof. unfold frame, after_getConfig. destruct (is_set _); split; reflexivity. Qed.

Lemma validateSecretKey_frame w c w' : validateSecretKey w = (c, w') -> frame w w'.
Proof.
  unfold validateSecretKey. rewrite bind_run, getConfig_run.
  destruct (negb _); intros H; injection H as _ <-; apply after_getConfig_frame.
Qed.

Lemma setupSheetHeaders_frame w c w' : setupSheetHeaders w = (c, w') -> frame w w'.
Proof.
  unfold setupSheetHeaders, bind, gets, setValues, format, modify_cells, modify, ret, throw.
  repeat match goal with |- context [if ?b then _ else _] => destruct b end;
  intros H; injection H as _ <-; split; reflexivity.
Qed.

Lemma generateSheetToken_frame w c w' : generateSheetToken w = (c, w') -> frame w w'.
Proof.
  unfold generateSheetToken, bind, gets, Date_getTime, lift, throw.
  repeat match goal with |- context [if ?b then _ else _] => destruct b end;
  intros H; injection H as _ <-; split; reflexivity.
Qed.

Lemma storeCurrentProductIds_run w :
  storeCurrentProductIds w
  = (Return (current_product_ids (cells (activeSheet w))),
     set_STORED_PRODUCT_IDS (Some (current_product_ids (cells (activeSheet w)))) w).
Proof. reflexivity. Qed.

Lemma updateSheetWithProducts_cells products w w' :
  updateSheetWithProducts products w = (Return tt, w') ->
  exists rows,
    rows_of_products products = Return rows
    /\ cells (activeSheet w')
       = match rows with
         | [] => cleared_cells (cells (activeSheet w))
         | _ => write_rows 1 rows (cleared_cells (cells (activeSheet w)))
         end.
Proof.
  unfold updateSheetWithProducts, cleared_cells.
  intros H. inv_bind H as lastRow w0 E0. unfold gets in E0. injection E0 as <- <-.
  inv_bind H as u1 w1 E1.
  inv_bind H as rows w2 E2. unfold lift in E2. injection E2 as E2 <-.
  exists rows. split; [assumption|].
  assert (Hc : cells (activeSheet w1)
               = if (1 <? getLastRow (cells (activeSheet w)))%nat
                 then clearContent (cells (activeSheet w)) 2
                        (getLastRow (cells (activeSheet w)) - 1) numHeaders
                 else cells (activeSheet w)).
  { destruct (1 <? getLastRow (cells (activeSheet w)))%nat.
    - unfold modify_cells, modify in E1. injection E1 as _ <-. reflexivity.
    - unfold ret in E1. injection E1 as _ <-. reflexivity. }
  rewrite <- Hc. clear Hc E1.
  destruct rows as [|row rows].
  - cbn in H. unfold ret in H. injection H as <-. reflexivity.
  - cbn [List.length Nat.ltb Nat.leb] in H.
    inv_bind H as u3 w3 E3. unfold format, modify in H. injection H as <-.
    unfold setValues in E3.
    destruct (_ && _) in E3.
    + unfold modify_cells, modify in E3. injection E3 as _ <-. reflexivity.
    + discriminate E3.
Qed.

Lemma updateSheetWithProducts_frame products w c w' :
  updateSheetWithProducts products w = (c, w') -> frame w w'.
Proof.
  unfold updateSheetWithProducts, bind, gets, setValues, format, modify_cells,
    modify, ret, throw, lift.
  repeat match goal with
         | |- context [if ?b then _ else _] => destruct b
         | |- context [match ?x with Return _ => _ | Throw _ => _ end] => destruct x
         end;
  intros H; injection H as _ <-; split; reflexivity.
Qed.

(** What a successful run of the [try] block of [fetchProducts] went
    through. *)
Lemma fetchProducts_try_success (w w' : World) (message : jsstring)
      (count : nat) (url : jsstring) :
  fetchProducts_try w = (Return (FetchSuccess message count url), w') ->
  exists request response result products w1 w2,
    sentRequests w' = sentRequests w ++ [request]
    /\ req_method request = GET /\ req_url request = url
    /\ remote w (sentRequests w) request = Return response
    /\ getResponseCode response = 200%Z
    /\ parsedContent response = Some result
    /\ getProp result "data" = Return (JArr products)
    /\ count = List.length products
    /\ updateSheetWithProducts (rev products) w1 = (Return tt, w2)
    /\ activeSheet w' = activeSheet w2.
Proof.
  unfold fetchProducts_try. intros H.
  rewrite bind_run, getConfig_run in H.
  inv_if H; [discriminate H|].
  inv_bind H as b1 w1 E1. apply validateSecretKey_frame in E1.
  inv_bind H as b2 w2 E2. apply validateSecretKey_frame in E2.
  inv_bind H as u3 w3 E3. apply setupSheetHeaders_frame in E3.
  inv_bind H as token w4 E4. apply generateSheetToken_frame in E4.
  inv_bind H as response w5 E5.
  assert (Hf : frame w w4).
  { eapply frame_trans; [apply after_getConfig_frame|].
    eapply frame_trans; [exact E1|]. eapply frame_trans; [exact E2|].
    eapply frame_trans; [exact E3|exact E4]. }
  clear E1 E2 E3 E4. destruct Hf as [Hr Hs].
  unfold UrlFetchApp_fetch in E5. injection E5 as E5 <-.
  rewrite Hr, Hs in E5.
  destruct (negb (getResponseCode response =? 200)%Z) eqn:Ecode; [discriminate H|].
  apply negb_false_iff, Z.eqb_eq in Ecode.
  inv_bind H as result w6 E6. unfold lift in E6. injection E6 as E6 <-.
  inv_bind H as data w7 E7. unfold lift in E7. injection E7 as E7 <-.
  destruct (negb (toBoolean data) || negb (isArray data)) eqn:Earr;
    [discriminate H|].
  apply orb_false_iff in Earr. destruct Earr as [_ Earr].
  apply negb_false_iff in Earr.
  destruct data as [| | | | | |products|]; try discriminate Earr.
  cbn [array_items] in H.
  inv_bind H as u8 w8 E8. inv_bind H as ids w9 E9.
  pose proof (updateSheetWithProducts_frame _ _ _ _ E8) as [_ Hs8].
  rewrite storeCurrentProductIds_run in E9. injection E9 as _ <-.
  unfold ret in H. injection H as <- <- <- <-.
  destruct u8.
  unfold JSON_parse_content in E6.
  destruct (parsedContent response) as [v|] eqn:Ep; [|discriminate E6].
  injection E6 as ->.
  eexists _, response, result, products, _, w8.
  split; [cbn; rewrite Hs8; cbn; rewrite Hs; reflexivity|].
  split; [reflexivity|]. split; [reflexivity|].
  split; [exact E5|]. split; [exact Ecode|]. split; [exact Ep|].
  split; [exact E7|]. split; [apply length_rev|].
  split; [exact E8|]. reflexivity.
Qed.

(** C5.  A successful fetch has sent one GET request and received a response
    with status 200 whose parsed text has an array [data]; the grid then
    holds, in data row [k + 1] (sheet row [k + 2]), the row of product
    [n - k] of the [n] products of that array: the last product in the first
    data row, the first product in the last one.  Under these [n] rows the
    columns of the header are empty. *)
Theorem fetchProducts_reverse_order (w w' : World) (message : jsstring)
        (count : nat) (url : jsstring) :
  fetchProducts w = (Return (FetchSuccess message count url), w') ->
  exists request response result products,
    sentRequests w' = sentRequests w ++ [request]
    /\ req_method request = GET /\ req_url request = url
    /\ remote w (sentRequests w) request = Return response
    /\ getResponseCode response = 200%Z
    /\ parsedContent response = Some result
    /\ getProp result "data" = Return (JArr products)
    /\ count = List.length products
    /\ (forall k, (k < List.length products)%nat ->
          exists row,
            rowData (nth (List.length products - 1 - k) products JUndefined)
            = Return row
            /\ firstn numHeaders (nth (1 + k) (cells (activeSheet w')) [])
               = map cell_of row)
    /\ (forall r c, (List.length products < r)%nat -> (c < numHeaders)%nat ->
          is_blank (cell (cells (activeSheet w')) r c) = true).
Proof.
  intros H. unfold fetchProducts, try_catch in H.
  destruct (fetchProducts_try w) as [[r|e] w0] eqn:Et.
  2:{ rewrite bind_run in H. unfold Logger_log, modify, ret in H. discriminate H. }
  injection H as -> ->.
  destruct (fetchProducts_try_success _ _ _ _ _ Et)
    as [request [response [result [products [w1 [w2 H]]]]]].
  destruct H as [H1 [Hm [Hu [H2 [H3 [H4 [H5 [H6 [H7 H8]]]]]]]]].
  exists request, response, result, products.
  repeat (split; [assumption|]).
  destruct (updateSheetWithProducts_cells _ _ _ H7) as [rows [Hrows Hcells]].
  destruct (rows_of_products_spec _ _ Hrows) as [Hlen [Hwidth Hnth]].
  rewrite length_rev in Hlen, Hnth.
  split.
  - intros k Hk. exists (nth k rows []). split.
    + rewrite <- (Hnth k Hk). f_equal.
      rewrite rev_nth by exact Hk. f_equal. lia.
    + rewrite H8, Hcells.
      destruct rows as [|row0 rows']; [cbn in Hlen; lia|].
      remember (row0 :: rows') as rows eqn:Erows.
      rewrite write_rows_nth by lia.
      assert (Hw : List.length (nth k rows []) = numHeaders).
      { rewrite Forall_forall in Hwidth. apply Hwidth. apply nth_In. lia. }
      rewrite <- Hw. apply overwrite_firstn.
  - intros r c Hr Hc. rewrite H8, Hcells.
    destruct rows as [|row0 rows']; [apply cleared_cells_blank; [lia|exact Hc]|].
    remember (row0 :: rows') as rows eqn:Erows.
    assert (Hsame : nth r (write_rows 1 rows (cleared_cells (cells (activeSheet w1)))) []
                    = nth r (cleared_cells (cells (activeSheet w1))) [])
      by (apply write_rows_beyond; lia).
    unfold cell at 1. rewrite Hsame.
    apply (cleared_cells_blank (cells (activeSheet w1)) r c); [lia|exact Hc].
Qed.

Lemma fetchProducts_reverse_order_witness :
  fetchProducts fresh_world
  = (Return (FetchSuccess (js "Successfully fetched 3 products") 3
               (js "https://shop.test/wp-json/sheets-api/v1/get_products")),
     snd (fetchProducts fresh_world))
  /\ firstn numHeaders (nth 1 (cells (activeSheet (snd (fetchProducts fresh_world)))) [])
     = product_row 3 "Pot"
  /\ firstn numHeaders (nth 3 (cells (activeSheet (snd (fetchProducts fresh_world)))) [])
     = product_row 1 "Mug"
  /\ exists request response result products,
       sentRequests (snd (fetchProducts fresh_world))
       = sentRequests fresh_world ++ [request]
       /\ req_method request = GET
       /\ req_url request = js "https://shop.test/wp-json/sheets-api/v1/get_products"
       /\ remote fresh_world (sentRequests fresh_world) request = Return response
       /\ getResponseCode response = 200%Z
       /\ parsedContent response = Some result
       /\ getProp result "data" = Return (JArr products)
       /\ 3%nat = List.length products
       /\ (forall k, (k < List.length products)%nat ->
             exists row,
               rowData (nth (List.length products - 1 - k) products JUndefined)
               = Return row
               /\ firstn numHeaders
                    (nth (1 + k) (cells (activeSheet (snd (fetchProducts fresh_world)))) [])
                  = map cell_of row)
       /\ (forall r c, (List.length products < r)%nat -> (c < numHeaders)%nat ->
             is_blank (cell (cells (activeSheet (snd (fetchProducts fresh_world)))) r c)
             = true).
Proof.
  assert (H : fetchProducts fresh_world
              = (Return (FetchSuccess (js "Successfully fetched 3 products") 3
                           (js "https://shop.test/wp-json/sheets-api/v1/get_products")),
                 snd (fetchProducts fresh_world))) by (vm_compute; reflexivity).
  split; [exact H|]. split; [vm_compute; reflexivity|].
  split; [vm_compute; reflexivity|].
  exact (fetchProducts_reverse_order fresh_world _ _ _ _ H).
Defined.

Lemma fetchProducts_unconfigured_witness :
  is_set (WP_BASE_URL unconfigured_world) && is_set (WP_SECRET_KEY unconfigured_world)
  = false
  /\ exists w',
       fetchProducts unconfigured_world
       = (Return (FetchFailure
            (js "Error: Please configure the WordPress API URL and secret key first in Settings.")),
          w')
       /\ activeSheet w' = activeSheet unconfigured_world
       /\ sentRequests w' = sentRequests unconfigured_world
       /\ STORED_PRODUCT_IDS w' = STORED_PRODUCT_IDS unconfigured_world.
Proof.
  assert (H : is_set (WP_BASE_URL unconfigured_world)
              && is_set (WP_SECRET_KEY unconfigured_world) = false) by reflexivity.
  split; [exact H|]. exact (fetchProducts_unconfigured unconfigured_world H).
Defined.

(** The example of the specification: snapshot 1, 2, 3 and grid ids 1 and 3
    give 2; without a snapshot nothing is reported. *)
Example getDeletedProductIds_example :
  fst (getDeletedProductIds edited_world) = Return [js "2"]
  /\ fst (getDeletedProductIds (set_STORED_PRODUCT_IDS None edited_world))
     = Return [].
Proof. split; vm_compute; reflexivity. Qed.

(** ** Pushing *)

Lemma fetchProducts_returns (w : World) :
  exists r w', fetchProducts w = (Return r, w').
Proof.
  unfold fetchProducts, try_catch.
  destruct (fetchProducts_try w) as [[r|e] w0]; eexists; eexists; reflexivity.
Qed.

Lemma count_of_array (items : list JValue) :
  count_of (JArr items) = Return (JNum (Z.of_nat (List.length items))).
Proof. reflexivity. Qed.

Lemma count_of_absent : count_of JUndefined = Return (JNum 0).
Proof. reflexivity. Qed.

(** What a successful push went through: a response with status 200 whose
    parsed text has a [data] that can be read, and counts taken from
    [data.updated] and [data.deleted]. *)
Lemma updateProductsToWordPress_success
      (productRows : list ProductRow) (deletedIds : list jsstring)
      (w w' : World) (message updatedCount deletedCount : JValue) :
  updateProductsToWordPress productRows deletedIds w
  = (Return (PushSuccess message updatedCount deletedCount), w') ->
  exists response result message0 data updated deleted,
    getResponseCode response = 200%Z
    /\ parsedContent response = Some result
    /\ getProp result "message" = Return message0
    /\ message = js_or message0 (JStr (js "Products updated successfully"))
    /\ getProp result "data" = Return data
    /\ getProp data "updated" = Return updated
    /\ getProp data "deleted" = Return deleted
    /\ count_of updated = Return updatedCount
    /\ count_of deleted = Return deletedCount.
Proof.
  intros H. unfold updateProductsToWordPress, try_catch in H.
  destruct (updateProductsToWordPress_try productRows deletedIds w)
    as [[r|e] w0] eqn:Et.
  2:{ rewrite bind_run in H. unfold Logger_log, modify, ret in H. discriminate H. }
  injection H as -> ->.
  unfold updateProductsToWordPress_try in Et.
  rewrite bind_run, getConfig_run in Et.
  destruct (negb (isConfigured (config_of w))); [discriminate Et|].
  inv_bind Et as b1 w1 E1. inv_bind Et as token w2 E2.
  inv_bind Et as response w3 E3. inv_bind Et as u4 w4 E4.
  destruct (negb (getResponseCode response =? 200)%Z) eqn:Ecode.
  { rewrite bind_run in E4.
    destruct (lift (JSON_parse_content response) w3) as [[v|?] ?];
      [|discriminate E4].
    rewrite bind_run in E4.
    destruct (lift (getProp v "message") w0) as [[?|?] ?]; discriminate E4. }
  apply negb_false_iff, Z.eqb_eq in Ecode.
  inv_bind Et as result w5 E5. unfold lift in E5. injection E5 as E5 <-.
  inv_bind Et as message0 w6 E6. unfold lift in E6. injection E6 as E6 <-.
  inv_bind Et as data w7 E7. unfold lift in E7. injection E7 as E7 <-.
  inv_bind Et as updated w8 E8. unfold lift in E8. injection E8 as E8 <-.
  inv_bind Et as uc w9 E9. unfold lift in E9. injection E9 as E9 <-.
  inv_bind Et as deleted w10 E10. unfold lift in E10. injection E10 as E10 <-.
  inv_bind Et as dc w11 E11. unfold lift in E11. injection E11 as E11 <-.
  unfold ret in Et. injection Et as <- <- <- <-.
  unfold JSON_parse_content in E5.
  destruct (parsedContent response) as [v|] eqn:Ep; [|discriminate E5].
  injection E5 as ->.
  exists response, result, message0, data, updated, deleted.
  repeat split; assumption.
Qed.

(** C8 at the failing input.  The remote end answers the push with status
    200 and a text without a [data] field; the push has then cleared the
    snapshot and fetched the catalog again, and yet returns [{success:
    false, message}] with a TypeError, not a result with both counts at
    zero. *)
Theorem updateProductsToWordPress_without_data :
  getResponseCode push_response_without_data = 200%Z
  /\ parsedContent push_response_without_data
     = Some (JObj [(js "message", JStr (js "Products updated"))])
  /\ fst (updateProductsToWordPress
            (getAllProductRows (cells (activeSheet edited_world))) [js "2"]
            edited_world)
     = Return (PushFailure
         (js "TypeError: Cannot read properties of undefined (reading 'updated')"))
  /\ map req_method
         (sentRequests
            (snd (updateProductsToWordPress
                    (getAllProductRows (cells (activeSheet edited_world)))
                    [js "2"] edited_world)))
     = [POST; GET].
Proof. repeat split; vm_compute; reflexivity. Qed.

(** ** Error propagation *)

(** C4, as amended.  [fetchProducts] and [updateProductsToWordPress] always
    return: what their [try] block returns, or, when it throws, [{success:
    false, message}] with the text of the error, after logging it.
    [updateSelectedProducts] and [updateAllProducts] return as well when
    there are rows to push; with no row they throw their validation error
    to the caller. *)
Theorem fetch_and_push_catch_errors (w : World) (productRows : list ProductRow)
        (deletedIds : list jsstring) :
  (exists r w',
     fetchProducts w = (Return r, w')
     /\ match fetchProducts_try w with
        | (Return v, _) => r = v
        | (Throw e, _) => r = FetchFailure (error_toString e)
        end)
  /\ (exists r w',
        updateProductsToWordPress productRows deletedIds w = (Return r, w')
        /\ match updateProductsToWordPress_try productRows deletedIds w with
           | (Return v, _) => r = v
           | (Throw e, _) => r = PushFailure (error_toString e)
           end)
  /\ match getSelectedProductRows (activeRange w) (cells (activeSheet w)) with
     | [] =>
       updateSelectedProducts w
       = (Throw (Error "Please select at least one product row to update."), w)
     | _ :: _ => exists r w', updateSelectedProducts w = (Return r, w')
     end
  /\ match getAllProductRows (cells (activeSheet w)) with
     | [] =>
       updateAllProducts w
       = (Throw (Error "No products found in the sheet. Please fetch products first."), w)
     | _ :: _ => exists r w', updateAllProducts w = (Return r, w')
     end.
Proof.
  assert (Hpush : forall rows ids w0,
             exists r w',
               updateProductsToWordPress rows ids w0 = (Return r, w')
               /\ match updateProductsToWordPress_try rows ids w0 with
                  | (Return v, _) => r = v
                  | (Throw e, _) => r = PushFailure (error_toString e)
                  end).
  { intros rows ids w0. unfold updateProductsToWordPress, try_catch.
    destruct (updateProductsToWordPress_try rows ids w0) as [[r|e] w1];
      eexists; eexists; split; reflexivity. }
  assert (Hdel : forall w0, exists ids, getDeletedProductIds w0 = (Return ids, w0)).
  { intros w0. unfold getDeletedProductIds, bind, gets, ret.
    destruct (STORED_PRODUCT_IDS w0); eexists; reflexivity. }
  split; [|split; [|split]].
  - unfold fetchProducts, try_catch.
    destruct (fetchProducts_try w) as [[r|e] w0];
      eexists; eexists; split; reflexivity.
  - apply Hpush.
  - unfold updateSelectedProducts. rewrite bind_run. unfold gets.
    destruct (getSelectedProductRows (activeRange w) (cells (activeSheet w)))
      as [|row rows]; [reflexivity|].
    cbn [List.length Nat.eqb]. rewrite bind_run.
    destruct (Hdel w) as [ids ->].
    destruct (Hpush (row :: rows) ids w) as [r [w' [H _]]].
    exists r, w'. exact H.
  - unfold updateAllProducts. rewrite bind_run. unfold gets.
    destruct (getAllProductRows (cells (activeSheet w))) as [|row rows];
      [reflexivity|].
    cbn [List.length Nat.eqb]. rewrite bind_run.
    destruct (Hdel w) as [ids ->].
    destruct (Hpush (row :: rows) ids w) as [r [w' [H _]]].
    exists r, w'. exact H.
Qed.

(** C4, as stated, fails: with only the header row selected,
    [updateSelectedProducts] throws to its caller. *)
Lemma updateSelectedProducts_throws :
  getSelectedProductRows (activeRange fresh_world) (cells (activeSheet fresh_world))
  = []
  /\ updateSelectedProducts fresh_world
     = (Throw (Error "Please select at least one product row to update."),
        fresh_world).
Proof. split; vm_compute; reflexivity. Qed.

(** Failures inside the two operations, each returned as a result: a remote
    end that cannot be reached, and a catalog whose [data] is not an
    array. *)
Example fetchProducts_failures :
  fst (fetchProducts
         (world_with (Some (js "https://shop.test")) (Some (js "k3y")) None []
                     (1%nat, 1%nat) unreachable))
  = Return (FetchFailure (js "Exception: Address unavailable"))
  /\ fst (fetchProducts
            (world_with (Some (js "https://shop.test")) (Some (js "k3y")) None []
                        (1%nat, 1%nat)
                        (fun _ _ => Return push_response_without_data)))
     = Return (FetchFailure (js "Error: Invalid response format from API")).
Proof. split; vm_compute; reflexivity. Qed.

(** * Further properties *)

(** ** Settings *)

(** X1.  After [saveConfig] with a URL and a secret that are not empty,
    [getConfig] returns both and reports the add-on as configured, and the
    secret used for tokens is the saved one. *)
Theorem saveConfig_getConfig (w : World) (url key : jsstring) :
  url <> [] -> key <> [] ->
  exists w1,
    saveConfig url (Some key) w = (Return true, w1)
    /\ getConfig w1 = (Return (mkConfig url key true), w1)
    /\ ENCRYPTION_CONFIG_secretKey w1 = key.
Proof.
  intros Hu Hk. destruct url as [|u0 url']; [contradiction|].
  destruct key as [|k0 key']; [contradiction|].
  eexists. split; [reflexivity|]. split; reflexivity.
Qed.

Lemma saveConfig_getConfig_witness :
  js "https://shop.test" <> [] /\ js "k3y" <> [] /\
  exists w1,
    saveConfig (js "https://shop.test") (Some (js "k3y")) unconfigured_world
    = (Return true, w1)
    /\ getConfig w1 = (Return (mkConfig (js "https://shop.test") (js "k3y") true), w1)
    /\ ENCRYPTION_CONFIG_secretKey w1 = js "k3y".
Proof.
  assert (H1 : js "https://shop.test" <> []) by discriminate.
  assert (H2 : js "k3y" <> []) by discriminate.
  split; [exact H1|]. split; [exact H2|].
  exact (saveConfig_getConfig unconfigured_world _ _ H1 H2).
Defined.

(** X2.  [saveConfig] with a secret that is empty or not passed saves the
    URL and leaves the saved secret and the secret used for tokens as they
    were: the secret cannot be cleared this way. *)
Theorem saveConfig_keeps_secret (w : World) (url : jsstring)
        (secret : option jsstring) :
  is_set secret = false ->
  exists w1,
    saveConfig url secret w = (Return true, w1)
    /\ WP_BASE_URL w1 = Some url
    /\ WP_SECRET_KEY w1 = WP_SECRET_KEY w
    /\ ENCRYPTION_CONFIG_secretKey w1 = ENCRYPTION_CONFIG_secretKey w
    /\ fst (getConfig w1)
       = Return (mkConfig (or_empty (Some url)) (or_empty (WP_SECRET_KEY w))
                          (nonempty url && is_set (WP_SECRET_KEY w))).
Proof.
  intros H. unfold saveConfig. rewrite !bind_run. unfold modify at 1.
  rewrite H. unfold ret. eexists. split; [reflexivity|].
  rewrite getConfig_run. repeat split.
Qed.

Lemma saveConfig_keeps_secret_witness :
  is_set (Some []) = false /\
  exists w1,
    saveConfig (js "https://other.test") (Some []) fresh_world = (Return true, w1)
    /\ WP_BASE_URL w1 = Some (js "https://other.test")
    /\ WP_SECRET_KEY w1 = WP_SECRET_KEY fresh_world
    /\ ENCRYPTION_CONFIG_secretKey w1 = ENCRYPTION_CONFIG_secretKey fresh_world
    /\ fst (getConfig w1)
       = Return (mkConfig (or_empty (Some (js "https://other.test")))
                          (or_empty (WP_SECRET_KEY fresh_world))
                          (nonempty (js "https://other.test")
                           && is_set (WP_SECRET_KEY fresh_world))).
Proof.
  split; [reflexivity|].
  exact (saveConfig_keeps_secret fresh_world (js "https://other.test") (Some [])
           eq_refl).
Defined.

(** ** Picking rows *)

Lemma flat_map_seq_pick {A : Type} (f : nat -> A) (p : nat -> bool) :
  forall len start lo hi,
    (forall i, (start <= i < start + len)%nat -> p i = (Nat.leb lo i && Nat.ltb i hi)) ->
    flat_map (fun i => if p i then [f i] else []) (seq start len)
    = map f (seq (Nat.max start lo) (Nat.min (start + len) hi - Nat.max start lo)).
Proof.
  induction len as [|len IH]; intros start lo hi Hp.
  - cbn [seq flat_map]. rewrite Nat.add_0_r.
    replace (Nat.min start hi - Nat.max start lo)%nat with 0%nat by lia.
    reflexivity.
  - cbn [seq flat_map].
    rewrite (IH (S start) lo hi) by (intros i Hi; apply Hp; lia).
    rewrite (Hp start) by lia.
    destruct (Nat.leb_spec lo start) as [H1|H1];
      destruct (Nat.ltb_spec start hi) as [H2|H2]; cbn [andb app].
    + replace (Nat.max start lo) with start by lia.
      replace (Nat.max (S start) lo) with (S start) by lia.
      replace (Nat.min (start + S len) hi - start)%nat
        with (S (Nat.min (S start + len) hi - S start)) by lia.
      reflexivity.
    + replace (Nat.min (S start + len) hi - Nat.max (S start) lo)%nat
        with 0%nat by lia.
      replace (Nat.min (start + S len) hi - Nat.max start lo)%nat
        with 0%nat by lia.
      reflexivity.
    + replace (Nat.max (S start) lo) with (Nat.max start lo) by lia.
      replace (S start + len)%nat with (start + S len)%nat by lia.
      reflexivity.
    + replace (Nat.min (S start + len) hi - Nat.max (S start) lo)%nat
        with 0%nat by lia.
      replace (Nat.min (start + S len) hi - Nat.max start lo)%nat
        with 0%nat by lia.
      reflexivity.
Qed.

(** The rows picked for a selection: the sheet rows from [max first 2] to
    [min last (data.length)], each with its values. *)
Lemma getSelectedProductRows_rows (range : nat * nat) (g : Grid) :
  getSelectedProductRows range g
  = map (fun i => mkProductRow i (nth (i - 1) (getDataRange_getValues g) []))
        (seq (Nat.max (fst range) 2)
             (Nat.min (S (snd range)) (S (List.length (getDataRange_getValues g)))
              - Nat.max (fst range) 2)).
Proof.
  unfold getSelectedProductRows.
  set (data := getDataRange_getValues g).
  rewrite (flat_map_seq_pick
             (fun i => mkProductRow i (nth (i - 1) data []))
             (fun i => Nat.ltb 1 i && Nat.leb i (List.length data))
             (S (snd range) - fst range) (fst range) 2 (S (List.length data))).
  - f_equal. f_equal. lia.
  - intros i _.
    destruct (Nat.ltb_spec 1 i), (Nat.leb_spec i (List.length data)),
      (Nat.leb_spec 2 i), (Nat.ltb_spec i (S (List.length data)));
      try reflexivity; lia.
Qed.

(** X3.  A selection never yields the header row nor a row outside the
    data: every row picked has a row number between 2 and the number of data
    rows, lies in the selection, and carries the values of that row. *)
Theorem getSelectedProductRows_bounds (range : nat * nat) (g : Grid)
        (row : ProductRow) :
  In row (getSelectedProductRows range g) ->
  (2 <= rowIndex row <= List.length (getDataRange_getValues g))%nat
  /\ (fst range <= rowIndex row <= snd range)%nat
  /\ data row = nth (rowIndex row - 1) (getDataRange_getValues g) [].
Proof.
  rewrite getSelectedProductRows_rows. intros H.
  apply in_map_iff in H. destruct H as [i [<- Hi]].
  apply in_seq in Hi. cbn [rowIndex data]. repeat split; lia.
Qed.

Lemma getSelectedProductRows_bounds_witness :
  In (mkProductRow 3 (product_row 3 "Pot"))
     (getSelectedProductRows (1%nat, 9%nat) (cells (activeSheet edited_world)))
  /\ (2 <= 3 <= List.length (getDataRange_getValues (cells (activeSheet edited_world))))%nat
  /\ (1 <= 3 <= 9)%nat
  /\ product_row 3 "Pot"
     = nth (3 - 1) (getDataRange_getValues (cells (activeSheet edited_world))) [].
Proof.
  assert (H : In (mkProductRow 3 (product_row 3 "Pot"))
                 (getSelectedProductRows (1%nat, 9%nat)
                    (cells (activeSheet edited_world))))
    by (vm_compute; right; left; reflexivity).
  split; [exact H|].
  exact (getSelectedProductRows_bounds _ _ _ H).
Defined.

(** X4.  Selecting the whole sheet picks the rows of [getAllProductRows]:
    whenever the selection starts at row 1 or 2 and reaches the last data
    row, [updateSelectedProducts] and [updateAllProducts] push the same
    rows. *)
Theorem select_all_is_all_rows (range : nat * nat) (g : Grid) :
  (fst range <= 2)%nat ->
  (List.length (getDataRange_getValues g) <= snd range)%nat ->
  getSelectedProductRows range g = getAllProductRows g.
Proof.
  intros H1 H2. rewrite getSelectedProductRows_rows. unfold getAllProductRows.
  set (data := getDataRange_getValues g) in *.
  replace (Nat.max (fst range) 2) with 2%nat by lia.
  replace (Nat.min (S (snd range)) (S (List.length data)) - 2)%nat
    with (List.length data - 1)%nat by lia.
  rewrite <- (seq_shift (List.length data - 1) 1), map_map.
  apply map_ext. intros i. f_equal; [lia|]. f_equal. lia.
Qed.

Lemma select_all_is_all_rows_witness :
  (fst (1%nat, 9%nat) <= 2)%nat /\
  (List.length (getDataRange_getValues (cells (activeSheet edited_world)))
   <= snd (1%nat, 9%nat))%nat /\
  getSelectedProductRows (1%nat, 9%nat) (cells (activeSheet edited_world))
  = getAllProductRows (cells (activeSheet edited_world)).
Proof.
  assert (H1 : (fst (1%nat, 9%nat) <= 2)%nat) by (cbn; lia).
  assert (H2 : (List.length (getDataRange_getValues (cells (activeSheet edited_world)))
                <= snd (1%nat, 9%nat))%nat) by (vm_compute; lia).
  split; [exact H1|]. split; [exact H2|].
  exact (select_all_is_all_rows _ _ H1 H2).
Defined.

(** ** Headers *)

Lemma setupSheetHeaders_run (w : World) :
  setupSheetHeaders w = (Return tt, after_setupSheetHeaders w).
Proof.
  unfold setupSheetHeaders, after_setupSheetHeaders, headers_in_place.
  rewrite bind_run. unfold gets.
  destruct (headers_match _ _); cbn [negb]; reflexivity.
Qed.

Lemma headers_written (g : Grid) :
  headers_in_place (write_rows 0 [header_row] g) = true.
Proof. destruct g as [|old g']; reflexivity. Qed.

Lemma headers_rows_below (g : Grid) (r : nat) :
  (1 <= r)%nat -> nth r (write_rows 0 [header_row] g) [] = nth r g [].
Proof.
  intros Hr. destruct r as [|r']; [lia|].
  destruct g as [|old g']; cbn [write_rows overwrite_rows nth]; [|reflexivity].
  destruct r'; reflexivity.
Qed.

(** X5.  [setupSheetHeaders] leaves a sheet whose first row holds the ten
    headers, changes no row under the first, writes nothing when the headers
    are already there, and run a second time changes nothing. *)
Theorem setupSheetHeaders_idempotent (w : World) :
  exists w1,
    setupSheetHeaders w = (Return tt, w1)
    /\ headers_in_place (cells (activeSheet w1)) = true
    /\ (forall r, (1 <= r)%nat ->
          nth r (cells (activeSheet w1)) [] = nth r (cells (activeSheet w)) [])
    /\ (if headers_in_place (cells (activeSheet w)) then w1 = w
        else formatting (activeSheet w1)
             = formatting (activeSheet w)
               ++ [SetFontWeightBold 1 numHeaders; SetFrozenRows 1])
    /\ setupSheetHeaders w1 = (Return tt, w1).
Proof.
  exists (after_setupSheetHeaders w).
  split; [apply setupSheetHeaders_run|].
  assert (Hp : headers_in_place (cells (activeSheet (after_setupSheetHeaders w)))
               = true).
  { unfold after_setupSheetHeaders.
    destruct (headers_in_place (cells (activeSheet w))) eqn:E; [exact E|].
    apply headers_written. }
  split; [exact Hp|]. split; [|split].
  - intros r Hr. unfold after_setupSheetHeaders.
    destruct (headers_in_place (cells (activeSheet w))); [reflexivity|].
    apply headers_rows_below. exact Hr.
  - unfold after_setupSheetHeaders.
    destruct (headers_in_place (cells (activeSheet w))); reflexivity.
  - rewrite setupSheetHeaders_run.
    unfold after_setupSheetHeaders at 1. rewrite Hp. reflexivity.
Qed.

(** ** Rows of products *)

(** X6.  The row built for a product: reading fails with a TypeError exactly
    for a product that is [null] or [undefined]; otherwise the row has one
    cell per header, starts with the product's id, and its Type and Status
    cells are never empty, "simple" and "instock" standing in for what the
    product does not say. *)
Theorem rowData_defaults (product : JValue) :
  match product with
  | JUndefined | JNull =>
    exists e, rowData product = Throw e /\ err_name e = js "TypeError"
  | _ =>
    exists row,
      rowData product = Return row
      /\ List.length row = numHeaders
      /\ nth 0 row JUndefined = prop product "id"
      /\ toBoolean (nth 1 row JUndefined) = true
      /\ toBoolean (nth 9 row JUndefined) = true
      /\ (toBoolean (prop product "type") = false ->
          toBoolean (prop product "product_type") = false ->
          nth 1 row JUndefined = JStr (js "simple"))
      /\ (toBoolean (prop product "status") = false ->
          toBoolean (prop product "stock_status") = false ->
          nth 9 row JUndefined = JStr (js "instock"))
  end.
Proof.
  assert (Hor : forall a b c, toBoolean c = true ->
                  toBoolean (js_or (js_or a b) c) = true).
  { intros a b c Hc. unfold js_or.
    destruct (toBoolean a) eqn:Ea; [rewrite Ea; exact Ea|].
    destruct (toBoolean b) eqn:Eb; [exact Eb|exact Hc]. }
  assert (Hdef : forall a b c, toBoolean a = false -> toBoolean b = false ->
                   js_or (js_or a b) c = c).
  { intros a b c Ha Hb. unfold js_or. rewrite Ha, Hb. reflexivity. }
  destruct product;
    try (eexists; split; [reflexivity|]; reflexivity);
    (eexists; split; [reflexivity|]; split; [reflexivity|];
     split; [reflexivity|]; cbn [nth];
     split; [apply Hor; reflexivity|]; split; [apply Hor; reflexivity|];
     split; apply Hdef).
Qed.

(** ** Issuing and validating *)

(** X7.  A token issued by [generateSheetToken] and validated under the same
    secret at time [now] yields the id of the spreadsheet and the time of
    issue when no more than 86400000 ms have passed, and "Token expired"
    afterwards; this for an ASCII id without [|] and a secret without
    surrogates. *)
Theorem issued_token_validates (w : World) (now : Z) :
  ENCRYPTION_CONFIG_secretKey w <> [] ->
  is_jsstring (ENCRYPTION_CONFIG_secretKey w) ->
  Forall (fun c => is_surrogate c = false) (ENCRYPTION_CONFIG_secretKey w) ->
  is_ascii (spreadsheetId w) ->
  ~ In bar (spreadsheetId w) ->
  exists token,
    fst (generateSheetToken w) = Return token
    /\ validateSheetToken (ENCRYPTION_CONFIG_secretKey w) now token
       = Return (if (now - clock w (clockReads w) >? 86400000)%Z
                 then TokenInvalid (js "Token expired")
                 else TokenValid (spreadsheetId w)
                                 (Some (clock w (clockReads w)))).
Proof.
  intros Hk Hks Hkn Hid Hbar.
  destruct (generateSheetToken_carries w Hk Hks Hkn Hid) as [token [Hg Hd]].
  exists token. split; [exact Hg|].
  unfold validateSheetToken, validateSheetToken_try.
  destruct (ENCRYPTION_CONFIG_secretKey w) as [|k0 key'] eqn:Ek; [contradiction|].
  cbn [nonempty negb]. rewrite Hd, split_tokenData by exact Hbar.
  cbn [List.length Nat.eqb negb nth]. rewrite parseInt_Number_toString.
  unfold token_expired.
  destruct (now - clock w (clockReads w) >? 86400000)%Z; reflexivity.
Qed.

Lemma ascii_literal_doc : is_ascii (js "doc").
Proof. repeat constructor. Qed.

Lemma issued_token_validates_witness :
  ENCRYPTION_CONFIG_secretKey (mirrored fresh_world) <> [] /\
  is_jsstring (ENCRYPTION_CONFIG_secretKey (mirrored fresh_world)) /\
  Forall (fun c => is_surrogate c = false)
         (ENCRYPTION_CONFIG_secretKey (mirrored fresh_world)) /\
  is_ascii (spreadsheetId (mirrored fresh_world)) /\
  ~ In bar (spreadsheetId (mirrored fresh_world)) /\
  exists token,
    fst (generateSheetToken (mirrored fresh_world)) = Return token
    /\ validateSheetToken (ENCRYPTION_CONFIG_secretKey (mirrored fresh_world))
                          1700000000005 token
       = Return (if (1700000000005
                     - clock (mirrored fresh_world) (clockReads (mirrored fresh_world))
                     >? 86400000)%Z
                 then TokenInvalid (js "Token expired")
                 else TokenValid (spreadsheetId (mirrored fresh_world))
                        (Some (clock (mirrored fresh_world)
                                     (clockReads (mirrored fresh_world))))).
Proof.
  assert (H1 : ENCRYPTION_CONFIG_secretKey (mirrored fresh_world) <> [])
    by discriminate.
  assert (H2 : is_jsstring (ENCRYPTION_CONFIG_secretKey (mirrored fresh_world)))
    by (repeat constructor).
  assert (H3 : Forall (fun c => is_surrogate c = false)
                      (ENCRYPTION_CONFIG_secretKey (mirrored fresh_world)))
    by (repeat constructor).
  assert (H4 : is_ascii (spreadsheetId (mirrored fresh_world)))
    by exact ascii_literal_doc.
  assert (H5 : ~ In bar (spreadsheetId (mirrored fresh_world))).
  { cbn. unfold bar. intros [H|[H|[H|[]]]]; discriminate H. }
  repeat (split; [assumption|]).
  exact (issued_token_validates (mirrored fresh_world) 1700000000005
           H1 H2 H3 H4 H5).
Defined.

(** ** The snapshot across a fetch and a push *)


Lemma after_setupSheetHeaders_rest (w : World) :
  STORED_PRODUCT_IDS (after_setupSheetHeaders w) = STORED_PRODUCT_IDS w
  /\ sentRequests (after_setupSheetHeaders w) = sentRequests w
  /\ remote (after_setupSheetHeaders w) = remote w
  /\ ENCRYPTION_CONFIG_secretKey (after_setupSheetHeaders w)
     = ENCRYPTION_CONFIG_secretKey w
  /\ spreadsheetId (after_setupSheetHeaders w) = spreadsheetId w
  /\ clock (after_setupSheetHeaders w) = clock w
  /\ clockReads (after_setupSheetHeaders w) = clockReads w.
Proof.
  unfold after_setupSheetHeaders.
  destruct (headers_in_place (cells (activeSheet w))); repeat split.
Qed.

Lemma validateSecretKey_store (w : World) (c : Completion bool) (w' : World) :
  validateSecretKey w = (c, w') -> STORED_PRODUCT_IDS w' = STORED_PRODUCT_IDS w.
Proof.
  unfold validateSecretKey. rewrite bind_run, getConfig_run.
  destruct (negb _); intros H; injection H as _ <-; apply after_getConfig_sheet.
Qed.

Lemma setupSheetHeaders_store (w : World) (c : Completion unit) (w' : World) :
  setupSheetHeaders w = (c, w') -> STORED_PRODUCT_IDS w' = STORED_PRODUCT_IDS w.
Proof.
  rewrite setupSheetHeaders_run. intros H. injection H as _ <-.
  apply after_setupSheetHeaders_rest.
Qed.

Lemma generateSheetToken_store (w : World) (c : Completion jsstring) (w' : World) :
  generateSheetToken w = (c, w') -> STORED_PRODUCT_IDS w' = STORED_PRODUCT_IDS w.
Proof.
  unfold generateSheetToken. run_all; intros H; injection H as _ <-; reflexivity.
Qed.

Lemma UrlFetchApp_fetch_store (req : Request) (w : World)
      (c : Completion Response) (w' : World) :
  UrlFetchApp_fetch req w = (c, w') ->
  STORED_PRODUCT_IDS w' = STORED_PRODUCT_IDS w
  /\ activeSheet w' = activeSheet w.
Proof.
  unfold UrlFetchApp_fetch. intros H. injection H as _ <-. split; reflexivity.
Qed.

Lemma lift_run {A : Type} (c c' : Completion A) (w w' : World) :
  lift c w = (c', w') -> c' = c /\ w' = w.
Proof. unfold lift. intros H. injection H as <- <-. split; reflexivity. Qed.

Lemma updateSheetWithProducts_store (products : list JValue) (w : World)
      (c : Completion unit) (w' : World) :
  updateSheetWithProducts products w = (c, w') ->
  STORED_PRODUCT_IDS w' = STORED_PRODUCT_IDS w.
Proof.
  unfold updateSheetWithProducts. run_all; intros H; injection H as _ <-;
    reflexivity.
Qed.

(** The snapshot after the [try] block of [fetchProducts]: the ids then in
    the grid when it returned (always a success object), the snapshot of
    before when it threw. *)
Lemma fetchProducts_try_store (w w' : World) (c : Completion FetchResult) :
  fetchProducts_try w = (c, w') ->
  match c with
  | Return r =>
    fetch_success r = true
    /\ STORED_PRODUCT_IDS w'
       = Some (current_product_ids (cells (activeSheet w')))
  | Throw _ => STORED_PRODUCT_IDS w' = STORED_PRODUCT_IDS w
  end.
Proof.
  unfold fetchProducts_try. intros H.
  rewrite bind_run, getConfig_run in H.
  assert (Hs : STORED_PRODUCT_IDS (after_getConfig w) = STORED_PRODUCT_IDS w)
    by apply after_getConfig_sheet.
  destruct (negb (isConfigured (config_of w))).
  { unfold throw in H. injection H as <- <-. exact Hs. }
  rewrite bind_run in H.
  destruct (validateSecretKey (after_getConfig w)) as [[b1|e1] w1] eqn:E1;
    apply validateSecretKey_store in E1; rewrite Hs in E1; clear Hs;
    [|injection H as <- <-; exact E1].
  rewrite bind_run in H.
  destruct (validateSecretKey w1) as [[b2|e2] w2] eqn:E2;
    apply validateSecretKey_store in E2; rewrite E1 in E2; clear E1;
    [|injection H as <- <-; exact E2].
  rewrite bind_run in H.
  destruct (setupSheetHeaders w2) as [[u3|e3] w3] eqn:E3;
    apply setupSheetHeaders_store in E3; rewrite E2 in E3; clear E2;
    [|injection H as <- <-; exact E3].
  rewrite bind_run in H.
  destruct (generateSheetToken w3) as [[token|e4] w4] eqn:E4;
    apply generateSheetToken_store in E4; rewrite E3 in E4; clear E3;
    [|injection H as <- <-; exact E4].
  rewrite bind_run in H.
  match type of H with
  | match UrlFetchApp_fetch ?req w4 with _ => _ end = _ =>
    destruct (UrlFetchApp_fetch req w4) as [[response|e5] w5] eqn:E5
  end;
    apply UrlFetchApp_fetch_store in E5; destruct E5 as [E5 _];
    rewrite E4 in E5; clear E4;
    [|injection H as <- <-; exact E5].
  destruct (negb (getResponseCode response =? 200)%Z).
  { unfold throw in H. injection H as <- <-. exact E5. }
  rewrite bind_run in H.
  destruct (lift (JSON_parse_content response) w5) as [[result|e6] w6] eqn:E6;
    apply lift_run in E6; destruct E6 as [_ ->];
    [|injection H as <- <-; exact E5].
  rewrite bind_run in H.
  destruct (lift (getProp result "data") w5) as [[products|e7] w7] eqn:E7;
    apply lift_run in E7; destruct E7 as [_ ->];
    [|injection H as <- <-; exact E5].
  destruct (negb (toBoolean products) || negb (isArray products)).
  { unfold throw in H. injection H as <- <-. exact E5. }
  rewrite bind_run in H.
  destruct (updateSheetWithProducts (rev (array_items products)) w5)
    as [[u8|e8] w8] eqn:E8;
    apply updateSheetWithProducts_store in E8; rewrite E5 in E8; clear E5;
    [|injection H as <- <-; exact E8].
  rewrite bind_run, storeCurrentProductIds_run in H.
  unfold ret in H. injection H as <- <-. split; reflexivity.
Qed.

(** The snapshot after [fetchProducts]. *)
Lemma fetchProducts_store (w w' : World) (r : FetchResult) :
  fetchProducts w = (Return r, w') ->
  STORED_PRODUCT_IDS w'
  = if fetch_success r
    then Some (current_product_ids (cells (activeSheet w')))
    else STORED_PRODUCT_IDS w.
Proof.
  unfold fetchProducts, try_catch.
  destruct (fetchProducts_try w) as [[v|e] w0] eqn:Et;
    apply fetchProducts_try_store in Et; intros H.
  - injection H as <- <-. destruct Et as [-> Et]. exact Et.
  - rewrite bind_run in H. unfold Logger_log, modify, ret in H.
    injection H as <- <-. exact Et.
Qed.

Lemma deleted_ids_same (ids : list jsstring) : deleted_ids ids ids = [].
Proof.
  unfold deleted_ids.
  assert (H : forall l, (forall id, In id l -> In id ids) ->
                filter (fun id => Z.eqb (indexOf ids id) (-1)) l = []).
  { induction l as [|x l IH]; intros Hl; [reflexivity|].
    cbn [filter].
    destruct (Z.eqb_spec (indexOf ids x) (-1)) as [E|E].
    - apply indexOf_absent in E. exfalso. apply E. apply Hl. left. reflexivity.
    - apply IH. intros id Hid. apply Hl. right. exact Hid. }
  apply H. intros id Hid. exact Hid.
Qed.

(** The deletions reported in a world whose snapshot is absent or is the
    list of ids in its grid: none. *)
Lemma no_deletions (w : World) :
  STORED_PRODUCT_IDS w = None
  \/ STORED_PRODUCT_IDS w = Some (current_product_ids (cells (activeSheet w))) ->
  getDeletedProductIds w = (Return [], w).
Proof.
  unfold getDeletedProductIds, bind, gets, ret.
  intros [-> | ->]; [reflexivity|]. rewrite deleted_ids_same. reflexivity.
Qed.

(** X8.  Right after a successful fetch the snapshot is the list of ids in
    the grid, and no deletion is reported. *)
Theorem no_deletions_after_fetch (w w' : World) (message : jsstring)
        (count : nat) (url : jsstring) :
  fetchProducts w = (Return (FetchSuccess message count url), w') ->
  STORED_PRODUCT_IDS w' = Some (current_product_ids (cells (activeSheet w')))
  /\ getDeletedProductIds w' = (Return [], w').
Proof.
  intros H. apply fetchProducts_store in H. cbn [fetch_success] in H.
  split; [exact H|]. apply no_deletions. right. exact H.
Qed.

Lemma no_deletions_after_fetch_witness :
  fetchProducts fresh_world
  = (Return (FetchSuccess (js "Successfully fetched 3 products") 3
               (js "https://shop.test/wp-json/sheets-api/v1/get_products")),
     snd (fetchProducts fresh_world))
  /\ STORED_PRODUCT_IDS (snd (fetchProducts fresh_world))
     = Some (current_product_ids
               (cells (activeSheet (snd (fetchProducts fresh_world)))))
  /\ getDeletedProductIds (snd (fetchProducts fresh_world))
     = (Return [], snd (fetchProducts fresh_world)).
Proof.
  assert (H : fetchProducts fresh_world
              = (Return (FetchSuccess (js "Successfully fetched 3 products") 3
                           (js "https://shop.test/wp-json/sheets-api/v1/get_products")),
                 snd (fetchProducts fresh_world))) by (vm_compute; reflexivity).
  split; [exact H|].
  exact (no_deletions_after_fetch fresh_world _ _ _ _ H).
Defined.

(** X9.  A fetch that fails, for whatever reason, leaves the snapshot as it
    was. *)
Theorem failed_fetch_keeps_snapshot (w w' : World) (message : jsstring) :
  fetchProducts w = (Return (FetchFailure message), w') ->
  STORED_PRODUCT_IDS w' = STORED_PRODUCT_IDS w.
Proof.
  intros H. apply fetchProducts_store in H. exact H.
Qed.

Lemma failed_fetch_keeps_snapshot_witness :
  fetchProducts (set_WP_BASE_URL None edited_world)
  = (Return (FetchFailure
       (js "Error: Please configure the WordPress API URL and secret key first in Settings.")),
     snd (fetchProducts (set_WP_BASE_URL None edited_world)))
  /\ STORED_PRODUCT_IDS (snd (fetchProducts (set_WP_BASE_URL None edited_world)))
     = STORED_PRODUCT_IDS (set_WP_BASE_URL None edited_world).
Proof.
  assert (H : fetchProducts (set_WP_BASE_URL None edited_world)
              = (Return (FetchFailure
                   (js "Error: Please configure the WordPress API URL and secret key first in Settings.")),
                 snd (fetchProducts (set_WP_BASE_URL None edited_world))))
    by (vm_compute; reflexivity).
  split; [exact H|].
  exact (failed_fetch_keeps_snapshot _ _ _ H).
Defined.

(** The snapshot after the [try] block of a push: when it returned, the
    snapshot is absent (the fetch after the push failed) or is the list of
    ids in the grid (it succeeded); when it threw before the remote end
    accepted the push, the snapshot is the one of before. *)
Lemma updateProductsToWordPress_try_store (productRows : list ProductRow)
      (deletedIds : list jsstring) (w w' : World) (r : PushResult) :
  updateProductsToWordPress_try productRows deletedIds w = (Return r, w') ->
  STORED_PRODUCT_IDS w' = None
  \/ STORED_PRODUCT_IDS w'
     = Some (current_product_ids (cells (activeSheet w'))).
Proof.
  intros Et.
  unfold updateProductsToWordPress_try in Et.
  rewrite bind_run, getConfig_run in Et.
  destruct (negb (isConfigured (config_of w))); [discriminate Et|].
  inv_bind Et as b1 w1 E1. inv_bind Et as token w2 E2.
  inv_bind Et as response w3 E3. inv_bind Et as u4 w4 E4.
  destruct (negb (getResponseCode response =? 200)%Z) eqn:Ecode.
  { rewrite bind_run in E4.
    destruct (lift (JSON_parse_content response) w3) as [[v|?] w5];
      [|discriminate E4].
    rewrite bind_run in E4.
    destruct (lift (getProp v "message") w5) as [[?|?] ?]; discriminate E4. }
  inv_bind E4 as u5 w5 E5. unfold modify in E5. injection E5 as _ <-.
  inv_bind E4 as r6 w6 E6. unfold ret in E4. injection E4 as _ <-.
  apply fetchProducts_store in E6.
  inv_bind Et as result w7 E7. apply lift_run in E7. destruct E7 as [_ ->].
  inv_bind Et as message0 w8 E8. apply lift_run in E8. destruct E8 as [_ ->].
  inv_bind Et as data0 w9 E9. apply lift_run in E9. destruct E9 as [_ ->].
  inv_bind Et as updated w10 E10. apply lift_run in E10. destruct E10 as [_ ->].
  inv_bind Et as uc w11 E11. apply lift_run in E11. destruct E11 as [_ ->].
  inv_bind Et as deleted w12 E12. apply lift_run in E12. destruct E12 as [_ ->].
  inv_bind Et as dc w13 E13. apply lift_run in E13. destruct E13 as [_ ->].
  unfold ret in Et. injection Et as _ <-.
  destruct (fetch_success r6); [right|left]; exact E6.
Qed.

(** X10.  After a push that returned a success object, the snapshot is
    either absent (the fetch that follows the push failed) or the list of
    ids in the grid (it succeeded): in both cases no deletion is reported,
    so the next push does not send the same deletions again. *)
Theorem no_deletions_after_push (productRows : list ProductRow)
        (deletedIds : list jsstring) (w w' : World)
        (message updatedCount deletedCount : JValue) :
  updateProductsToWordPress productRows deletedIds w
  = (Return (PushSuccess message updatedCount deletedCount), w') ->
  getDeletedProductIds w' = (Return [], w').
Proof.
  intros H. apply no_deletions.
  unfold updateProductsToWordPress, try_catch in H.
  destruct (updateProductsToWordPress_try productRows deletedIds w)
    as [[r|e] w0] eqn:Et.
  - injection H as _ <-.
    exact (updateProductsToWordPress_try_store _ _ _ _ _ Et).
  - rewrite bind_run in H. unfold Logger_log, modify, ret in H.
    discriminate H.
Qed.

(** ** A configured invocation, up to its request *)

Lemma nonempty_or_empty (p : option jsstring) : nonempty (or_empty p) = is_set p.
Proof. destruct p as [[|c s]|]; reflexivity. Qed.

Lemma configured_parts (w : World) :
  configured w = true ->
  isConfigured (config_of w) = true /\ is_set (WP_SECRET_KEY w) = true.
Proof.
  unfold configured. intros H. split; [exact H|].
  apply andb_true_iff in H. apply H.
Qed.

Lemma after_getConfig_mirrored (w : World) :
  is_set (WP_SECRET_KEY w) = true -> after_getConfig w = mirrored w.
Proof. unfold after_getConfig, mirrored. intros ->. reflexivity. Qed.

Lemma validateSecretKey_mirrored (w : World) :
  is_set (WP_SECRET_KEY w) = true ->
  validateSecretKey (mirrored w) = (Return true, mirrored w).
Proof.
  intros H. unfold validateSecretKey. rewrite bind_run, getConfig_run.
  unfold config_of, after_getConfig. cbn [secretKey mirrored WP_SECRET_KEY set_ENCRYPTION_CONFIG_secretKey].
  rewrite nonempty_or_empty, H. reflexivity.
Qed.

Lemma generateSheetToken_run (w : World) :
  nonempty (ENCRYPTION_CONFIG_secretKey w) = true ->
  generateSheetToken w
  = (Return (Utilities_base64Encode
               (xor_loop (tokenData (spreadsheetId w) (clock w (clockReads w)))
                         (ENCRYPTION_CONFIG_secretKey w))),
     set_clockReads (S (clockReads w)) w).
Proof.
  intros H. unfold generateSheetToken, bind, gets, Date_getTime, lift, xorEncrypt.
  rewrite H. cbn [negb].
  destruct (ENCRYPTION_CONFIG_secretKey w); [discriminate H|reflexivity].
Qed.

Lemma generateSheetToken_before_push (w : World) :
  is_set (WP_SECRET_KEY w) = true ->
  generateSheetToken (mirrored w) = (Return (issued_token w), before_push w).
Proof.
  intros H. rewrite generateSheetToken_run; [reflexivity|].
  cbn. rewrite nonempty_or_empty. exact H.
Qed.

Lemma generateSheetToken_before_fetch (w : World) :
  is_set (WP_SECRET_KEY w) = true ->
  generateSheetToken (after_setupSheetHeaders (mirrored w))
  = (Return (issued_token w), before_fetch w).
Proof.
  intros H. rewrite generateSheetToken_run.
  - unfold issued_token, before_fetch, after_setupSheetHeaders.
    destruct (headers_in_place (cells (activeSheet (mirrored w)))); reflexivity.
  - unfold after_setupSheetHeaders.
    destruct (headers_in_place (cells (activeSheet (mirrored w))));
      cbn; rewrite nonempty_or_empty; exact H.
Qed.

(** A configured fetch, from its request on. *)
Lemma fetchProducts_try_sends (w : World) :
  configured w = true ->
  fetchProducts_try w
  = (response <- UrlFetchApp_fetch (fetch_request w) ;;
     if negb (Z.eqb (getResponseCode response) 200)
     then throw (mkJsError (js "Error")
                  (js "API Error: " ++ getContentText response
                   ++ js " (URL: " ++ fetchUrl_of (config_of w) ++ js ")"))
     else
       result <- lift (JSON_parse_content response) ;;
       products <- lift (getProp result "data") ;;
       if negb (toBoolean products) || negb (isArray products)
       then throw (Error "Invalid response format from API")
       else
         updateSheetWithProducts (rev (array_items products)) ;;;
         storeCurrentProductIds ;;;
         ret (FetchSuccess
                (js "Successfully fetched "
                 ++ Number_toString
                      (Z.of_nat (List.length (rev (array_items products))))
                 ++ js " products")
                (List.length (rev (array_items products)))
                (fetchUrl_of (config_of w))))
      (before_fetch w).
Proof.
  intros H. destruct (configured_parts w H) as [Hc Hk].
  unfold fetchProducts_try.
  rewrite bind_run, getConfig_run, Hc. cbn [negb].
  rewrite (after_getConfig_mirrored w Hk).
  rewrite bind_run, (validateSecretKey_mirrored w Hk).
  rewrite bind_run, (validateSecretKey_mirrored w Hk).
  rewrite bind_run, setupSheetHeaders_run.
  rewrite bind_run, (generateSheetToken_before_fetch w Hk).
  reflexivity.
Qed.

(** A configured push, from its request on. *)
Lemma updateProductsToWordPress_try_sends (productRows : list ProductRow)
      (deletedIds : list jsstring) (w : World) :
  configured w = true ->
  updateProductsToWordPress_try productRows deletedIds w
  = (response <- UrlFetchApp_fetch (push_request productRows deletedIds w) ;;
     (if negb (Z.eqb (getResponseCode response) 200)
      then
        errorResponse <- lift (JSON_parse_content response) ;;
        message <- lift (getProp errorResponse "message") ;;
        throw (mkJsError (js "Error")
                 (js "API Error: "
                  ++ ToString (js_or message (JStr (getContentText response)))))
      else
        modify (set_STORED_PRODUCT_IDS None) ;;;
        fetchProducts ;;;
        ret tt) ;;;
     result <- lift (JSON_parse_content response) ;;
     message <- lift (getProp result "message") ;;
     data <- lift (getProp result "data") ;;
     updated <- lift (getProp data "updated") ;;
     updatedCount <- lift (count_of updated) ;;
     deleted <- lift (getProp data "deleted") ;;
     deletedCount <- lift (count_of deleted) ;;
     ret (PushSuccess (js_or message (JStr (js "Products updated successfully")))
                      updatedCount deletedCount))
      (before_push w).
Proof.
  intros H. destruct (configured_parts w H) as [Hc Hk].
  unfold updateProductsToWordPress_try.
  rewrite bind_run, getConfig_run, Hc. cbn [negb].
  rewrite (after_getConfig_mirrored w Hk).
  rewrite bind_run, (validateSecretKey_mirrored w Hk).
  rewrite bind_run, (generateSheetToken_before_push w Hk).
  reflexivity.
Qed.

(** A configured connection test, from its request on. *)
Lemma testConnection_sends (w : World) :
  configured w = true ->
  testConnection w
  = (response <- UrlFetchApp_fetch (test_request w) ;;
     if negb (Z.eqb (getResponseCode response) 200)
     then
       errorResponse <- lift (JSON_parse_content response) ;;
       message <- lift (getProp errorResponse "message") ;;
       throw (mkJsError (js "Error")
                (js "API Error: "
                 ++ ToString (js_or message (JStr (getContentText response)))))
     else ret (ConnectionSuccess (js "Connection successful")))
      (before_push w).
Proof.
  intros H. destruct (configured_parts w H) as [Hc Hk].
  unfold testConnection.
  rewrite bind_run, getConfig_run, Hc. cbn [negb].
  rewrite (after_getConfig_mirrored w Hk).
  rewrite bind_run, (validateSecretKey_mirrored w Hk).
  rewrite bind_run, (generateSheetToken_before_push w Hk).
  reflexivity.
Qed.

(** ** What a configured fetch does *)

Lemma before_fetch_rest (w : World) :
  remote (before_fetch w) = remote w
  /\ sentRequests (before_fetch w) = sentRequests w
  /\ STORED_PRODUCT_IDS (before_fetch w) = STORED_PRODUCT_IDS w
  /\ activeSheet (before_fetch w) = activeSheet (after_setupSheetHeaders w).
Proof.
  unfold before_fetch, after_setupSheetHeaders.
  change (activeSheet (mirrored w)) with (activeSheet w).
  destruct (headers_in_place (cells (activeSheet w))); repeat split.
Qed.

Lemma after_setupSheetHeaders_rows (w : World) (r : nat) :
  (1 <= r)%nat ->
  nth r (cells (activeSheet (after_setupSheetHeaders w))) []
  = nth r (cells (activeSheet w)) [].
Proof.
  intros Hr. unfold after_setupSheetHeaders.
  destruct (headers_in_place (cells (activeSheet w))); [reflexivity|].
  apply headers_rows_below. exact Hr.
Qed.

(** The run of a configured fetch whose request got the answer [answer]. *)
Lemma fetchProducts_try_answer (w : World) :
  configured w = true ->
  fetchProducts_try w
  = match remote w (sentRequests w) (fetch_request w) with
    | Throw e =>
      (Throw e,
       set_sentRequests (sentRequests w ++ [fetch_request w]) (before_fetch w))
    | Return response =>
      (if negb (Z.eqb (getResponseCode response) 200)
       then throw (mkJsError (js "Error")
                     (js "API Error: " ++ getContentText response
                      ++ js " (URL: " ++ fetchUrl_of (config_of w) ++ js ")"))
       else
         result <- lift (JSON_parse_content response) ;;
         products <- lift (getProp result "data") ;;
         if negb (toBoolean products) || negb (isArray products)
         then throw (Error "Invalid response format from API")
         else
           updateSheetWithProducts (rev (array_items products)) ;;;
           storeCurrentProductIds ;;;
           ret (FetchSuccess
                  (js "Successfully fetched "
                   ++ Number_toString
                        (Z.of_nat (List.length (rev (array_items products))))
                   ++ js " products")
                  (List.length (rev (array_items products)))
                  (fetchUrl_of (config_of w))))
        (set_sentRequests (sentRequests w ++ [fetch_request w]) (before_fetch w))
    end.
Proof.
  intros H. rewrite (fetchProducts_try_sends w H), bind_run.
  unfold UrlFetchApp_fetch at 1.
  destruct (before_fetch_rest w) as [-> [-> _]].
  destruct (remote w (sentRequests w) (fetch_request w)); reflexivity.
Qed.

Lemma fetchProducts_sent (w : World) :
  configured w = true ->
  sentRequests (snd (fetchProducts w)) = sentRequests w ++ [fetch_request w].
Proof.
  intros H. unfold fetchProducts, try_catch.
  rewrite (fetchProducts_try_answer w H).
  destruct (remote w (sentRequests w) (fetch_request w)) as [response|e];
    [|reflexivity].
  set (W := set_sentRequests _ _).
  change (sentRequests w ++ [fetch_request w]) with (sentRequests W).
  clearbody W.
  destruct (negb (getResponseCode response =? 200)%Z); [reflexivity|].
  rewrite bind_run. unfold lift at 1.
  destruct (JSON_parse_content response) as [result|e]; [|reflexivity].
  rewrite bind_run. unfold lift at 1.
  destruct (getProp result "data") as [products|e]; [|reflexivity].
  destruct (negb (toBoolean products) || negb (isArray products));
    [reflexivity|].
  rewrite bind_run.
  destruct (updateSheetWithProducts (rev (array_items products)) W)
    as [[u|e] W'] eqn:E;
    apply updateSheetWithProducts_frame in E; destruct E as [_ E];
    [|cbn; exact E].
  rewrite bind_run, storeCurrentProductIds_run. cbn. exact E.
Qed.

(** X11.  A configured fetch sends one request, whatever comes of it: a GET
    to the products route that carries the token issued at the first
    reading of the clock. *)
Theorem fetchProducts_one_request (w : World) :
  configured w = true ->
  sentRequests (snd (fetchProducts w)) = sentRequests w ++ [fetch_request w]
  /\ req_method (fetch_request w) = GET
  /\ req_url (fetch_request w)
     = or_empty (WP_BASE_URL w) ++ js "/wp-json/sheets-api/v1/get_products"
  /\ req_headers (fetch_request w) = request_headers (issued_token w).
Proof.
  intros H. split; [exact (fetchProducts_sent w H)|]. repeat split.
Qed.

Lemma fetchProducts_one_request_witness :
  configured fresh_world = true
  /\ sentRequests (snd (fetchProducts fresh_world))
     = sentRequests fresh_world ++ [fetch_request fresh_world]
  /\ req_method (fetch_request fresh_world) = GET
  /\ req_url (fetch_request fresh_world)
     = or_empty (WP_BASE_URL fresh_world)
       ++ js "/wp-json/sheets-api/v1/get_products"
  /\ req_headers (fetch_request fresh_world)
     = request_headers (issued_token fresh_world).
Proof.
  split; [reflexivity|].
  apply (fetchProducts_one_request fresh_world). reflexivity.
Defined.

(** X12.  When the remote end answers a configured fetch with a status other
    than 200, the result is [{success: false, message}] with the text of the
    answer and the URL in the message; the rows under the header and the
    snapshot are what they were. *)
Theorem fetchProducts_rejected (w : World) (response : Response) :
  configured w = true ->
  remote w (sentRequests w) (fetch_request w) = Return response ->
  getResponseCode response <> 200%Z ->
  exists w',
    fetchProducts w
    = (Return (FetchFailure
         (js "Error: API Error: " ++ getContentText response
          ++ js " (URL: " ++ fetchUrl_of (config_of w) ++ js ")")),
       w')
    /\ STORED_PRODUCT_IDS w' = STORED_PRODUCT_IDS w
    /\ (forall r, (1 <= r)%nat ->
          nth r (cells (activeSheet w')) [] = nth r (cells (activeSheet w)) []).
Proof.
  intros H Hanswer Hcode. unfold fetchProducts, try_catch.
  rewrite (fetchProducts_try_answer w H), Hanswer.
  apply Z.eqb_neq in Hcode. rewrite Hcode. cbn [negb].
  eexists. split; [reflexivity|].
  destruct (before_fetch_rest w) as [_ [_ [Hs Hsheet]]].
  split; [exact Hs|].
  intros r Hr. cbn [activeSheet set_logger set_sentRequests].
  rewrite Hsheet. apply after_setupSheetHeaders_rows. exact Hr.
Qed.

Lemma fetchProducts_rejected_witness :
  configured (set_remote closed_shop edited_world) = true
  /\ remote (set_remote closed_shop edited_world)
            (sentRequests (set_remote closed_shop edited_world))
            (fetch_request (set_remote closed_shop edited_world))
     = Return forbidden_response
  /\ getResponseCode forbidden_response <> 200%Z
  /\ exists w',
       fetchProducts (set_remote closed_shop edited_world)
       = (Return (FetchFailure
            (js "Error: API Error: " ++ getContentText forbidden_response
             ++ js " (URL: "
             ++ fetchUrl_of (config_of (set_remote closed_shop edited_world))
             ++ js ")")),
          w')
       /\ STORED_PRODUCT_IDS w'
          = STORED_PRODUCT_IDS (set_remote closed_shop edited_world)
       /\ (forall r, (1 <= r)%nat ->
             nth r (cells (activeSheet w')) []
             = nth r (cells (activeSheet (set_remote closed_shop edited_world))) []).
Proof.
  assert (H1 : configured (set_remote closed_shop edited_world) = true)
    by reflexivity.
  assert (H2 : remote (set_remote closed_shop edited_world)
                      (sentRequests (set_remote closed_shop edited_world))
                      (fetch_request (set_remote closed_shop edited_world))
               = Return forbidden_response) by reflexivity.
  assert (H3 : getResponseCode forbidden_response <> 200%Z)
    by (cbn; lia).
  repeat (split; [assumption|]).
  exact (fetchProducts_rejected _ _ H1 H2 H3).
Defined.

(** X13.  When the remote end cannot be reached, a configured fetch returns
    [{success: false, message}] with the text of the error raised by the
    platform; the rows under the header and the snapshot are what they
    were. *)
Theorem fetchProducts_unreachable (w : World) (e : JsError) :
  configured w = true ->
  remote w (sentRequests w) (fetch_request w) = Throw e ->
  exists w',
    fetchProducts w = (Return (FetchFailure (error_toString e)), w')
    /\ STORED_PRODUCT_IDS w' = STORED_PRODUCT_IDS w
    /\ (forall r, (1 <= r)%nat ->
          nth r (cells (activeSheet w')) [] = nth r (cells (activeSheet w)) []).
Proof.
  intros H Hanswer. unfold fetchProducts, try_catch.
  rewrite (fetchProducts_try_answer w H), Hanswer.
  eexists. split; [reflexivity|].
  destruct (before_fetch_rest w) as [_ [_ [Hs Hsheet]]].
  split; [exact Hs|].
  intros r Hr. cbn [activeSheet set_logger set_sentRequests].
  rewrite Hsheet. apply after_setupSheetHeaders_rows. exact Hr.
Qed.

Lemma fetchProducts_unreachable_witness :
  configured (set_remote unreachable edited_world) = true
  /\ remote (set_remote unreachable edited_world)
            (sentRequests (set_remote unreachable edited_world))
            (fetch_request (set_remote unreachable edited_world))
     = Throw (mkJsError (js "Exception") (js "Address unavailable"))
  /\ exists w',
       fetchProducts (set_remote unreachable edited_world)
       = (Return (FetchFailure
            (error_toString
               (mkJsError (js "Exception") (js "Address unavailable")))),
          w')
       /\ STORED_PRODUCT_IDS w'
          = STORED_PRODUCT_IDS (set_remote unreachable edited_world)
       /\ (forall r, (1 <= r)%nat ->
             nth r (cells (activeSheet w')) []
             = nth r (cells (activeSheet (set_remote unreachable edited_world))) []).
Proof.
  assert (H1 : configured (set_remote unreachable edited_world) = true)
    by reflexivity.
  assert (H2 : remote (set_remote unreachable edited_world)
                      (sentRequests (set_remote unreachable edited_world))
                      (fetch_request (set_remote unreachable edited_world))
               = Throw (mkJsError (js "Exception") (js "Address unavailable")))
    by reflexivity.
  repeat (split; [assumption|]).
  exact (fetchProducts_unreachable _ _ H1 H2).
Defined.

(** ** A fetch that stops half way *)


Lemma getDeletedProductIds_run (w : World) :
  getDeletedProductIds w = (Return (deletions w), w).
Proof.
  unfold getDeletedProductIds, deletions, bind, gets, ret.
  destruct (STORED_PRODUCT_IDS w); reflexivity.
Qed.






(** ** What a push does *)

Lemma before_push_rest (w : World) :
  remote (before_push w) = remote w
  /\ sentRequests (before_push w) = sentRequests w
  /\ STORED_PRODUCT_IDS (before_push w) = STORED_PRODUCT_IDS w
  /\ activeSheet (before_push w) = activeSheet w.
Proof. repeat split. Qed.

(** X15.  When the base URL or the secret is missing, a push returns
    [{success: false, message}] with the configuration message; no request
    is sent, and the sheet and the snapshot are what they were. *)
Theorem updateProductsToWordPress_unconfigured
        (productRows : list ProductRow) (deletedIds : list jsstring)
        (w : World) :
  configured w = false ->
  exists w',
    updateProductsToWordPress productRows deletedIds w
    = (Return (PushFailure
         (js "Error: Please configure the WordPress API URL and secret key first in Settings.")),
       w')
    /\ activeSheet w' = activeSheet w
    /\ sentRequests w' = sentRequests w
    /\ STORED_PRODUCT_IDS w' = STORED_PRODUCT_IDS w.
Proof.
  intros H.
  unfold updateProductsToWordPress, try_catch, updateProductsToWordPress_try.
  rewrite bind_run, getConfig_run.
  change (isConfigured (config_of w)) with (configured w). rewrite H.
  eexists. split; [reflexivity|].
  destruct (after_getConfig_sheet w) as [H1 [H2 [H3 _]]].
  cbn [activeSheet sentRequests STORED_PRODUCT_IDS set_logger].
  repeat split; assumption.
Qed.

Lemma updateProductsToWordPress_unconfigured_witness :
  configured (set_WP_SECRET_KEY (Some []) edited_world) = false
  /\ exists w',
       updateProductsToWordPress
         (getAllProductRows (cells (activeSheet edited_world))) [js "2"]
         (set_WP_SECRET_KEY (Some []) edited_world)
       = (Return (PushFailure
            (js "Error: Please configure the WordPress API URL and secret key first in Settings.")),
          w')
       /\ activeSheet w' = activeSheet (set_WP_SECRET_KEY (Some []) edited_world)
       /\ sentRequests w'
          = sentRequests (set_WP_SECRET_KEY (Some []) edited_world)
       /\ STORED_PRODUCT_IDS w'
          = STORED_PRODUCT_IDS (set_WP_SECRET_KEY (Some []) edited_world).
Proof.
  split; [reflexivity|].
  apply (updateProductsToWordPress_unconfigured
           (getAllProductRows (cells (activeSheet edited_world))) [js "2"]
           (set_WP_SECRET_KEY (Some []) edited_world)).
  reflexivity.
Defined.

(** The run of a configured push whose request got an answer. *)
Lemma updateProductsToWordPress_try_answer (productRows : list ProductRow)
      (deletedIds : list jsstring) (w : World) :
  configured w = true ->
  updateProductsToWordPress_try productRows deletedIds w
  = match remote w (sentRequests w) (push_request productRows deletedIds w) with
    | Throw e =>
      (Throw e,
       set_sentRequests
         (sentRequests w ++ [push_request productRows deletedIds w])
         (before_push w))
    | Return response =>
      ((if negb (Z.eqb (getResponseCode response) 200)
        then
          errorResponse <- lift (JSON_parse_content response) ;;
          message <- lift (getProp errorResponse "message") ;;
          throw (mkJsError (js "Error")
                   (js "API Error: "
                    ++ ToString (js_or message (JStr (getContentText response)))))
        else
          modify (set_STORED_PRODUCT_IDS None) ;;;
          fetchProducts ;;;
          ret tt) ;;;
       result <- lift (JSON_parse_content response) ;;
       message <- lift (getProp result "message") ;;
       data <- lift (getProp result "data") ;;
       updated <- lift (getProp data "updated") ;;
       updatedCount <- lift (count_of updated) ;;
       deleted <- lift (getProp data "deleted") ;;
       deletedCount <- lift (count_of deleted) ;;
       ret (PushSuccess
              (js_or message (JStr (js "Products updated successfully")))
              updatedCount deletedCount))
        (set_sentRequests
           (sentRequests w ++ [push_request productRows deletedIds w])
           (before_push w))
    end.
Proof.
  intros H. rewrite (updateProductsToWordPress_try_sends _ _ w H), bind_run.
  unfold UrlFetchApp_fetch at 1.
  destruct (before_push_rest w) as [-> [-> _]].
  destruct (remote w (sentRequests w) (push_request productRows deletedIds w));
    reflexivity.
Qed.

(** The tail of a push, after the remote end has accepted it and the
    catalog has been fetched again: nothing but the log changes. *)
Lemma push_result_frame (response : Response) (w : World)
      (c : Completion PushResult) (w' : World) :
  (result <- lift (JSON_parse_content response) ;;
   message <- lift (getProp result "message") ;;
   data <- lift (getProp result "data") ;;
   updated <- lift (getProp data "updated") ;;
   updatedCount <- lift (count_of updated) ;;
   deleted <- lift (getProp data "deleted") ;;
   deletedCount <- lift (count_of deleted) ;;
   ret (PushSuccess
          (js_or message (JStr (js "Products updated successfully")))
          updatedCount deletedCount)) w = (c, w') ->
  w' = w.
Proof.
  unfold bind, lift, ret.
  repeat match goal with
         | |- context [match ?x with Return _ => _ | Throw _ => _ end] =>
           destruct x
         end;
    intros H; injection H as _ <-; reflexivity.
Qed.

(** The part of a push between the answer and the reading of the result:
    for an answer other than 200 it throws and changes nothing. *)
Lemma push_rejected_frame (response : Response) (w : World)
      (c : Completion unit) (w' : World) :
  (errorResponse <- lift (JSON_parse_content response) ;;
   message <- lift (getProp errorResponse "message") ;;
   throw (mkJsError (js "Error")
            (js "API Error: "
             ++ ToString (js_or message (JStr (getContentText response))))))
    w = (c, w') ->
  w' = w /\ exists e, c = Throw e.
Proof.
  unfold bind, lift, throw.
  repeat match goal with
         | |- context [match ?x with Return _ => _ | Throw _ => _ end] =>
           destruct x
         end;
    intros H; injection H as <- <-; split; try reflexivity; eexists;
    reflexivity.
Qed.

(** The world in which the catalog is fetched again after an accepted
    push. *)
Lemma push_accepted (productRows : list ProductRow)
      (deletedIds : list jsstring) (w : World) (response : Response) :
  configured w = true ->
  remote w (sentRequests w) (push_request productRows deletedIds w)
  = Return response ->
  getResponseCode response = 200%Z ->
  exists w2 r w3,
    configured w2 = true
    /\ STORED_PRODUCT_IDS w2 = None
    /\ sentRequests w2
       = sentRequests w ++ [push_request productRows deletedIds w]
    /\ fetch_request w2 = fetch_request (set_clockReads (S (clockReads w)) w)
    /\ fetchProducts w2 = (Return r, w3)
    /\ STORED_PRODUCT_IDS
         (snd (updateProductsToWordPress productRows deletedIds w))
       = STORED_PRODUCT_IDS w3
    /\ activeSheet (snd (updateProductsToWordPress productRows deletedIds w))
       = activeSheet w3
    /\ sentRequests (snd (updateProductsToWordPress productRows deletedIds w))
       = sentRequests w3.
Proof.
  intros H Hanswer Hcode.
  destruct (updateProductsToWordPress productRows deletedIds w) as [c w']
    eqn:Hrun.
  cbn [snd]. revert Hrun.
  unfold updateProductsToWordPress, try_catch.
  rewrite (updateProductsToWordPress_try_answer _ _ w H), Hanswer, Hcode.
  cbn [Z.eqb Pos.eqb negb].
  set (W := set_sentRequests _ (before_push w)).
  rewrite bind_run. rewrite (bind_run (modify _)). unfold modify at 1.
  destruct (fetchProducts_returns (set_STORED_PRODUCT_IDS None W))
    as [r [w3 Hfetch]].
  rewrite bind_run, Hfetch. unfold ret at 1.
  intros Hrun.
  exists (set_STORED_PRODUCT_IDS None W), r, w3.
  split; [exact H|]. split; [reflexivity|]. split; [reflexivity|].
  split; [reflexivity|]. split; [exact Hfetch|].
  match type of Hrun with
  | context [bind ?m ?k w3] =>
    destruct (bind m k w3) as [[v|e] w4] eqn:E
  end;
    apply push_result_frame in E; subst w4.
  - injection Hrun as _ <-. repeat split.
  - rewrite bind_run in Hrun. unfold Logger_log, modify, ret in Hrun.
    injection Hrun as _ <-. repeat split.
Qed.

Lemma push_not_accepted (productRows : list ProductRow)
      (deletedIds : list jsstring) (w : World) :
  configured w = true ->
  match remote w (sentRequests w) (push_request productRows deletedIds w) with
  | Return response => getResponseCode response <> 200%Z
  | Throw _ => True
  end ->
  exists w',
    updateProductsToWordPress productRows deletedIds w
    = (Return (PushFailure
         match remote w (sentRequests w)
                      (push_request productRows deletedIds w) with
         | Throw e => error_toString e
         | Return response =>
           match JSON_parse_content response with
           | Throw e => error_toString e
           | Return errorResponse =>
             match getProp errorResponse "message" with
             | Throw e => error_toString e
             | Return message =>
               js "Error: API Error: "
               ++ ToString (js_or message (JStr (getContentText response)))
             end
           end
         end), w')
    /\ activeSheet w' = activeSheet w
    /\ STORED_PRODUCT_IDS w' = STORED_PRODUCT_IDS w
    /\ sentRequests w'
       = sentRequests w ++ [push_request productRows deletedIds w].
Proof.
  intros H Hanswer.
  unfold updateProductsToWordPress, try_catch.
  rewrite (updateProductsToWordPress_try_answer _ _ w H).
  destruct (remote w (sentRequests w) (push_request productRows deletedIds w))
    as [response|e].
  - apply Z.eqb_neq in Hanswer. rewrite Hanswer. cbn [negb].
    rewrite bind_run, bind_run. unfold lift at 1.
    destruct (JSON_parse_content response) as [errorResponse|e].
    + rewrite bind_run. unfold lift at 1.
      destruct (getProp errorResponse "message") as [message|e];
        eexists; split; try reflexivity; repeat split.
    + eexists; split; try reflexivity; repeat split.
  - eexists; split; try reflexivity; repeat split.
Qed.

Lemma push_sent (productRows : list ProductRow)
      (deletedIds : list jsstring) (w : World) :
  configured w = true ->
  sentRequests (snd (updateProductsToWordPress productRows deletedIds w))
  = sentRequests w
    ++ push_request productRows deletedIds w
       :: match remote w (sentRequests w)
                       (push_request productRows deletedIds w) with
          | Return response =>
            if (getResponseCode response =? 200)%Z
            then [fetch_request (set_clockReads (S (clockReads w)) w)]
            else []
          | Throw _ => []
          end.
Proof.
  intros H.
  destruct (remote w (sentRequests w) (push_request productRows deletedIds w))
    as [response|e] eqn:Hanswer.
  - destruct (Z.eqb_spec (getResponseCode response) 200) as [Hcode|Hcode].
    + destruct (push_accepted _ _ w response H Hanswer Hcode)
        as [w2 [r [w3 [Hc [_ [Hs [Hreq [Hfetch [_ [_ Hsent]]]]]]]]]].
      rewrite Hsent.
      pose proof (fetchProducts_sent w2 Hc) as Hone.
      rewrite Hfetch in Hone. cbn [snd] in Hone.
      rewrite Hone, Hs, Hreq, <- app_assoc. reflexivity.
    + destruct (push_not_accepted productRows deletedIds w H) as [w' [Hrun Hw']].
      * rewrite Hanswer. exact Hcode.
      * rewrite Hrun. apply Hw'.
  - destruct (push_not_accepted productRows deletedIds w H) as [w' [Hrun Hw']].
    + rewrite Hanswer. exact I.
    + rewrite Hrun. apply Hw'.
Qed.

(** X16.  The requests of a configured push: first a POST to the update
    route whose payload has one product object per row, in order, and the
    deleted ids as passed; then, only when that request was answered with
    status 200, the GET of a fetch, with the token of the second reading of
    the clock. *)
Theorem updateProductsToWordPress_requests (productRows : list ProductRow)
        (deletedIds : list jsstring) (w : World) :
  configured w = true ->
  sentRequests (snd (updateProductsToWordPress productRows deletedIds w))
  = sentRequests w
    ++ push_request productRows deletedIds w
       :: match remote w (sentRequests w)
                       (push_request productRows deletedIds w) with
          | Return response =>
            if (getResponseCode response =? 200)%Z
            then [fetch_request (set_clockReads (S (clockReads w)) w)]
            else []
          | Throw _ => []
          end.
Proof. exact (push_sent productRows deletedIds w). Qed.

Lemma updateProductsToWordPress_requests_witness :
  configured edited_world = true
  /\ sentRequests
       (snd (updateProductsToWordPress
               (getAllProductRows (cells (activeSheet edited_world)))
               [js "2"] edited_world))
     = sentRequests edited_world
       ++ push_request (getAllProductRows (cells (activeSheet edited_world)))
                       [js "2"] edited_world
          :: match remote edited_world (sentRequests edited_world)
                          (push_request
                             (getAllProductRows (cells (activeSheet edited_world)))
                             [js "2"] edited_world) with
             | Return response =>
               if (getResponseCode response =? 200)%Z
               then [fetch_request
                       (set_clockReads (S (clockReads edited_world)) edited_world)]
               else []
             | Throw _ => []
             end.
Proof.
  split; [reflexivity|].
  apply (updateProductsToWordPress_requests
           (getAllProductRows (cells (activeSheet edited_world))) [js "2"]
           edited_world).
  reflexivity.
Defined.



(** X18.  Once the remote end has accepted a push (status 200), the
    deletions are forgotten whatever the push then returns, a failure
    included: the snapshot is absent or holds the ids in the grid, and
    [getDeletedProductIds] returns the empty list. *)
Theorem accepted_push_forgets_deletions (productRows : list ProductRow)
        (deletedIds : list jsstring) (w : World) (response : Response) :
  configured w = true ->
  remote w (sentRequests w) (push_request productRows deletedIds w)
  = Return response ->
  getResponseCode response = 200%Z ->
  getDeletedProductIds (snd (updateProductsToWordPress productRows deletedIds w))
  = (Return [], snd (updateProductsToWordPress productRows deletedIds w)).
Proof.
  intros H Hanswer Hcode.
  destruct (push_accepted _ _ w response H Hanswer Hcode)
    as [w2 [r [w3 [_ [Hnone [_ [_ [Hfetch [Hstored [Hsheet _]]]]]]]]]].
  apply no_deletions. rewrite Hstored, Hsheet.
  apply fetchProducts_store in Hfetch. rewrite Hfetch, Hnone.
  destruct (fetch_success r); [right|left]; reflexivity.
Qed.

Lemma accepted_push_forgets_deletions_witness :
  configured edited_world = true
  /\ remote edited_world (sentRequests edited_world)
            (push_request (getAllProductRows (cells (activeSheet edited_world)))
                          [js "2"] edited_world)
     = Return push_response_without_data
  /\ getResponseCode push_response_without_data = 200%Z
  /\ getDeletedProductIds
       (snd (updateProductsToWordPress
               (getAllProductRows (cells (activeSheet edited_world)))
               [js "2"] edited_world))
     = (Return [],
        snd (updateProductsToWordPress
               (getAllProductRows (cells (activeSheet edited_world)))
               [js "2"] edited_world)).
Proof.
  assert (H1 : configured edited_world = true) by reflexivity.
  assert (H2 : remote edited_world (sentRequests edited_world)
                      (push_request
                         (getAllProductRows (cells (activeSheet edited_world)))
                         [js "2"] edited_world)
               = Return push_response_without_data) by reflexivity.
  assert (H3 : getResponseCode push_response_without_data = 200%Z)
    by reflexivity.
  split; [exact H1|]. split; [exact H2|]. split; [exact H3|].
  exact (accepted_push_forgets_deletions
           (getAllProductRows (cells (activeSheet edited_world))) [js "2"]
           edited_world push_response_without_data H1 H2 H3).
Defined.

Lemma no_deletions_after_push_witness :
  updateProductsToWordPress
    (getAllProductRows (cells (activeSheet edited_world))) [js "2"]
    (set_remote obliging_shop edited_world)
  = (Return (PushSuccess (JStr (js "Products updated")) (JNum 2) (JNum 1)),
     snd (updateProductsToWordPress
            (getAllProductRows (cells (activeSheet edited_world))) [js "2"]
            (set_remote obliging_shop edited_world)))
  /\ getDeletedProductIds
       (snd (updateProductsToWordPress
               (getAllProductRows (cells (activeSheet edited_world))) [js "2"]
               (set_remote obliging_shop edited_world)))
     = (Return [],
        snd (updateProductsToWordPress
               (getAllProductRows (cells (activeSheet edited_world))) [js "2"]
               (set_remote obliging_shop edited_world))).
Proof.
  assert (H : updateProductsToWordPress
                (getAllProductRows (cells (activeSheet edited_world))) [js "2"]
                (set_remote obliging_shop edited_world)
              = (Return (PushSuccess (JStr (js "Products updated"))
                                     (JNum 2) (JNum 1)),
                 snd (updateProductsToWordPress
                        (getAllProductRows (cells (activeSheet edited_world)))
                        [js "2"] (set_remote obliging_shop edited_world))))
    by (vm_compute; reflexivity).
  split; [exact H|].
  exact (no_deletions_after_push
           (getAllProductRows (cells (activeSheet edited_world))) [js "2"]
           (set_remote obliging_shop edited_world) _ _ _ _ H).
Defined.

(** ** What the two menu entries push *)

Lemma deletions_spec (w : World) (id : jsstring) :
  In id (deletions w)
  <-> exists storedIds,
        STORED_PRODUCT_IDS w = Some storedIds
        /\ In id storedIds
        /\ ~ In id (current_product_ids (cells (activeSheet w))).
Proof.
  unfold deletions. destruct (STORED_PRODUCT_IDS w) as [storedIds|].
  - unfold deleted_ids. rewrite filter_In, Z.eqb_eq, indexOf_absent. split.
    + intros [H1 H2]. exists storedIds. repeat split; assumption.
    + intros [l [E [H1 H2]]]. injection E as <-. split; assumption.
  - split; [intros []|]. intros [l [E _]]. discriminate E.
Qed.

Lemma updateAllProducts_run (w : World) :
  getAllProductRows (cells (activeSheet w)) <> [] ->
  updateAllProducts w
  = updateProductsToWordPress (getAllProductRows (cells (activeSheet w)))
                              (deletions w) w.
Proof.
  intros H. unfold updateAllProducts. rewrite bind_run. unfold gets.
  destruct (getAllProductRows (cells (activeSheet w))) as [|row rows];
    [contradiction|].
  cbn [List.length Nat.eqb]. rewrite bind_run, getDeletedProductIds_run.
  reflexivity.
Qed.

Lemma updateSelectedProducts_run (w : World) :
  getSelectedProductRows (activeRange w) (cells (activeSheet w)) <> [] ->
  updateSelectedProducts w
  = updateProductsToWordPress
      (getSelectedProductRows (activeRange w) (cells (activeSheet w)))
      (deletions w) w.
Proof.
  intros H. unfold updateSelectedProducts. rewrite bind_run. unfold gets.
  destruct (getSelectedProductRows (activeRange w) (cells (activeSheet w)))
    as [|row rows]; [contradiction|].
  cbn [List.length Nat.eqb]. rewrite bind_run, getDeletedProductIds_run.
  reflexivity.
Qed.

(** X19.  In a configured world with rows under the header,
    [updateAllProducts] first sends the POST whose payload lists one product
    object per data row and, as [deleted_ids], the ids of the snapshot that
    are no longer in the key column; a fetch follows only when the push was
    answered with status 200. *)
Theorem updateAllProducts_requests (w : World) :
  configured w = true ->
  getAllProductRows (cells (activeSheet w)) <> [] ->
  exists deletedIds request,
    (forall id,
        In id deletedIds
        <-> exists storedIds,
              STORED_PRODUCT_IDS w = Some storedIds
              /\ In id storedIds
              /\ ~ In id (current_product_ids (cells (activeSheet w))))
    /\ request = push_request (getAllProductRows (cells (activeSheet w)))
                              deletedIds w
    /\ req_payload request
       = Some (JObj [(js "products",
                      JArr (map product_of_row
                                (getAllProductRows (cells (activeSheet w)))));
                     (js "deleted_ids", JArr (map JStr deletedIds))])
    /\ sentRequests (snd (updateAllProducts w))
       = sentRequests w
         ++ request
            :: match remote w (sentRequests w) request with
               | Return response =>
                 if (getResponseCode response =? 200)%Z
                 then [fetch_request (set_clockReads (S (clockReads w)) w)]
                 else []
               | Throw _ => []
               end.
Proof.
  intros H Hrows. exists (deletions w). eexists.
  split; [apply deletions_spec|]. split; [reflexivity|].
  split; [reflexivity|].
  rewrite (updateAllProducts_run w Hrows). apply push_sent. exact H.
Qed.

Lemma updateAllProducts_requests_witness :
  configured edited_world = true
  /\ getAllProductRows (cells (activeSheet edited_world)) <> []
  /\ exists deletedIds request,
       (forall id,
           In id deletedIds
           <-> exists storedIds,
                 STORED_PRODUCT_IDS edited_world = Some storedIds
                 /\ In id storedIds
                 /\ ~ In id (current_product_ids
                               (cells (activeSheet edited_world))))
       /\ request = push_request
                      (getAllProductRows (cells (activeSheet edited_world)))
                      deletedIds edited_world
       /\ req_payload request
          = Some (JObj [(js "products",
                         JArr (map product_of_row
                                   (getAllProductRows
                                      (cells (activeSheet edited_world)))));
                        (js "deleted_ids", JArr (map JStr deletedIds))])
       /\ sentRequests (snd (updateAllProducts edited_world))
          = sentRequests edited_world
            ++ request
               :: match remote edited_world (sentRequests edited_world)
                               request with
                  | Return response =>
                    if (getResponseCode response =? 200)%Z
                    then [fetch_request
                            (set_clockReads (S (clockReads edited_world))
                                            edited_world)]
                    else []
                  | Throw _ => []
                  end.
Proof.
  assert (H1 : configured edited_world = true) by reflexivity.
  assert (H2 : getAllProductRows (cells (activeSheet edited_world)) <> [])
    by (vm_compute; discriminate).
  split; [exact H1|]. split; [exact H2|].
  exact (updateAllProducts_requests edited_world H1 H2).
Defined.

(** X20.  In a configured world with a selection that holds rows under the
    header, [updateSelectedProducts] first sends the POST whose payload
    lists one product object per selected row and, as [deleted_ids], every
    id of the snapshot that is no longer in the key column, whether or not
    its row was in the selection. *)
Theorem updateSelectedProducts_requests (w : World) :
  configured w = true ->
  getSelectedProductRows (activeRange w) (cells (activeSheet w)) <> [] ->
  exists deletedIds request,
    (forall id,
        In id deletedIds
        <-> exists storedIds,
              STORED_PRODUCT_IDS w = Some storedIds
              /\ In id storedIds
              /\ ~ In id (current_product_ids (cells (activeSheet w))))
    /\ request
       = push_request
           (getSelectedProductRows (activeRange w) (cells (activeSheet w)))
           deletedIds w
    /\ req_payload request
       = Some (JObj [(js "products",
                      JArr (map product_of_row
                                (getSelectedProductRows
                                   (activeRange w) (cells (activeSheet w)))));
                     (js "deleted_ids", JArr (map JStr deletedIds))])
    /\ sentRequests (snd (updateSelectedProducts w))
       = sentRequests w
         ++ request
            :: match remote w (sentRequests w) request with
               | Return response =>
                 if (getResponseCode response =? 200)%Z
                 then [fetch_request (set_clockReads (S (clockReads w)) w)]
                 else []
               | Throw _ => []
               end.
Proof.
  intros H Hrows. exists (deletions w). eexists.
  split; [apply deletions_spec|]. split; [reflexivity|].
  split; [reflexivity|].
  rewrite (updateSelectedProducts_run w Hrows). apply push_sent. exact H.
Qed.

Lemma updateSelectedProducts_requests_witness :
  configured edited_world = true
  /\ getSelectedProductRows (activeRange edited_world)
                            (cells (activeSheet edited_world)) <> []
  /\ exists deletedIds request,
       (forall id,
           In id deletedIds
           <-> exists storedIds,
                 STORED_PRODUCT_IDS edited_world = Some storedIds
                 /\ In id storedIds
                 /\ ~ In id (current_product_ids
                               (cells (activeSheet edited_world))))
       /\ request
          = push_request
              (getSelectedProductRows (activeRange edited_world)
                                      (cells (activeSheet edited_world)))
              deletedIds edited_world
       /\ req_payload request
          = Some (JObj [(js "products",
                         JArr (map product_of_row
                                   (getSelectedProductRows
                                      (activeRange edited_world)
                                      (cells (activeSheet edited_world)))));
                        (js "deleted_ids", JArr (map JStr deletedIds))])
       /\ sentRequests (snd (updateSelectedProducts edited_world))
          = sentRequests edited_world
            ++ request
               :: match remote edited_world (sentRequests edited_world)
                               request with
                  | Return response =>
                    if (getResponseCode response =? 200)%Z
                    then [fetch_request
                            (set_clockReads (S (clockReads edited_world))
                                            edited_world)]
                    else []
                  | Throw _ => []
                  end.
Proof.
  assert (H1 : configured edited_world = true) by reflexivity.
  assert (H2 : getSelectedProductRows (activeRange edited_world)
                                      (cells (activeSheet edited_world)) <> [])
    by (vm_compute; discriminate).
  split; [exact H1|]. split; [exact H2|].
  exact (updateSelectedProducts_requests edited_world H1 H2).
Defined.

(** ** The connection test *)

(** X21.  When the base URL or the secret is missing, [testConnection]
    throws the configuration error to its caller; no request is sent, and
    the sheet and the snapshot are what they were. *)
Theorem testConnection_unconfigured (w : World) :
  configured w = false ->
  exists w',
    testConnection w = (Throw not_configured, w')
    /\ sentRequests w' = sentRequests w
    /\ activeSheet w' = activeSheet w
    /\ STORED_PRODUCT_IDS w' = STORED_PRODUCT_IDS w.
Proof.
  intros H. unfold testConnection. rewrite bind_run, getConfig_run.
  change (isConfigured (config_of w)) with (configured w). rewrite H.
  eexists. split; [reflexivity|].
  destruct (after_getConfig_sheet w) as [H1 [H2 [H3 _]]].
  repeat split; assumption.
Qed.

Lemma testConnection_unconfigured_witness :
  configured unconfigured_world = false
  /\ exists w',
       testConnection unconfigured_world = (Throw not_configured, w')
       /\ sentRequests w' = sentRequests unconfigured_world
       /\ activeSheet w' = activeSheet unconfigured_world
       /\ STORED_PRODUCT_IDS w' = STORED_PRODUCT_IDS unconfigured_world.
Proof.
  split; [reflexivity|].
  apply (testConnection_unconfigured unconfigured_world). reflexivity.
Defined.

(** X22.  A configured connection test sends one GET to the test route and
    touches neither the sheet nor the snapshot.  It returns [{success: true,
    message: 'Connection successful'}] exactly when the remote end answers
    with status 200; when the remote end cannot be reached or answers with
    another status, it throws to its caller: nothing is caught. *)
Theorem testConnection_outcome (w : World) :
  configured w = true ->
  sentRequests (snd (testConnection w)) = sentRequests w ++ [test_request w]
  /\ activeSheet (snd (testConnection w)) = activeSheet w
  /\ STORED_PRODUCT_IDS (snd (testConnection w)) = STORED_PRODUCT_IDS w
  /\ match remote w (sentRequests w) (test_request w) with
     | Return response =>
       if (getResponseCode response =? 200)%Z
       then fst (testConnection w)
            = Return (ConnectionSuccess (js "Connection successful"))
       else exists e, fst (testConnection w) = Throw e
     | Throw e => fst (testConnection w) = Throw e
     end.
Proof.
  intros H. destruct (testConnection w) as [c w'] eqn:Hrun.
  cbn [fst snd]. revert Hrun.
  rewrite (testConnection_sends w H), bind_run.
  unfold UrlFetchApp_fetch at 1.
  destruct (before_push_rest w) as [-> [-> _]].
  destruct (remote w (sentRequests w) (test_request w)) as [response|e].
  - destruct (getResponseCode response =? 200)%Z; cbn [negb].
    + unfold ret. intros Hrun. injection Hrun as <- <-. repeat split.
    + unfold bind, lift, throw.
      destruct (JSON_parse_content response) as [errorResponse|e];
        [destruct (getProp errorResponse "message") as [message|e]|];
        intros Hrun; injection Hrun as <- <-;
        (split; [reflexivity|]); (split; [reflexivity|]);
        (split; [reflexivity|]); eexists; reflexivity.
  - intros Hrun. injection Hrun as <- <-. repeat split.
Qed.

Lemma testConnection_outcome_witness :
  configured fresh_world = true
  /\ sentRequests (snd (testConnection fresh_world))
     = sentRequests fresh_world ++ [test_request fresh_world]
  /\ activeSheet (snd (testConnection fresh_world)) = activeSheet fresh_world
  /\ STORED_PRODUCT_IDS (snd (testConnection fresh_world))
     = STORED_PRODUCT_IDS fresh_world
  /\ match remote fresh_world (sentRequests fresh_world)
                  (test_request fresh_world) with
     | Return response =>
       if (getResponseCode response =? 200)%Z
       then fst (testConnection fresh_world)
            = Return (ConnectionSuccess (js "Connection successful"))
       else exists e, fst (testConnection fresh_world) = Throw e
     | Throw e => fst (testConnection fresh_world) = Throw e
     end.
Proof.
  split; [reflexivity|].
  apply (testConnection_outcome fresh_world). reflexivity.
Defined.

(** ** The snapshot a fetch takes *)











